(** * Parcel normalisation and reconciliation layer

    A shallow embedding of the TypeScript sources
      - [src/lib/regrid.ts] (and its later revision),
      - [src/app/api/user-properties/route.ts] (both revisions),
      - [src/app/api/user-properties/check-apn/route.ts],
      - [src/app/api/user-properties/[id]/refresh/route.ts],
      - [src/app/api/properties/[id]/route.ts],
      - the upload callbacks of [src/components/upload/csv-upload.tsx] (later
        revision),
    together with the fragment of JavaScript they are written in. *)

From stdpp Require Import base option list strings gmap pretty.
From Stdlib Require Import ZArith Lia Ascii.

Local Set Warnings "-register-all".
Local Open Scope string_scope.
Local Open Scope list_scope.
Local Open Scope Z_scope.

(** ** JavaScript values *)

Module JS.

(** Numbers.  A finite number is named by a decimal: [Dec m e] is the double
    nearest to [m * 10^e] (see [to_double]).  The two zeros are identified:
    the code only tests numbers for truthiness and prints them, and both
    zeros are falsy and print as "0". *)
Inductive number : Type :=
  | NaN
  | Infinity (negative : bool)
  | Dec (m : Z) (e : Z).

Inductive value : Type :=
  | Undefined
  | Null
  | Bool (b : bool)
  | Num (n : number)
  | Str (s : string)
  | Arr (items : list value)
  | Obj (props : gmap string value).

Definition object : Type := gmap string value.

(** What a JavaScript [throw] carries, as far as the code looks at it: the
    message of the [Error]. *)
Inductive result (A : Type) : Type :=
  | Ok (a : A)
  | Throw (message : string).
Arguments Ok {A} a.
Arguments Throw {A} message.

#[export] Instance result_ret : MRet result := fun A a => Ok a.

#[export] Instance result_bind : MBind result := fun A B k r =>
  match r with
  | Ok a => k a
  | Throw m => Throw m
  end.

#[export] Instance result_fmap : FMap result := fun A B f r =>
  match r with
  | Ok a => Ok (f a)
  | Throw m => Throw m
  end.

(** *** Truthiness and the short-circuit operators *)

Definition is_zero (n : number) : bool :=
  match n with
  | Dec m _ => m =? 0
  | _ => false
  end.

Definition is_nan (n : number) : bool :=
  match n with
  | NaN => true
  | _ => false
  end.

Definition is_finite (n : number) : bool :=
  match n with
  | Dec _ _ => true
  | _ => false
  end.

(** ToBoolean *)
Definition truthy (v : value) : bool :=
  match v with
  | Undefined | Null => false
  | Bool b => b
  | Num n => negb (is_nan n) && negb (is_zero n)
  | Str s => negb (String.eqb s "")
  | Arr _ | Obj _ => true
  end.

(** [a || b] on values that are already evaluated *)
Definition or_else (a b : value) : value := if truthy a then a else b.

Definition nullish (v : value) : bool :=
  match v with
  | Undefined | Null => true
  | _ => false
  end.

(** *** Properties *)

Definition indexed (items : list value) : object :=
  list_to_map (imap (fun i x => (pretty i, x)) items).

(** The indexed members of a string, one for each byte, and so is its
    [length] below: for a string of ASCII characters these are its code
    units. *)
Definition chars (s : string) : list value :=
  (fun c => Str (String c "")) <$> String.list_ascii_of_string s.

(** The own enumerable properties of a value, which is what an object spread
    [{...v}] copies. *)
Definition own_props (v : value) : object :=
  match v with
  | Obj o => o
  | Arr items => indexed items
  | Str s => indexed (chars s)
  | _ => ∅
  end.

(** [v.k] for a [v] that is neither null nor undefined.  Members inherited
    from a prototype are not modelled: none of the names the code reads is
    one. *)
Definition prop (v : value) (k : string) : value :=
  match v with
  | Obj o => default Undefined (o !! k)
  | Arr items =>
      if String.eqb k "length" then Num (Dec (Z.of_nat (length items)) 0)
      else default Undefined (indexed items !! k)
  | Str s =>
      if String.eqb k "length" then Num (Dec (Z.of_nat (String.length s)) 0)
      else default Undefined (indexed (chars s) !! k)
  | _ => Undefined
  end.

(** [v.k] *)
Definition member (v : value) (k : string) : result value :=
  match v with
  | Undefined =>
      Throw ("Cannot read properties of undefined (reading '" +:+ k +:+ "')")
  | Null =>
      Throw ("Cannot read properties of null (reading '" +:+ k +:+ "')")
  | _ => Ok (prop v k)
  end.

(** [v?.k] *)
Definition opt_member (v : value) (k : string) : value :=
  if nullish v then Undefined else prop v k.

(** *** Strings

    A string is the sequence of the bytes of its UTF-8 encoding.  Two
    built-ins depend on tables of the Unicode Character Database.  White
    space is a short list, written out below.  The case mapping is not: it is
    the engine's, and [String.prototype.toLowerCase] is taken as given, so
    that what is proved of the code holds whatever the mapping is. *)

Class Unicode : Type := {
  (** [s.toLowerCase()] *)
  toLowerCase : string -> string }.

(** The case mapping on the letters A to Z, the only letters of the sample
    data below. *)
Definition lower_char (c : ascii) : ascii :=
  let n := Ascii.N_of_ascii c in
  if ((65 <=? n) && (n <=? 90))%N then Ascii.ascii_of_N (n + 32) else c.

Fixpoint ascii_lower (s : string) : string :=
  match s with
  | EmptyString => EmptyString
  | String c r => String (lower_char c) (ascii_lower r)
  end.

(** [s.replace(/c/g, '')] for a single character [c] *)
Fixpoint remove_all (c : ascii) (s : string) : string :=
  match s with
  | EmptyString => EmptyString
  | String d r =>
      if Ascii.eqb c d then remove_all c r else String d (remove_all c r)
  end.

(** [s.includes(sub)] *)
Fixpoint includes (s sub : string) : bool :=
  String.prefix sub s ||
  match s with
  | EmptyString => false
  | String _ r => includes r sub
  end.

(** White space and line terminators, by the bytes of their encoding: the
    characters U+0009 to U+000D and U+0020 are one byte, U+00A0 is two, and
    U+1680, U+2000 to U+200A, U+2028, U+2029, U+202F, U+205F, U+3000 and
    U+FEFF are three. *)
Definition space1 (a : ascii) : bool :=
  let a := Ascii.N_of_ascii a in
  ((9 <=? a) && (a <=? 13) || (a =? 32))%N.

Definition space2 (a b : ascii) : bool :=
  ((Ascii.N_of_ascii a =? 194) && (Ascii.N_of_ascii b =? 160))%N.

Definition space3 (a b c : ascii) : bool :=
  let a := Ascii.N_of_ascii a in
  let b := Ascii.N_of_ascii b in
  let c := Ascii.N_of_ascii c in
  ((a =? 225) && (b =? 154) && (c =? 128)
   || (a =? 226) && (b =? 128) &&
      ((128 <=? c) && (c <=? 138) || (c =? 168) || (c =? 169) || (c =? 175))
   || (a =? 226) && (b =? 129) && (c =? 159)
   || (a =? 227) && (b =? 128) && (c =? 128)
   || (a =? 239) && (b =? 187) && (c =? 191))%N.

(** The bytes that are left when the white space in front is dropped;
    [backwards] is for bytes that are given last byte first. *)
Fixpoint strip (backwards : bool) (cs : list ascii) : list ascii :=
  match cs with
  | [] => []
  | a :: r =>
      if space1 a then strip backwards r
      else
        match r with
        | [] => cs
        | b :: r2 =>
            if (if backwards then space2 b a else space2 a b)
            then strip backwards r2
            else
              match r2 with
              | [] => cs
              | c :: r3 =>
                  if (if backwards then space3 c b a else space3 a b c)
                  then strip backwards r3
                  else cs
              end
        end
  end.

Definition trim_start (cs : list ascii) : list ascii := strip false cs.

Definition trim_end (cs : list ascii) : list ascii :=
  reverse (strip true (reverse cs)).

(** [s.trim()] *)
Definition trim (s : string) : string :=
  String.string_of_list_ascii
    (trim_end (trim_start (String.list_ascii_of_string s))).

(** *** Numbers: rounding, printing, parsing

    A finite number is named by the decimal that is printed for it: [Dec m e]
    is the double nearest to [m * 10^e], and of the decimals that have that
    double as their nearest one [to_double] returns the shortest. *)

Fixpoint strip_zeros (fuel : nat) (m e : Z) : Z * Z :=
  match fuel with
  | O => (m, e)
  | S f => if m mod 10 =? 0 then strip_zeros f (m / 10) (e + 1) else (m, e)
  end.

(** The mantissa without trailing zeros; zero is [(0, 0)]. *)
Definition canonical (m e : Z) : Z * Z :=
  if m =? 0 then (0, 0)
  else strip_zeros (S (Z.to_nat (Z.log2 (Z.abs m)))) m e.

(** The decimal [m * 10^e] as a fraction *)
Definition decimal_ratio (m e : Z) : Z * Z :=
  if 0 <=? e then (m * 10 ^ e, 1) else (m, 10 ^ (- e)).

(** The integer part of the binary logarithm of [num / den], both
    positive *)
Definition log2_ratio (num den : Z) : Z :=
  let e := Z.log2 num - Z.log2 den in
  if den * 2 ^ Z.max e 0 <=? num * 2 ^ Z.max (- e) 0 then e else e - 1.

(** The double nearest to [num / den], both positive, a tie going to the
    even mantissa: it is [q * 2^p], with [2^52 <= q < 2^53] in the normal
    range and [p = -1074] below it.  A [p] above 971 is beyond the largest
    double. *)
Definition nearest_double (num den : Z) : Z * Z :=
  let p := Z.max (log2_ratio num den - 52) (-1074) in
  let n := num * 2 ^ Z.max (- p) 0 in
  let d := den * 2 ^ Z.max p 0 in
  let q := n / d in
  let r := n mod d in
  let q := if (d <? 2 * r) || ((d =? 2 * r) && Z.odd q) then q + 1 else q in
  if q =? 2 ^ 53 then (2 ^ 52, p + 1) else (q, p).

Fixpoint count_digits (fuel : nat) (i : Z) : Z :=
  match fuel with
  | O => 1
  | S f => if i <? 10 then 1 else 1 + count_digits f (i / 10)
  end.

Fixpoint leading_zeros (fuel : nat) (num den : Z) : Z :=
  match fuel with
  | O => 0
  | S f => if den <=? num then 0 else 1 + leading_zeros f (10 * num) den
  end.

(** The [n] with [10^(n-1) <= num / den < 10^n] *)
Definition decimal_exponent (num den : Z) : Z :=
  if den <=? num then count_digits (S (Z.to_nat (Z.log2 num))) (num / den)
  else 1 - leading_zeros (S (Z.to_nat (Z.log2 den))) num den.

(** Whether [q * 2^p] is the double nearest to [s * 10^scale] *)
Definition rounds_to (q p s scale : Z) : bool :=
  let '(num, den) := decimal_ratio s scale in
  let '(q', p') := nearest_double num den in
  (q' =? q) && (p' =? p).

(** The decimal of [k] digits that has [q * 2^p] as its nearest double, if
    there is one, and the nearer one if there are two; [n] is the decimal
    exponent of the double. *)
Definition shortest_of (q p n k : Z) : option (Z * Z) :=
  let num := q * 2 ^ Z.max p 0 in
  let den := 2 ^ Z.max (- p) 0 in
  let scale := n - k in
  let sn := num * 10 ^ Z.max (- scale) 0 in
  let sd := den * 10 ^ Z.max scale 0 in
  let lo := sn / sd in
  let twice := 2 * (sn mod sd) in
  match rounds_to q p lo scale, rounds_to q p (lo + 1) scale with
  | true, true =>
      Some (if (twice <? sd) || ((twice =? sd) && Z.even lo) then lo else lo + 1,
            scale)
  | true, false => Some (lo, scale)
  | false, true => Some (lo + 1, scale)
  | false, false => None
  end.

Fixpoint shortest_from (q p n : Z) (digits : list Z) : Z * Z :=
  match digits with
  | [] => (q, 0)
  | k :: rest =>
      match shortest_of q p n k with
      | Some found => found
      | None => shortest_from q p n rest
      end
  end.

(** The digits that [Number::toString] prints for the double [q * 2^p]:
    as few as identify it, seventeen at most. *)
Definition shortest (q p : Z) : Z * Z :=
  let n := decimal_exponent (q * 2 ^ Z.max p 0) (2 ^ Z.max (- p) 0) in
  shortest_from q p n [1; 2; 3; 4; 5; 6; 7; 8; 9; 10; 11; 12; 13; 14; 15; 16; 17].

(** The number value of the decimal [m * 10^e], [0 <= m], with the given
    sign.  The first two tests keep the powers of ten small: a decimal with
    an exponent above 309 is beyond the largest double, and [m * 10^e] is
    below [2^(log2 m + 1 + 3 * e)], which below [2^-1075] rounds to zero. *)
Definition to_double (negative : bool) (m e : Z) : number :=
  if m =? 0 then Dec 0 0
  else if 309 <? e then Infinity negative
  else if Z.log2 m + 1 + 3 * e <? -1075 then Dec 0 0
  else
    let '(num, den) := decimal_ratio m e in
    let '(q, p) := nearest_double num den in
    if 971 <? p then Infinity negative
    else if q =? 0 then Dec 0 0
    else
      let '(s, scale) := shortest q p in
      let '(m', e') := canonical s scale in
      Dec (if negative then - m' else m') e'.

Definition zeros (n : Z) : string :=
  String.string_of_list_ascii (replicate (Z.to_nat n) "0"%char).

Definition slice (from len : Z) (s : string) : string :=
  String.substring (Z.to_nat from) (Z.to_nat len) s.

(** Number::toString, radix 10 *)
Definition number_to_string (x : number) : string :=
  match x with
  | NaN => "NaN"
  | Infinity negative => if negative then "-Infinity" else "Infinity"
  | Dec m e =>
      let '(m, e) := canonical m e in
      if m =? 0 then "0"
      else
        let s := pretty (Z.abs_N m) in
        let k := Z.of_nat (String.length s) in
        let n := k + e in
        let body :=
          if (k <=? n) && (n <=? 21) then s +:+ zeros (n - k)
          else if (0 <? n) && (n <=? 21) then
            slice 0 n s +:+ "." +:+ slice n (k - n) s
          else if (-6 <? n) && (n <=? 0) then "0." +:+ zeros (- n) +:+ s
          else
            let ex := n - 1 in
            let exs :=
              (if 0 <=? ex then "+" else "-") +:+ pretty (Z.abs_N ex) in
            if k =? 1 then s +:+ "e" +:+ exs
            else slice 0 1 s +:+ "." +:+ slice 1 (k - 1) s +:+ "e" +:+ exs in
        if m <? 0 then "-" +:+ body else body
  end.

(** *** Conversions

    The values are those of JSON, and undefined.  An object read from JSON
    has the [toString] and the [valueOf] of [Object.prototype] unless it has
    members of these names, and a member read from JSON is never a function.
    So ToPrimitive returns on an object exactly when it has no member
    [toString]; on one that has it finds no method that gives a primitive and
    throws a TypeError.  An array is converted by [join], which converts its
    elements. *)
Fixpoint convertible (v : value) : bool :=
  match v with
  | Arr items =>
      (fix all (l : list value) : bool :=
         match l with
         | [] => true
         | x :: r => convertible x && all r
         end) items
  | Obj o => bool_decide (o !! "toString" = None)
  | _ => true
  end.

(** The string of a value on which the conversion returns.  An array prints
    its elements separated by commas, null and undefined elements as the
    empty string. *)
Fixpoint to_string (v : value) : string :=
  match v with
  | Undefined => "undefined"
  | Null => "null"
  | Bool b => if b then "true" else "false"
  | Num n => number_to_string n
  | Str s => s
  | Arr items =>
      (fix join (l : list value) : string :=
         match l with
         | [] => ""
         | x :: r =>
             let sx := if nullish x then "" else to_string x in
             match r with
             | [] => sx
             | _ => sx +:+ "," +:+ join r
             end
         end) items
  | Obj _ => "[object Object]"
  end.

(** ToString, and with it [String(v)] *)
Definition String_ (v : value) : result string :=
  if convertible v then Ok (to_string v)
  else Throw "Cannot convert object to primitive value".

Definition parse_sign (cs : list ascii) : bool * list ascii :=
  match cs with
  | "+"%char :: r => (false, r)
  | "-"%char :: r => (true, r)
  | _ => (false, cs)
  end.

Definition digit_of (radix : Z) (c : ascii) : option Z :=
  let n := Z.of_N (Ascii.N_of_ascii c) in
  let d :=
    if (48 <=? n) && (n <=? 57) then n - 48
    else if (97 <=? n) && (n <=? 122) then n - 87
    else if (65 <=? n) && (n <=? 90) then n - 55
    else radix in
  if d <? radix then Some d else None.

(** The longest prefix of digits, and what follows it. *)
Fixpoint take_digits (radix : Z) (cs : list ascii) : list Z * list ascii :=
  match cs with
  | c :: r =>
      match digit_of radix c with
      | Some d => let '(ds, rest) := take_digits radix r in (d :: ds, rest)
      | None => ([], cs)
      end
  | [] => ([], [])
  end.

Definition digits_value (radix : Z) (ds : list Z) : Z :=
  fold_left (fun acc d => radix * acc + d) ds 0.

(** The exponent part, if the characters start with one, and what follows
    it. *)
Definition parse_exponent (cs : list ascii) : Z * list ascii :=
  match cs with
  | c :: r =>
      if Ascii.eqb c "e" || Ascii.eqb c "E" then
        let '(negative, r') := parse_sign r in
        match take_digits 10 r' with
        | ([], _) => (0, cs)
        | (ds, rest) =>
            (if negative then - digits_value 10 ds else digits_value 10 ds, rest)
        end
      else (0, cs)
  | [] => (0, [])
  end.

Definition starts_with (p : string) (cs : list ascii) : bool :=
  String.prefix p (String.string_of_list_ascii cs).

(** The longest prefix that is a decimal literal, as a number, and what
    follows it. *)
Definition parse_decimal (cs : list ascii) : option (number * list ascii) :=
  let '(negative, cs) := parse_sign cs in
  if starts_with "Infinity" cs then Some (Infinity negative, drop 8 cs)
  else
    let '(ip, r) := take_digits 10 cs in
    let '(fp, r) :=
      match r with
      | "."%char :: r' => take_digits 10 r'
      | _ => ([], r)
      end in
    match ip ++ fp with
    | [] => None
    | ds =>
        let '(ex, rest) := parse_exponent r in
        Some (to_double negative (digits_value 10 ds) (ex - Z.of_nat (length fp)),
              rest)
    end.

(** [parseFloat] on a string: leading white space is skipped and the longest
    prefix that is a decimal literal is read; no such prefix gives NaN. *)
Definition parseFloat_string (s : string) : number :=
  match parse_decimal (trim_start (String.list_ascii_of_string s)) with
  | Some (n, _) => n
  | None => NaN
  end.

(** [parseInt] on a string, no radix argument: radix 16 after [0x] or [0X],
    radix 10 otherwise. *)
Definition parseInt_string (s : string) : number :=
  let cs := trim_start (String.list_ascii_of_string s) in
  let '(negative, cs) := parse_sign cs in
  let '(radix, cs) :=
    match cs with
    | "0"%char :: x :: r =>
        if Ascii.eqb x "x" || Ascii.eqb x "X" then (16, r) else (10, cs)
    | _ => (10, cs)
    end in
  match fst (take_digits radix cs) with
  | [] => NaN
  | ds => to_double negative (digits_value radix ds) 0
  end.

(** Both built-ins convert their argument to a string first, which can
    throw. *)
Definition parseFloat (v : value) : result number :=
  s ← String_ v; mret (parseFloat_string s).

Definition parseInt (v : value) : result number :=
  s ← String_ v; mret (parseInt_string s).

(** StringToNumber: the whole string, white space at both ends apart, must
    be a numeric literal; the empty string is zero. *)
Definition string_to_number (s : string) : number :=
  let cs := trim_end (trim_start (String.list_ascii_of_string s)) in
  let prefixed radix digits :=
    match take_digits radix digits with
    | (d :: ds, []) => to_double false (digits_value radix (d :: ds)) 0
    | _ => NaN
    end in
  match cs with
  | [] => Dec 0 0
  | "0"%char :: x :: r =>
      if Ascii.eqb x "x" || Ascii.eqb x "X" then prefixed 16 r
      else if Ascii.eqb x "o" || Ascii.eqb x "O" then prefixed 8 r
      else if Ascii.eqb x "b" || Ascii.eqb x "B" then prefixed 2 r
      else match parse_decimal cs with
           | Some (n, []) => n
           | _ => NaN
           end
  | _ =>
      match parse_decimal cs with
      | Some (n, []) => n
      | _ => NaN
      end
  end.

(** ToNumber; an object or an array goes through ToPrimitive first. *)
Definition to_number (v : value) : result number :=
  match v with
  | Undefined => Ok NaN
  | Null => Ok (Dec 0 0)
  | Bool b => Ok (if b then Dec 1 0 else Dec 0 0)
  | Num n => Ok n
  | Str s => Ok (string_to_number s)
  | Arr _ | Obj _ => s ← String_ v; mret (string_to_number s)
  end.

(** [v > 0] *)
Definition gt_zero (v : value) : result bool :=
  n ← to_number v;
  mret match n with
       | NaN => false
       | Infinity negative => negb negative
       | Dec m _ => 0 <? m
       end.

End JS.

Import JS.

(** ** The field normaliser: [RegridService.normalizeProperty] *)

Module Regrid.

Record Address : Type := {
  line1 : value;
  line2 : value;
  city : value;
  state : value;
  zip : value }.

Record Centroid : Type := {
  lat : number;
  lng : number }.

(** [RegridProperty], with the types the normaliser really produces: its
    [id] is made by [String(...)] and its centroid by [parseFloat(...) || 0];
    every other member is whatever the raw record held.  A conversion that
    throws makes the normaliser throw. *)
Record RegridProperty : Type := {
  id : string;
  apn : value;
  address : Address;
  geometry : value;
  centroid : Centroid;
  properties : object }.

(** An object literal: later entries replace earlier ones of the same key. *)
Definition object_of (entries : list (string * value)) : object :=
  foldl (fun o kv => <[kv.1 := kv.2]> o) ∅ entries.

(** [{ ...o, ...src }]: the own properties of [src] replace those of [o]. *)
Definition spread (o : object) (src : value) : object := own_props src ∪ o.

(** [rawProperty.properties?.fields || rawProperty.fields ||
     rawProperty.properties || rawProperty] *)
Definition select_fields (rawProperty : value) : result value :=
  p ← member rawProperty "properties";
  let pf := opt_member p "fields" in
  if truthy pf then mret pf
  else
    f ← member rawProperty "fields";
    if truthy f then mret f
    else
      p' ← member rawProperty "properties";
      mret (or_else p' rawProperty).

(** [fields.k || d] *)
Definition field_or (fields : value) (k : string) (d : value) : result value :=
  a ← member fields k;
  mret (or_else a d).

(** [fields.k1 || fields.k2 || d] *)
Definition field_or2 (fields : value) (k1 k2 : string) (d : value)
  : result value :=
  a ← member fields k1;
  if truthy a then mret a
  else b ← member fields k2; mret (or_else b d).

(** [parseFloat(fields.k) || 0] *)
Definition float_or_0 (fields : value) (k : string) : result number :=
  a ← member fields k;
  n ← parseFloat a;
  mret (if truthy (Num n) then n else Dec 0 0).

(** [parseFloat(fields.k) || undefined] *)
Definition float_or_undefined (fields : value) (k : string) : result value :=
  a ← member fields k;
  n ← parseFloat a;
  mret (or_else (Num n) Undefined).

(** [parseInt(fields.k) || undefined] *)
Definition int_or_undefined (fields : value) (k : string) : result value :=
  a ← member fields k;
  n ← parseInt a;
  mret (or_else (Num n) Undefined).

Definition empty_polygon : value :=
  Obj (object_of [("type", Str "Polygon"); ("coordinates", Arr [])]).

Definition address_value (a : Address) : value :=
  Obj (object_of [ ("line1", line1 a); ("line2", line2 a); ("city", city a);
                   ("state", state a); ("zip", zip a) ]).

(** A [RegridProperty] as the JSON value that is stored and sent. *)
Definition to_value (r : RegridProperty) : value :=
  Obj (object_of
         [ ("id", Str (id r));
           ("apn", apn r);
           ("address", address_value (address r));
           ("geometry", geometry r);
           ("centroid",
             Obj (object_of [ ("lat", Num (lat (centroid r)));
                              ("lng", Num (lng (centroid r))) ]));
           ("properties", Obj (properties r)) ]).

Section Normalize.

(** The keyed entries of the [properties] literal that precede
    [...fields]; the two revisions of the file differ only there. *)
Variable canonical : value -> result (list (string * value)).

Definition normalize_with (rawProperty : value) : result RegridProperty :=
  fields ← select_fields rawProperty;
  geometry ← member rawProperty "geometry";
  id ← (a ← member rawProperty "id";
        if truthy a then String_ a
        else b ← member fields "id"; String_ (or_else b (Str "")));
  apn ← field_or2 fields "parcelnumb" "apn" (Str "");
  line1 ← field_or fields "address" (Str "");
  city ← field_or2 fields "scity" "city" (Str "");
  state ← field_or2 fields "state2" "state" (Str "");
  zip ← field_or2 fields "szip5" "zip" (Str "");
  lat ← float_or_0 fields "lat";
  lng ← float_or_0 fields "lon";
  entries ← canonical fields;
  mret {|
    id := id;
    apn := apn;
    address := {| line1 := line1; line2 := Str ""; city := city;
                  state := state; zip := zip |};
    geometry := or_else geometry empty_polygon;
    centroid := {| lat := lat; lng := lng |};
    properties := spread (object_of entries) fields |}.

End Normalize.

(** [src/lib/regrid.ts], lines 182-199 *)
Module Lib.

Definition canonical (fields : value) : result (list (string * value)) :=
  owner ← field_or fields "owner" (Str "");
  lot_size_sqft ← int_or_undefined fields "ll_gissqft";
  lot_acres ← float_or_undefined fields "ll_gisacre";
  building_sqft ← int_or_undefined fields "building_sqft";
  year_built ← int_or_undefined fields "yearbuilt";
  zoning ← field_or fields "zoning" (Str "");
  zoning_description ← field_or fields "zoning_description" (Str "");
  property_type ← field_or fields "property_type" (Str "");
  use_code ← field_or fields "usecode" (Str "");
  use_description ← field_or fields "usedesc" (Str "");
  assessed_value ← float_or_undefined fields "assessed_value";
  sale_date ← field_or fields "saledate" (Str "");
  sale_price ← float_or_undefined fields "saleprice";
  subdivision ← field_or fields "subdivision" (Str "");
  county ← field_or fields "county" (Str "");
  qualified_opportunity_zone ← field_or fields "qoz" (Str "");
  mret [ ("owner", owner);
         ("lot_size_sqft", lot_size_sqft);
         ("lot_acres", lot_acres);
         ("building_sqft", building_sqft);
         ("year_built", year_built);
         ("zoning", zoning);
         ("zoning_description", zoning_description);
         ("property_type", property_type);
         ("use_code", use_code);
         ("use_description", use_description);
         ("assessed_value", assessed_value);
         ("sale_date", sale_date);
         ("sale_price", sale_price);
         ("subdivision", subdivision);
         ("county", county);
         ("qualified_opportunity_zone", qualified_opportunity_zone) ].

Definition normalizeProperty : value -> result RegridProperty :=
  normalize_with canonical.

End Lib.

(** The later revision of the file (with the cached test parcels), lines
    217-240 *)
Module Rev.

Definition canonical (fields : value) : result (list (string * value)) :=
  owner ← field_or fields "owner" (Str "");
  lot_size_sqft ← int_or_undefined fields "ll_gissqft";
  lot_acres ← float_or_undefined fields "ll_gisacre";
  building_sqft ← int_or_undefined fields "building_sqft";
  year_built ← int_or_undefined fields "yearbuilt";
  zoning ← field_or fields "zoning" (Str "");
  zoning_description ← field_or fields "zoning_description" (Str "");
  property_type ← field_or fields "property_type" (Str "");
  use_code ← field_or fields "usecode" (Str "");
  use_description ← field_or fields "usedesc" (Str "");
  assessed_value ← float_or_undefined fields "parval";
  improvement_value ← float_or_undefined fields "improvval";
  land_value ← float_or_undefined fields "landval";
  last_sale_price ← float_or_undefined fields "saleprice";
  sale_date ← field_or fields "saledate" (Str "");
  county ← field_or fields "county" (Str "");
  qoz_status ← field_or fields "qoz" (Str "");
  subdivision ← field_or fields "subdivision" (Str "");
  qualified_opportunity_zone ← field_or fields "qoz" (Str "");
  mret [ ("owner", owner);
         ("lot_size_sqft", lot_size_sqft);
         ("lot_acres", lot_acres);
         ("building_sqft", building_sqft);
         ("year_built", year_built);
         ("zoning", zoning);
         ("zoning_description", zoning_description);
         ("property_type", property_type);
         ("use_code", use_code);
         ("use_description", use_description);
         ("assessed_value", assessed_value);
         ("improvement_value", improvement_value);
         ("land_value", land_value);
         ("last_sale_price", last_sale_price);
         ("sale_date", sale_date);
         ("county", county);
         ("qoz_status", qoz_status);
         ("subdivision", subdivision);
         ("qualified_opportunity_zone", qualified_opportunity_zone) ].

Definition normalizeProperty : value -> result RegridProperty :=
  normalize_with canonical.

End Rev.

End Regrid.


(** ** Persisted records *)

Module Db.

(** [Property], the row type of the [properties] table. *)
Record Property : Type := {
  id : string;
  user_id : string;
  regrid_id : option string;
  apn : option string;
  address : string;
  city : option string;
  state : option string;
  zip_code : option string;
  geometry : value;
  lat : option number;
  lng : option number;
  year_built : option number;
  owner : option string;
  last_sale_price : option number;
  sale_date : option string;
  county : option string;
  qoz_status : option string;
  improvement_value : option number;
  land_value : option number;
  assessed_value : option number;
  property_data : value;
  user_notes : option string;
  tags : option (list string);
  insurance_provider : option string;
  maintenance_history : option string;
  created_at : string;
  updated_at : string }.

(** A nullable column read as a JavaScript value. *)
Definition text (o : option string) : value := from_option Str Null o.
Definition numeric (o : option number) : value := from_option Num Null o.

(** The object handed to [DatabaseService.createProperty]. *)
Record Insert : Type := {
  i_regrid_id : option string;
  i_apn : value;
  i_address : value;
  i_city : value;
  i_state : value;
  i_zip_code : value;
  i_geometry : value;
  i_lat : value;
  i_lng : value;
  i_year_built : value;
  i_owner : value;
  i_last_sale_price : value;
  i_sale_date : value;
  i_county : value;
  i_qoz_status : value;
  i_improvement_value : value;
  i_land_value : value;
  i_assessed_value : value;
  i_property_data : value;
  i_user_notes : option string;
  i_tags : option (list string);
  i_insurance_provider : option string;
  i_maintenance_history : option string }.

(** The object handed to [DatabaseService.updateProperty]. *)
Record Update : Type := {
  u_regrid_id : value;
  u_apn : option string;
  u_address : value;
  u_city : value;
  u_state : value;
  u_zip_code : value;
  u_geometry : value;
  u_lat : value;
  u_lng : value;
  u_year_built : value;
  u_owner : value;
  u_last_sale_price : value;
  u_sale_date : value;
  u_county : value;
  u_qoz_status : value;
  u_improvement_value : value;
  u_land_value : value;
  u_assessed_value : value;
  u_property_data : value;
  u_user_notes : option string;
  u_tags : option (list string);
  u_insurance_provider : option string;
  u_maintenance_history : option string;
  u_updated_at : string }.

(** The filter object of [getFilteredProperties]; the code in scope only
    ever sets [search]. *)
Record Filters : Type := {
  f_city : option string;
  f_state : option string;
  f_tags : option (list string);
  f_search : option value }.

Definition search_only (term : value) : Filters :=
  {| f_city := None; f_state := None; f_tags := None; f_search := Some term |}.

End Db.

(** ** Collaborators and effects

    [DatabaseService] ([@/lib/db]) is not among the sources; the routes are
    embedded over its interface.  Reads return a result and leave the store
    as it is, writes return a result and a new store.  The calling user,
    which the database takes from the session, is passed explicitly. *)

Class DatabaseService (DB : Type) : Type := {
  getProperty : string -> string -> DB -> result (option Db.Property);
  getFilteredProperties : string -> Db.Filters -> DB -> result (list Db.Property);
  createProperty : string -> Db.Insert -> DB -> result (option Db.Property) * DB;
  updateProperty :
    string -> string -> Db.Update -> DB -> result Db.Property * DB }.

Record RegridSearchResult : Type := {
  sr_id : value;
  sr_apn : value;
  sr_address : value;
  sr_city : value;
  sr_state : value;
  sr_zip : value;
  sr_score : value }.

(** The provider calls of [RegridService] as the routes see them, each
    taken with its settled outcome: a lookup either throws or returns; [Net]
    is whatever the answers of the provider depend on.  [client_service]
    below is the implementation of [src/lib/regrid.ts]. *)
Class RegridService (Net : Type) : Type := {
  searchByAPN :
    string -> option string -> Net -> result (option Regrid.RegridProperty) * Net;
  searchByAddress :
    string -> option string -> option string -> Z -> Net ->
    result (list RegridSearchResult) * Net;
  getPropertyById :
    value -> Net -> result (option Regrid.RegridProperty) * Net }.

Section Effects.

Context {DB Net : Type}.

Record World : Type := { db : DB; net : Net }.

(** A computation reads and writes the world and returns or throws; what
    it wrote before throwing stays written. *)
Definition M (A : Type) : Type := World -> result A * World.

Definition ret {A} (a : A) : M A := fun w => (Ok a, w).

Definition throw {A} (message : string) : M A := fun w => (Throw message, w).

Definition bind {A B} (c : M A) (k : A -> M B) : M B := fun w =>
  match c w with
  | (Ok a, w') => k a w'
  | (Throw m, w') => (Throw m, w')
  end.

(** [try { body } catch (error) { handler(error.message) }] *)
Definition try_catch {A} (body : M A) (handler : string -> M A) : M A :=
  fun w =>
    match body w with
    | (Ok a, w') => (Ok a, w')
    | (Throw m, w') => handler m w'
    end.

Definition pure {A} (r : result A) : M A := fun w => (r, w).

Definition db_read {A} (f : DB -> result A) : M A := fun w => (f (db w), w).

Definition db_write {A} (f : DB -> result A * DB) : M A := fun w =>
  let '(r, d) := f (db w) in (r, {| db := d; net := net w |}).

Definition net_call {A} (f : Net -> result A * Net) : M A := fun w =>
  let '(r, n) := f (net w) in (r, {| db := db w; net := n |}).

End Effects.

Arguments World : clear implicits.
Arguments M : clear implicits.

Notation "'let*' x ':=' c 'in' k" := (bind c (fun x => k))
  (at level 10, x name, c at level 100, k at level 200, only parsing).

(** [x || null] and [x || undefined] on an optional string *)
Definition nonempty (o : option string) : option string :=
  match o with
  | Some s => if String.eqb s "" then None else Some s
  | None => None
  end.

(** ** The lookups of [src/lib/regrid.ts] over [makeRequest]

    [makeRequest] throws when the key is missing or the answer is not 2xx
    and returns the parsed JSON otherwise; it is the boundary to the network.
    The later revision of the file first looks, in development only, for a
    cached test parcel; that revision is [RevClient] below. *)

Class Provider (Net : Type) : Type := {
  apiKey : value;
  makeRequest : string -> value -> Net -> result value * Net }.

Module RegridClient.

Section Client.

Context {Net : Type} {http : Provider Net}.

(** [features.length > 0], then [normalizeProperty(features[0])] *)
Definition first_feature (features : value)
  : result (option Regrid.RegridProperty) :=
  len ← member features "length";
  positive ← gt_zero len;
  if positive : bool then
    first ← member features "0";
    property ← Regrid.Lib.normalizeProperty first;
    mret (Some property)
  else mret None.

Definition searchByAPN (apn : string) (state : option string) (n : Net)
  : result (option Regrid.RegridProperty) * Net :=
  let params :=
    Obj (Regrid.object_of [("parcelnumb", Str apn); ("token", apiKey)]) in
  let '(answer, n') := makeRequest "/parcels/apn" params n in
  (data ← answer;
   first_feature
     (or_else (opt_member (opt_member data "parcels") "features") (Arr [])),
   n').

(** The callback of [.map] in [searchByAddress] *)
Definition search_result (result : value) : JS.result RegridSearchResult :=
  id ← member result "id";
  fields ← member result "fields";
  score ← member result "score";
  let address := opt_member fields "address" in
  mret {| sr_id := id;
          sr_apn := or_else (opt_member fields "apn") (Str "");
          sr_address := or_else (opt_member address "line1") (Str "");
          sr_city := or_else (opt_member address "city") (Str "");
          sr_state := or_else (opt_member address "state") (Str "");
          sr_zip := or_else (opt_member address "zip") (Str "");
          sr_score := or_else score (Num (Dec 0 0)) |}.

Definition searchByAddress (address : string) (city state : option string)
  (limit : Z) (n : Net) : result (list RegridSearchResult) * Net :=
  let params :=
    Obj (Regrid.object_of
           ([ ("query", Str address);
              ("limit", Num (Dec (Z.min limit 25) 0)) ] ++
            from_option (fun c => [("city", Str c)]) [] (nonempty city) ++
            from_option (fun c => [("state", Str c)]) [] (nonempty state))) in
  let '(answer, n') := makeRequest "/search" params n in
  (data ← answer;
   results ← member data "results";
   match or_else results (Arr []) with
   | Arr items => mapM search_result items
   | _ => Throw "(data.results || []).map is not a function"
   end,
   n').

(** The [id] is declared a string; the routes hand over the id of a search
    result as the provider sent it, a string or a number. *)
Definition getPropertyById (id : value) (n : Net)
  : result (option Regrid.RegridProperty) * Net :=
  let params := Obj (Regrid.object_of [("token", apiKey)]) in
  let '(answer, n') := makeRequest ("/parcels/" +:+ to_string id) params n in
  (data ← answer;
   parcels ← member data "parcels";
   let features := opt_member parcels "features" in
   if truthy features then first_feature features else mret None,
   n').

End Client.

End RegridClient.

#[global] Instance client_service {Net : Type} {http : Provider Net}
  : RegridService Net :=
  {| searchByAPN := RegridClient.searchByAPN;
     searchByAddress := RegridClient.searchByAddress;
     getPropertyById := RegridClient.getPropertyById |}.

(** ** [RegridService.batchSearchByAPNs] *)

Module Batch.

(** The outcome of a promise that has settled. *)
Inductive Settled (A : Type) : Type :=
  | Fulfilled (value : A)
  | Rejected (reason : string).
Arguments Fulfilled {A} value.
Arguments Rejected {A} reason.

Definition settle {A} (r : result A) : Settled A :=
  match r with
  | Ok a => Fulfilled a
  | Throw m => Rejected m
  end.

Section Batch.

Context {Net : Type} {provider : RegridService Net}.

(** [Promise.allSettled]: every call runs to its outcome whatever the
    others do.  The calls are taken in the order of the array; how their
    network traffic interleaves is part of [Net]. *)
Fixpoint allSettled {A} (calls : list (Net -> result A * Net)) (n : Net)
  : list (Settled A) * Net :=
  match calls with
  | [] => ([], n)
  | call :: rest =>
      let '(r, n1) := call n in
      let '(settled, n2) := allSettled rest n1 in
      (settle r :: settled, n2)
  end.

(** [result.status === 'fulfilled' && result.value !== null] *)
Definition kept (r : Settled (option Regrid.RegridProperty)) : bool :=
  match r with
  | Fulfilled (Some _) => true
  | _ => false
  end.

(** [result.value], on the outcomes the filter keeps *)
Definition value_of (r : Settled (option Regrid.RegridProperty))
  : option Regrid.RegridProperty :=
  match r with
  | Fulfilled v => v
  | Rejected _ => None
  end.

Definition batchSearchByAPNs (apns : list string) (state : option string)
  (n : Net) : result (list Regrid.RegridProperty) * Net :=
  let '(results, n') :=
    allSettled ((fun apn => searchByAPN apn state) <$> apns) n in
  (Ok (omap value_of (List.filter kept results)), n').

End Batch.

End Batch.

(** A provider that answers from a table: the outcome listed for a parcel
    number, no parcel for any other, and no address candidates. *)
Module Scripted.

Definition Net : Type := list (string * result (option Regrid.RegridProperty)).

Definition answer (apn : string) (n : Net) : result (option Regrid.RegridProperty) :=
  match List.find (fun e => String.eqb e.1 apn) n with
  | Some e => e.2
  | None => Ok None
  end.

#[global] Instance scripted_service : RegridService Net := {
  searchByAPN apn _ n := (answer apn n, n);
  searchByAddress _ _ _ _ n := (Ok [], n);
  getPropertyById _ n := (Ok None, n) }.

End Scripted.

(** ** Request validation: the zod schemas of [user-properties/route.ts]

    The text of a [ZodError], a JSON list of issues, is not reproduced; the
    message names the member that was refused. *)

Module Schema.

(** The output of [createPropertySchema.parse]. *)
Record CreateInput : Type := {
  regrid_id : option string;
  apn : option string;
  address : string;
  city : option string;
  state : option string;
  zip_code : option string;
  user_notes : option string;
  tags : option (list string);
  insurance_provider : option string;
  maintenance_history : option string }.

Definition invalid {A} (path : string) : result A :=
  Throw ("ZodError: invalid " +:+ path).

(** [z.string().optional()] *)
Definition optional_string (path : string) (v : value) : result (option string) :=
  match v with
  | Undefined => Ok None
  | Str s => Ok (Some s)
  | _ => invalid path
  end.

(** [z.string().min(1)] *)
Definition nonempty_string (path : string) (v : value) : result string :=
  match v with
  | Str s => if String.eqb s "" then invalid path else Ok s
  | _ => invalid path
  end.

(** [z.array(z.string()).optional()] *)
Definition optional_strings (path : string) (v : value)
  : result (option (list string)) :=
  match v with
  | Undefined => Ok None
  | Arr items =>
      l ← mapM (fun x => match x with Str s => Ok s | _ => invalid path end) items;
      mret (Some l)
  | _ => invalid path
  end.

(** [z.union([z.string(), z.number()]).optional()
      .transform(val => val ? String(val) : undefined)] *)
Definition optional_id (path : string) (v : value) : result (option string) :=
  match v with
  | Undefined => Ok None
  | Str _ => if truthy v then Some <$> String_ v else Ok None
  | Num n =>
      if is_nan n then invalid path
      else if truthy v then Some <$> String_ v else Ok None
  | _ => invalid path
  end.

Definition createPropertySchema_parse (body : value) : result CreateInput :=
  match body with
  | Obj _ =>
      regrid_id ← optional_id "regrid_id" (prop body "regrid_id");
      apn ← optional_string "apn" (prop body "apn");
      address ← nonempty_string "address" (prop body "address");
      city ← optional_string "city" (prop body "city");
      state ← optional_string "state" (prop body "state");
      zip_code ← optional_string "zip_code" (prop body "zip_code");
      user_notes ← optional_string "user_notes" (prop body "user_notes");
      tags ← optional_strings "tags" (prop body "tags");
      insurance_provider ←
        optional_string "insurance_provider" (prop body "insurance_provider");
      maintenance_history ←
        optional_string "maintenance_history" (prop body "maintenance_history");
      mret {| regrid_id := regrid_id; apn := apn; address := address;
              city := city; state := state; zip_code := zip_code;
              user_notes := user_notes; tags := tags;
              insurance_provider := insurance_provider;
              maintenance_history := maintenance_history |}
  | _ => invalid "body"
  end.

(** [z.enum(['csv', 'manual', 'api']).optional()] *)
Definition optional_source (v : value) : result (option string) :=
  match v with
  | Undefined => Ok None
  | Str s =>
      if String.eqb s "csv" || String.eqb s "manual" || String.eqb s "api"
      then Ok (Some s) else invalid "source"
  | _ => invalid "source"
  end.

Record BulkInput : Type := {
  properties : list CreateInput;
  source : option string }.

Definition bulkCreateSchema_parse (body : value) : result BulkInput :=
  match body with
  | Obj _ =>
      match prop body "properties" with
      | Arr items =>
          properties ← mapM createPropertySchema_parse items;
          source ← optional_source (prop body "source");
          mret {| properties := properties; source := source |}
      | _ => invalid "properties"
      end
  | _ => invalid "body"
  end.

(** A parsed input as the object it is in the running program, where an
    absent optional member is simply not there. *)
Definition optional_entry {A} (k : string) (f : A -> value) (o : option A)
  : list (string * value) :=
  match o with
  | Some a => [(k, f a)]
  | None => []
  end.

Definition input_value (i : CreateInput) : value :=
  Obj (Regrid.object_of
         (optional_entry "regrid_id" Str (regrid_id i) ++
          optional_entry "apn" Str (apn i) ++
          [("address", Str (address i))] ++
          optional_entry "city" Str (city i) ++
          optional_entry "state" Str (state i) ++
          optional_entry "zip_code" Str (zip_code i) ++
          optional_entry "user_notes" Str (user_notes i) ++
          optional_entry "tags" (fun l => Arr (Str <$> l)) (tags i) ++
          optional_entry "insurance_provider" Str (insurance_provider i) ++
          optional_entry "maintenance_history" Str (maintenance_history i))).

End Schema.

(** ** The routes *)

(** What a route answers: [NextResponse.json(body)] or
    [NextResponse.json({ error }, { status })]. *)
Inductive Response (A : Type) : Type :=
  | Success (body : A)
  | Failure (status : Z) (error : string).
Arguments Success {A} body.
Arguments Failure {A} status error.

(** An optional member of a parsed input, undefined when absent. *)
Definition optional (o : option string) : value := from_option Str Undefined o.

(** [regridData?.m] *)
Definition of_regrid (regridData : option Regrid.RegridProperty)
  (m : Regrid.RegridProperty -> value) : value :=
  from_option m Undefined regridData.

(** [regridData.properties?.k]: the bag is always there. *)
Definition bag (k : string) (r : Regrid.RegridProperty) : value :=
  default Undefined (Regrid.properties r !! k).

(** [property.apn?.toLowerCase()] on a stored row *)
Definition lowered_apn {unicode : Unicode} (property : Db.Property) : value :=
  from_option (fun a => Str (toLowerCase a)) Undefined (Db.apn property).

(** [v?.toLowerCase()] *)
Definition opt_toLowerCase {unicode : Unicode} (v : value) : result value :=
  match v with
  | Undefined | Null => Ok Undefined
  | Str s => Ok (Str (toLowerCase s))
  | _ => Throw "toLowerCase is not a function"
  end.

(** [a === b] where both sides are a string or undefined *)
Definition strict_eq (a b : value) : bool :=
  match a, b with
  | Str x, Str y => String.eqb x y
  | Undefined, Undefined => true
  | _, _ => false
  end.

(** *** [user-properties/route.ts], lines 345-530 *)

Module UserProperties.

Section Routes.

Context {DB Net : Type} {store : DatabaseService DB}
  {provider : RegridService Net} {unicode : Unicode}.

Local Abbreviation M := (M DB Net).

Definition duplicate_message : string :=
  "A property with this APN already exists in your portfolio".

(** Address search, then the detail of the first candidate. *)
Definition lookupByAddress (i : Schema.CreateInput)
  : M (option Regrid.RegridProperty) :=
  let* searchResults :=
    net_call (searchByAddress (Schema.address i) (Schema.city i)
                (Schema.state i) 1) in
  match searchResults with
  | first :: _ => net_call (getPropertyById (sr_id first))
  | [] => ret None
  end.

(** The object literal [propertyData]; [handleSingleCreate] and
    [createSinglePropertyFromInput] build the same one. *)
Definition propertyData (i : Schema.CreateInput)
  (regridData : option Regrid.RegridProperty) : Db.Insert :=
  let address m := of_regrid regridData (fun r => m (Regrid.address r)) in
  let centroid m :=
    of_regrid regridData (fun r => Num (m (Regrid.centroid r))) in
  let properties k := of_regrid regridData (bag k) in
  {| Db.i_regrid_id := nonempty (Schema.regrid_id i);
     Db.i_apn :=
       or_else (or_else (of_regrid regridData Regrid.apn) (optional (Schema.apn i))) Null;
     Db.i_address := or_else (address Regrid.line1) (Str (Schema.address i));
     Db.i_city :=
       or_else (or_else (address Regrid.city) (optional (Schema.city i))) Null;
     Db.i_state :=
       or_else (or_else (address Regrid.state) (optional (Schema.state i))) Null;
     Db.i_zip_code :=
       or_else (or_else (address Regrid.zip) (optional (Schema.zip_code i))) Null;
     Db.i_geometry := or_else (of_regrid regridData Regrid.geometry) Null;
     Db.i_lat := or_else (centroid Regrid.lat) Null;
     Db.i_lng := or_else (centroid Regrid.lng) Null;
     Db.i_year_built := or_else (properties "year_built") Null;
     Db.i_owner := or_else (properties "owner") Null;
     Db.i_last_sale_price := or_else (properties "last_sale_price") Null;
     Db.i_sale_date := or_else (properties "sale_date") Null;
     Db.i_county := or_else (properties "county") Null;
     Db.i_qoz_status := or_else (properties "qoz_status") Null;
     Db.i_improvement_value := or_else (properties "improvement_value") Null;
     Db.i_land_value := or_else (properties "land_value") Null;
     Db.i_assessed_value := or_else (properties "assessed_value") Null;
     Db.i_property_data := or_else (of_regrid regridData Regrid.to_value) Null;
     Db.i_user_notes := nonempty (Schema.user_notes i);
     Db.i_tags := Schema.tags i;
     Db.i_insurance_provider := nonempty (Schema.insurance_provider i);
     Db.i_maintenance_history := nonempty (Schema.maintenance_history i) |}.

(** [existingProperties.find(property =>
      property.apn?.toLowerCase() === apn?.toLowerCase())] *)
Fixpoint find_exact (existingProperties : list Db.Property) (apn : value)
  : result (option Db.Property) :=
  match existingProperties with
  | [] => Ok None
  | property :: rest =>
      wanted ← opt_toLowerCase apn;
      if strict_eq (lowered_apn property) wanted then Ok (Some property)
      else find_exact rest apn
  end.

(** The provider phase of [handleSingleCreate]: by parcel number when there
    is one, else by address. *)
Definition fetchRegridData (validatedData : Schema.CreateInput)
  : M (option Regrid.RegridProperty) :=
  match nonempty (Schema.apn validatedData) with
  | Some apn => net_call (searchByAPN apn (Schema.state validatedData))
  | None =>
      if truthy (Str (Schema.address validatedData))
      then lookupByAddress validatedData
      else ret None
  end.

Definition handleSingleCreate (userId : string) (body : value)
  : M Db.Property :=
  let* validatedData := pure (Schema.createPropertySchema_parse body) in
  let* regridData := fetchRegridData validatedData in
  let propertyData := propertyData validatedData regridData in
  try_catch
    (let* _ :=
       if truthy (Db.i_apn propertyData) then
         let* existingProperties :=
           db_read (getFilteredProperties userId
                      (Db.search_only (Db.i_apn propertyData))) in
         let* exactMatch :=
           pure (find_exact existingProperties (Db.i_apn propertyData)) in
         match exactMatch with
         | Some _ => throw duplicate_message
         | None => ret tt
         end
       else ret tt in
     let* property := db_write (createProperty userId propertyData) in
     match property with
     | Some p => ret p
     | None => throw "Cannot read properties of null (reading 'id')"
     end)
    (fun message => throw ("Database error: " +:+ message)).

Definition createSinglePropertyFromInput (userId : string)
  (input : Schema.CreateInput) : M (option Db.Property) :=
  let* validatedInput :=
    pure (Schema.createPropertySchema_parse (Schema.input_value input)) in
  let* regridData :=
    try_catch
      match nonempty (Schema.apn validatedInput) with
      | Some apn => net_call (searchByAPN apn (Schema.state validatedInput))
      | None => lookupByAddress validatedInput
      end
      (fun _ => ret None) in
  db_write (createProperty userId (propertyData validatedInput regridData)).

Record ErrorEntry : Type := {
  index : nat;
  input : Schema.CreateInput;
  error : string }.

Record Summary : Type := {
  total : nat;
  successful : nat;
  failed : nat;
  source : option string }.

Record BulkResponse : Type := {
  created : list (option Db.Property);
  errors : list ErrorEntry;
  summary : Summary }.

(** The [for ... of properties.entries()] loop, from position [index]
    on, with the two arrays filled so far. *)
Fixpoint bulk_loop (userId : string) (index : nat)
  (rest : list Schema.CreateInput)
  (results : list (option Db.Property)) (errors : list ErrorEntry)
  : M (list (option Db.Property) * list ErrorEntry) :=
  match rest with
  | [] => ret (results, errors)
  | propertyInput :: rest' =>
      let* pushed :=
        try_catch
          (let* property := createSinglePropertyFromInput userId propertyInput in
           ret (results ++ [property], errors))
          (fun message =>
             ret (results,
                  errors ++ [ {| index := index; input := propertyInput;
                                 error := message |} ])) in
      bulk_loop userId (S index) rest' pushed.1 pushed.2
  end.

Definition handleBulkCreate (userId : string) (body : value) : M BulkResponse :=
  let* validatedData := pure (Schema.bulkCreateSchema_parse body) in
  let properties := Schema.properties validatedData in
  let* filled := bulk_loop userId 0 properties [] [] in
  ret {| created := filled.1;
         errors := filled.2;
         summary := {| total := length properties;
                       successful := length filled.1;
                       failed := length filled.2;
                       source := Schema.source validatedData |} |}.

End Routes.

End UserProperties.

(** *** [user-properties/check-apn/route.ts], lines 1-54 *)

Module CheckApn.

(** The members of the match that the route sends back. *)
Record Match : Type := {
  id : string;
  address : string;
  city : option string;
  state : option string;
  apn : option string;
  created_at : string }.

Inductive Answer : Type :=
  | Exists (property : Match)
  | NotExists.

Definition match_of (p : Db.Property) : Match :=
  {| id := Db.id p; address := Db.address p; city := Db.city p;
     state := Db.state p; apn := Db.apn p; created_at := Db.created_at p |}.

Section Route.

Context {DB Net : Type} {store : DatabaseService DB} {unicode : Unicode}.

Local Abbreviation M := (M DB Net).

(** [existingProperties.find(property =>
      property.apn?.toLowerCase() === apn.toLowerCase())] *)
Definition exactMatch (existingProperties : list Db.Property) (apn : string)
  : option Db.Property :=
  List.find
    (fun property =>
       strict_eq (lowered_apn property) (Str (toLowerCase apn)))
    existingProperties.

(** [session] is what [getUserId()] returned, [apn] what
    [searchParams.get('apn')] did. *)
Definition GET (session : option string) (apn : option string)
  : M (Response Answer) :=
  try_catch
    match nonempty session with
    | None => ret (Failure 401 "Unauthorized")
    | Some userId =>
        match nonempty apn with
        | None => ret (Failure 400 "APN parameter is required")
        | Some apn =>
            let* existingProperties :=
              db_read (getFilteredProperties userId
                         (Db.search_only (Str apn))) in
            match exactMatch existingProperties apn with
            | Some found => ret (Success (Exists (match_of found)))
            | None => ret (Success NotExists)
            end
        end
    end
    (fun _ => ret (Failure 500 "Failed to check APN")).

End Route.

End CheckApn.

(** *** [user-properties/[id]/refresh/route.ts] *)

Module Refresh.

(** [cleanAPN]: all dashes removed.  A truthy argument that is not a string
    has no [replace]. *)
Definition cleanAPN (apn : value) : result (option string) :=
  if negb (truthy apn) then Ok None
  else
    match apn with
    | Str s => Ok (Some (remove_all "-" s))
    | _ => Throw "apn.replace is not a function"
    end.

(** The object literal [updatedPropertyData]; [now] is
    [new Date().toISOString()]. *)
Definition updatedPropertyData (existingProperty : Db.Property)
  (regridData : Regrid.RegridProperty) (now : string) : result Db.Update :=
  let address m := m (Regrid.address regridData) in
  let centroid m := Num (m (Regrid.centroid regridData)) in
  let properties k := bag k regridData in
  apn ← cleanAPN (or_else (Regrid.apn regridData) (Db.text (Db.apn existingProperty)));
  mret {|
    Db.u_regrid_id :=
      or_else (Str (Regrid.id regridData)) (Db.text (Db.regrid_id existingProperty));
    Db.u_apn := apn;
    Db.u_address :=
      or_else (address Regrid.line1) (Str (Db.address existingProperty));
    Db.u_city := or_else (address Regrid.city) (Db.text (Db.city existingProperty));
    Db.u_state :=
      or_else (address Regrid.state) (Db.text (Db.state existingProperty));
    Db.u_zip_code :=
      or_else (address Regrid.zip) (Db.text (Db.zip_code existingProperty));
    Db.u_geometry :=
      or_else (Regrid.geometry regridData) (Db.geometry existingProperty);
    Db.u_lat := or_else (centroid Regrid.lat) (Db.numeric (Db.lat existingProperty));
    Db.u_lng := or_else (centroid Regrid.lng) (Db.numeric (Db.lng existingProperty));
    Db.u_year_built :=
      or_else (properties "year_built") (Db.numeric (Db.year_built existingProperty));
    Db.u_owner := or_else (properties "owner") (Db.text (Db.owner existingProperty));
    Db.u_last_sale_price :=
      or_else (properties "last_sale_price")
         (Db.numeric (Db.last_sale_price existingProperty));
    Db.u_sale_date :=
      or_else (properties "sale_date") (Db.text (Db.sale_date existingProperty));
    Db.u_county :=
      or_else (properties "county") (Db.text (Db.county existingProperty));
    Db.u_qoz_status :=
      or_else (properties "qoz_status") (Db.text (Db.qoz_status existingProperty));
    Db.u_improvement_value :=
      or_else (properties "improvement_value")
         (Db.numeric (Db.improvement_value existingProperty));
    Db.u_land_value :=
      or_else (properties "land_value")
         (Db.numeric (Db.land_value existingProperty));
    Db.u_assessed_value :=
      or_else (properties "assessed_value")
         (Db.numeric (Db.assessed_value existingProperty));
    Db.u_property_data :=
      or_else (Regrid.to_value regridData) (Db.property_data existingProperty);
    Db.u_user_notes := Db.user_notes existingProperty;
    Db.u_tags := Db.tags existingProperty;
    Db.u_insurance_provider := Db.insurance_provider existingProperty;
    Db.u_maintenance_history := Db.maintenance_history existingProperty;
    Db.u_updated_at := now |}.

Section Route.

Context {DB Net : Type} {store : DatabaseService DB}
  {provider : RegridService Net}.

Local Abbreviation M := (M DB Net).

(** The inner [try] around the provider call: its [catch] returns the 503
    answer from the route. *)
Definition fetchFresh (existingProperty : Db.Property) (apn : string)
  : M (Response Db.Property + option Regrid.RegridProperty) :=
  try_catch
    (let* regridData :=
       net_call (searchByAPN apn (nonempty (Db.state existingProperty))) in
     ret (inr regridData))
    (fun _ =>
       ret (inl (Failure 503
                   "Failed to fetch updated property data from Regrid API"))).

Definition POST (session : option string) (id : string) (now : string)
  : M (Response Db.Property) :=
  try_catch
    match nonempty session with
    | None => ret (Failure 401 "Unauthorized")
    | Some userId =>
        if String.eqb id "" then ret (Failure 400 "Property ID is required")
        else
          let* existing := db_read (getProperty id userId) in
          match existing with
          | None => ret (Failure 404 "Property not found")
          | Some existingProperty =>
              match nonempty (Db.apn existingProperty) with
              | None =>
                  ret (Failure 400 "Cannot refresh property: No APN available")
              | Some apn =>
                  let* fetched := fetchFresh existingProperty apn in
                  match fetched with
                  | inl answer => ret answer
                  | inr None =>
                      ret (Failure 404
                             "No updated data available for this property")
                  | inr (Some regridData) =>
                      let* updatedPropertyData :=
                        pure (updatedPropertyData existingProperty
                                regridData now) in
                      let* updatedProperty :=
                        db_write (updateProperty id userId
                                    updatedPropertyData) in
                      ret (Success updatedProperty)
                  end
              end
          end
    end
    (fun message =>
       ret (Failure
              (if includes message "not found" then 404
               else if includes message "Unauthorized" then 401
               else 500)
              message)).

End Route.

End Refresh.

(** ** The persistence collaborator as a table of rows *)

Module Table.

(** Modelled from the spec: the persistence engine behind [@/lib/db], whose
    code is missing; section 1 treats it as a store of records keyed by
    identifier with filter queries.  The rows in insertion order, and the
    time the store stamps rows with. *)
Record Store : Type := {
  rows : list Db.Property;
  clock : string }.

(** Modelled from the spec: how the missing store takes a member of a payload
    into a column of the row type; a text column takes a string or null. *)
Definition as_text (v : value) : option (option string) :=
  match v with
  | Str s => Some (Some s)
  | Null | Undefined => Some None
  | _ => None
  end.

(** Modelled from the spec: the address column of the missing store, which
    is never null in the row type. *)
Definition as_required_text (v : value) : option string :=
  match v with
  | Str s => Some s
  | _ => None
  end.

(** Modelled from the spec: a numeric column of the missing store takes a
    number or null. *)
Definition as_numeric (v : value) : option (option number) :=
  match v with
  | Num n => Some (Some n)
  | Null | Undefined => Some None
  | _ => None
  end.

(** Modelled from the spec: the row the missing store makes of a create
    payload, if every member fits its column. *)
Definition row_of (id userId now : string) (d : Db.Insert) : option Db.Property :=
  apn ← as_text (Db.i_apn d);
  address ← as_required_text (Db.i_address d);
  city ← as_text (Db.i_city d);
  state ← as_text (Db.i_state d);
  zip_code ← as_text (Db.i_zip_code d);
  lat ← as_numeric (Db.i_lat d);
  lng ← as_numeric (Db.i_lng d);
  year_built ← as_numeric (Db.i_year_built d);
  owner ← as_text (Db.i_owner d);
  last_sale_price ← as_numeric (Db.i_last_sale_price d);
  sale_date ← as_text (Db.i_sale_date d);
  county ← as_text (Db.i_county d);
  qoz_status ← as_text (Db.i_qoz_status d);
  improvement_value ← as_numeric (Db.i_improvement_value d);
  land_value ← as_numeric (Db.i_land_value d);
  assessed_value ← as_numeric (Db.i_assessed_value d);
  Some {| Db.id := id; Db.user_id := userId;
          Db.regrid_id := Db.i_regrid_id d; Db.apn := apn;
          Db.address := address; Db.city := city; Db.state := state;
          Db.zip_code := zip_code; Db.geometry := Db.i_geometry d;
          Db.lat := lat; Db.lng := lng; Db.year_built := year_built;
          Db.owner := owner; Db.last_sale_price := last_sale_price;
          Db.sale_date := sale_date; Db.county := county;
          Db.qoz_status := qoz_status;
          Db.improvement_value := improvement_value;
          Db.land_value := land_value; Db.assessed_value := assessed_value;
          Db.property_data := Db.i_property_data d;
          Db.user_notes := Db.i_user_notes d; Db.tags := Db.i_tags d;
          Db.insurance_provider := Db.i_insurance_provider d;
          Db.maintenance_history := Db.i_maintenance_history d;
          Db.created_at := now; Db.updated_at := now |}.

(** Modelled from the spec: the row the missing store makes of a row and an
    update payload, if every member fits its column. *)
Definition updated_row (p : Db.Property) (u : Db.Update) : option Db.Property :=
  regrid_id ← as_text (Db.u_regrid_id u);
  address ← as_required_text (Db.u_address u);
  city ← as_text (Db.u_city u);
  state ← as_text (Db.u_state u);
  zip_code ← as_text (Db.u_zip_code u);
  lat ← as_numeric (Db.u_lat u);
  lng ← as_numeric (Db.u_lng u);
  year_built ← as_numeric (Db.u_year_built u);
  owner ← as_text (Db.u_owner u);
  last_sale_price ← as_numeric (Db.u_last_sale_price u);
  sale_date ← as_text (Db.u_sale_date u);
  county ← as_text (Db.u_county u);
  qoz_status ← as_text (Db.u_qoz_status u);
  improvement_value ← as_numeric (Db.u_improvement_value u);
  land_value ← as_numeric (Db.u_land_value u);
  assessed_value ← as_numeric (Db.u_assessed_value u);
  Some {| Db.id := Db.id p; Db.user_id := Db.user_id p;
          Db.regrid_id := regrid_id; Db.apn := Db.u_apn u;
          Db.address := address; Db.city := city; Db.state := state;
          Db.zip_code := zip_code; Db.geometry := Db.u_geometry u;
          Db.lat := lat; Db.lng := lng; Db.year_built := year_built;
          Db.owner := owner; Db.last_sale_price := last_sale_price;
          Db.sale_date := sale_date; Db.county := county;
          Db.qoz_status := qoz_status;
          Db.improvement_value := improvement_value;
          Db.land_value := land_value; Db.assessed_value := assessed_value;
          Db.property_data := Db.u_property_data u;
          Db.user_notes := Db.u_user_notes u; Db.tags := Db.u_tags u;
          Db.insurance_provider := Db.u_insurance_provider u;
          Db.maintenance_history := Db.u_maintenance_history u;
          Db.created_at := Db.created_at p;
          Db.updated_at := Db.u_updated_at u |}.

(** Modelled from the spec: every call on the missing store is scoped by
    the owning user. *)
Definition is_row (id userId : string) (p : Db.Property) : bool :=
  String.eqb (Db.id p) id && String.eqb (Db.user_id p) userId.

Section Store.

(** The text search of the store: whether a row matches a search term. *)
Variable search_hit : value -> Db.Property -> bool.

(** Modelled from the spec: [get(id, ownerUserId) -> PropertyRecord | none],
    the persistence collaborator of section 6, whose code ([@/lib/db]) is
    missing; the row of that id among the rows of that user. *)
Definition get (id userId : string) (st : Store) : result (option Db.Property) :=
  Ok (List.find (is_row id userId) (rows st)).

(** Modelled from the spec: [listFiltered(ownerUserId, {search?})], the
    persistence collaborator of section 6, whose code is missing; the rows of
    the user that the text search matches, in table order, and of these the
    first ten: section 9 reports a bounded result set with a cap of ten, the
    [LIMIT 10] of the SQL helper in the README.  The [city], [state] and
    [tags] filters, which no embedded route sets, are left out. *)
Definition listFiltered (userId : string) (f : Db.Filters) (st : Store)
  : result (list Db.Property) :=
  Ok (take 10
        (List.filter
           (fun p =>
              String.eqb (Db.user_id p) userId &&
              from_option (fun term => search_hit term p) true (Db.f_search f))
           (rows st))).

(** Modelled from the spec: [create(PropertyRecord-without-id) ->
    PropertyRecord | none], the persistence collaborator of section 6, whose
    code is missing; the payload becomes a new last row owned by the calling
    user, with a fresh id.  A payload with a member that does not fit the type
    of its column is refused. *)
Definition create (userId : string) (d : Db.Insert) (st : Store)
  : result (option Db.Property) * Store :=
  match row_of (pretty (length (rows st))) userId (clock st) d with
  | Some p => (Ok (Some p), {| rows := rows st ++ [p]; clock := clock st |})
  | None => (Throw "invalid input for a column", st)
  end.

(** Modelled from the spec: [update(id, ownerUserId, partial) ->
    PropertyRecord], the persistence collaborator of section 6, whose code is
    missing; the row of that id and user takes the members of the payload. *)
Definition update (id userId : string) (u : Db.Update) (st : Store)
  : result Db.Property * Store :=
  match List.find (is_row id userId) (rows st) with
  | Some p =>
      match updated_row p u with
      | Some p' =>
          (Ok p',
           {| rows := (fun q => if is_row id userId q then p' else q) <$> rows st;
              clock := clock st |})
      | None => (Throw "invalid input for a column", st)
      end
  | None => (Throw "Property not found", st)
  end.

Definition table_service : DatabaseService Store := {|
  getProperty := get;
  getFilteredProperties := listFiltered;
  createProperty := create;
  updateProperty := update |}.

End Store.

(** Modelled from the spec: the text search of the missing store,
    substring matching across the address, the parcel number and the postal
    code; the letters A to Z match whatever their case, as in the [ILIKE]
    search of the SQL helper in the README. *)
Definition contains (field : option string) (term : string) : bool :=
  from_option (fun s => includes (ascii_lower s) (ascii_lower term)) false field.

Definition ilike_hit (term : value) (p : Db.Property) : bool :=
  let t := to_string term in
  contains (Some (Db.address p)) t || contains (Db.apn p) t ||
  contains (Db.zip_code p) t.

#[global] Instance ilike_service : DatabaseService Store :=
  table_service ilike_hit.

End Table.

(** ** More of [src/lib/regrid.ts] *)

Module AddressBatch.

(** An element of the array given to [batchSearchByAddresses]. *)
Record Query : Type := {
  address : string;
  city : option string;
  state : option string }.

Section Batch.

Context {Net : Type} {provider : RegridService Net}.

(** The body of the [try] of [batchSearchByAddresses]: the address search
    for one candidate, then the detail of that candidate. *)
Definition lookup (addr : Query) (n : Net)
  : result (option Regrid.RegridProperty) * Net :=
  let '(found, n1) := searchByAddress (address addr) (city addr) (state addr) 1 n in
  match found with
  | Ok (first :: _) => getPropertyById (sr_id first) n1
  | Ok [] => (Ok None, n1)
  | Throw m => (Throw m, n1)
  end.



End Batch.

End AddressBatch.

(** The later revision of [searchByAPN], which in development answers the
    test parcels from files. *)
Class TestData : Type := {
  (** [process.env.NODE_ENV === 'development'] *)
  development : bool;
  (** [JSON.parse(readFileSync(join(process.cwd(), 'src', 'lib', 'test-data',
      filename), 'utf-8'))] *)
  readTestData : string -> result value }.

Module RevClient.

Definition TEST_APN_MAPPING : list (string * string) :=
  [ ("0254282260000", "regrid-test-1.json");
    ("50183176", "regrid-test-2.json");
    ("505090290", "regrid-test-3.json");
    ("505210810", "regrid-test-4.json");
    ("0253204080000", "regrid-test-5.json");
    ("628081041", "regrid-test-6.json") ].

Definition TEST_APNS : list string := TEST_APN_MAPPING.*1.

(** [TEST_APN_MAPPING[apn]] *)
Definition filename_of (apn : string) : value :=
  from_option (fun e => Str e.2) Undefined
    (List.find (fun e => String.eqb e.1 apn) TEST_APN_MAPPING).

Section Client.

Context {Net : Type} {http : Provider Net} {files : TestData}.

(** [features.length > 0], then [normalizeProperty(features[0])], with the
    normaliser of this revision *)
Definition first_feature (features : value)
  : result (option Regrid.RegridProperty) :=
  len ← member features "length";
  positive ← gt_zero len;
  if positive : bool then
    first ← member features "0";
    property ← Regrid.Rev.normalizeProperty first;
    mret (Some property)
  else mret None.

(** The inner [try]: the cached answer.  [None] is the end of the block
    without a [return]. *)
Definition cached (apn : string) : result (option Regrid.RegridProperty) :=
  match filename_of apn with
  | Str filename =>
      testData ← readTestData filename;
      first_feature
        (or_else (opt_member (opt_member testData "parcels") "features") (Arr []))
  | _ => Throw "The path argument must be of type string"
  end.

(** The request to the provider, the rest of the function *)
Definition lookup (apn : string) (n : Net)
  : result (option Regrid.RegridProperty) * Net :=
  let params :=
    Obj (Regrid.object_of [("parcelnumb", Str apn); ("token", apiKey)]) in
  let '(answer, n') := makeRequest "/parcels/apn" params n in
  (data ← answer;
   first_feature
     (or_else (opt_member (opt_member data "parcels") "features") (Arr [])),
   n').

Definition searchByAPN (apn : string) (state : option string) (n : Net)
  : result (option Regrid.RegridProperty) * Net :=
  if bool_decide (apn ∈ TEST_APNS) && development then
    match cached apn with
    | Ok (Some property) => (Ok (Some property), n)
    | Ok None | Throw _ => lookup apn n
    end
  else lookup apn n.

(** [getPropertyById] of this revision.  Its [searchByAddress] has the text
    of the first revision and is [RegridClient.searchByAddress]. *)
Definition getPropertyById (id : value) (n : Net)
  : result (option Regrid.RegridProperty) * Net :=
  let params := Obj (Regrid.object_of [("token", apiKey)]) in
  let '(answer, n') := makeRequest ("/parcels/" +:+ to_string id) params n in
  (data ← answer;
   parcels ← member data "parcels";
   let features := opt_member parcels "features" in
   if truthy features then first_feature features else mret None,
   n').

(** The lookups of this revision, as the routes and the batches see them. *)
Definition service : RegridService Net :=
  Build_RegridService Net searchByAPN RegridClient.searchByAddress
    getPropertyById.

End Client.

End RevClient.

(** ** [src/app/api/properties/[id]/route.ts] *)

Module PropertyDetail.

Section Route.

Context {Net : Type} {provider : RegridService Net}.

Definition GET (session : option string) (id : string) (n : Net)
  : Response Regrid.RegridProperty * Net :=
  match nonempty session with
  | None => (Failure 401 "Unauthorized", n)
  | Some _ =>
      if String.eqb id "" then (Failure 400 "Property ID is required", n)
      else
        let '(property, n') := getPropertyById (Str id) n in
        match property with
        | Ok (Some found) => (Success found, n')
        | Ok None => (Failure 404 "Property not found", n')
        | Throw _ => (Failure 500 "Failed to get property details", n')
        end
  end.

End Route.

End PropertyDetail.

(** ** [user-properties/route.ts], lines 271-300: the list route *)

Module ListProperties.

(** [s.split(sep)] for a separator of one character *)
Fixpoint split (sep : ascii) (s : string) : list string :=
  match s with
  | EmptyString => [EmptyString]
  | String c r =>
      if Ascii.eqb c sep then EmptyString :: split sep r
      else
        match split sep r with
        | piece :: pieces => String c piece :: pieces
        | [] => [String c EmptyString]
        end
  end.

(** [searchParams.get('tags')?.split(',').filter(Boolean)] *)
Definition tags_of (tags : option string) : option (list string) :=
  (fun t => List.filter (fun piece => truthy (Str piece)) (split "," t)) <$> tags.

(** The object literal [filters]; an empty array is truthy, so a [tags]
    parameter without a tag still sets the filter. *)
Definition filters_of (city state tags search : option string) : Db.Filters :=
  {| Db.f_city := nonempty city;
     Db.f_state := nonempty state;
     Db.f_tags := tags_of tags;
     Db.f_search := Str <$> nonempty search |}.

Section Route.

Context {DB Net : Type} {store : DatabaseService DB}.

(** The four options are what [searchParams.get] returned. *)
Definition GET (session : option string) (city state tags search : option string)
  : M DB Net (Response (list Db.Property)) :=
  try_catch
    match nonempty session with
    | None => ret (Failure 401 "Unauthorized")
    | Some userId =>
        let* properties :=
          db_read (getFilteredProperties userId
                     (filters_of city state tags search)) in
        ret (Success properties)
    end
    (fun _ => ret (Failure 500 "Failed to get properties")).

End Route.

End ListProperties.

(** ** [makeRequest] of [src/lib/regrid.ts] over [fetch] *)

(** What the code reads of the [Response] of [fetch]. *)
Record HttpResponse : Type := {
  ok : bool;
  status : Z;
  (** [await response.text()] *)
  text : string;
  (** [response.json()], which throws on a body that is not JSON *)
  json : result value }.

(** The network: [fetch] is given the string the URL is made of and the
    parameters appended to its query, each with the string it is appended
    as; how the URL is serialised is not modelled. *)
Class Fetch (Net : Type) : Type := {
  (** [process.env.REGRID_API_KEY], a string or undefined *)
  REGRID_API_KEY : value;
  fetch : string -> gmap string string -> Net -> result HttpResponse * Net }.

Module FetchClient.

Definition REGRID_API_BASE : string := "https://app.regrid.com/api/v2".

(** The parameters that [forEach] appends: those that are neither undefined
    nor null, each as [value.toString()]. *)
Definition query_of (params : value) : gmap string string :=
  omap (fun v => if nullish v then None else Some (to_string v))
    (own_props params).

Section Client.

Context {Net : Type} {network : Fetch Net}.

Definition makeRequest (endpoint : string) (params : value) (n : Net)
  : result value * Net :=
  if negb (truthy REGRID_API_KEY)
  then (Throw "Regrid API key is not configured", n)
  else
    let '(response, n') :=
      fetch (REGRID_API_BASE +:+ endpoint) (query_of params) n in
    (response ← response;
     if ok response then json response
     else Throw ("Regrid API Error (" +:+ to_string (Num (Dec (status response) 0))
                 +:+ "): " +:+ text response),
     n').

(** [RegridService] with its [apiKey] and [makeRequest]. *)
Definition provider : Provider Net :=
  Build_Provider Net REGRID_API_KEY makeRequest.

End Client.

End FetchClient.

(** ** [user-properties/route.ts], lines 302-343: the create route *)

Module CreateRoute.

(** What the route sends on success: the answer of the handler it chose. *)
Inductive Created : Type :=
  | Single (property : Db.Property)
  | Bulk (response : UserProperties.BulkResponse).

(** [Array.isArray(v)] *)
Definition isArray (v : value) : bool :=
  match v with
  | Arr _ => true
  | _ => false
  end.

(** The [catch] of [POST], for an error with the given message. *)
Definition failure {A} (message : string) : Response A :=
  if includes message "validation" then Failure 400 message
  else if includes message "Unauthorized" then Failure 401 message
  else if includes message "RLS policy"
  then Failure 403 "Authentication issue - please sign out and back in"
  else Failure 500 message.

Section Route.

Context {DB Net : Type} {store : DatabaseService DB}
  {provider : RegridService Net} {unicode : Unicode}.

(** [json] is the outcome of [request.json()].  The [try] covers the session,
    the body and the test on [body.properties]; the handler is returned
    without [await], so what it throws is not caught there: the promise of
    the route rejects with it. *)
Definition POST (session : option string) (json : result value)
  : M DB Net (Response Created) :=
  match nonempty session with
  | None => ret (Failure 401 "Unauthorized")
  | Some userId =>
      match body ← json;
            properties ← member body "properties";
            mret (body, truthy properties && isArray properties) with
      | Throw message => ret (failure message)
      | Ok (body, true) =>
          let* response := UserProperties.handleBulkCreate userId body in
          ret (Success (Bulk response))
      | Ok (body, false) =>
          let* property := UserProperties.handleSingleCreate userId body in
          ret (Success (Single property))
      end
  end.

End Route.

End CreateRoute.

(** ** [user-properties/route.ts], lines 99-169: the earlier single create *)

Module UserPropertiesV1.

Section Routes.

Context {DB Net : Type} {store : DatabaseService DB}
  {provider : RegridService Net}.

(** The object literal [propertyData] of this revision, which has none of
    the members taken from the attribute bag; a member that is not there
    reads undefined. *)
Definition propertyData (i : Schema.CreateInput)
  (regridData : option Regrid.RegridProperty) : Db.Insert :=
  let address m := of_regrid regridData (fun r => m (Regrid.address r)) in
  let centroid m :=
    of_regrid regridData (fun r => Num (m (Regrid.centroid r))) in
  {| Db.i_regrid_id := nonempty (Schema.regrid_id i);
     Db.i_apn :=
       or_else (or_else (of_regrid regridData Regrid.apn) (optional (Schema.apn i))) Null;
     Db.i_address := or_else (address Regrid.line1) (Str (Schema.address i));
     Db.i_city :=
       or_else (or_else (address Regrid.city) (optional (Schema.city i))) Null;
     Db.i_state :=
       or_else (or_else (address Regrid.state) (optional (Schema.state i))) Null;
     Db.i_zip_code :=
       or_else (or_else (address Regrid.zip) (optional (Schema.zip_code i))) Null;
     Db.i_geometry := or_else (of_regrid regridData Regrid.geometry) Null;
     Db.i_lat := or_else (centroid Regrid.lat) Null;
     Db.i_lng := or_else (centroid Regrid.lng) Null;
     Db.i_year_built := Undefined;
     Db.i_owner := Undefined;
     Db.i_last_sale_price := Undefined;
     Db.i_sale_date := Undefined;
     Db.i_county := Undefined;
     Db.i_qoz_status := Undefined;
     Db.i_improvement_value := Undefined;
     Db.i_land_value := Undefined;
     Db.i_assessed_value := Undefined;
     Db.i_property_data := or_else (of_regrid regridData Regrid.to_value) Null;
     Db.i_user_notes := nonempty (Schema.user_notes i);
     Db.i_tags := Schema.tags i;
     Db.i_insurance_provider := nonempty (Schema.insurance_provider i);
     Db.i_maintenance_history := nonempty (Schema.maintenance_history i) |}.

(** The provider phase: none when the request has an id, a parcel number
    and an address; else by parcel number when there is one, else by
    address. *)
Definition fetchRegridData (validatedData : Schema.CreateInput)
  : M DB Net (option Regrid.RegridProperty) :=
  if truthy (optional (Schema.regrid_id validatedData)) &&
     truthy (optional (Schema.apn validatedData)) &&
     truthy (Str (Schema.address validatedData))
  then ret None
  else
    match nonempty (Schema.apn validatedData) with
    | Some apn => net_call (searchByAPN apn (Schema.state validatedData))
    | None => UserProperties.lookupByAddress validatedData
    end.

Definition handleSingleCreate (userId : string) (body : value)
  : M DB Net Db.Property :=
  let* validatedData := pure (Schema.createPropertySchema_parse body) in
  let* regridData := fetchRegridData validatedData in
  let propertyData := propertyData validatedData regridData in
  try_catch
    (let* property := db_write (createProperty userId propertyData) in
     match property with
     | Some p => ret p
     | None => throw "Cannot read properties of null (reading 'id')"
     end)
    (fun message => throw ("Database error: " +:+ message)).

End Routes.

End UserPropertiesV1.

(** ** The CSV upload of the dashboard ([components/upload/csv-upload.tsx],
    later revision)

    The two [complete] callbacks that [validateCSV] and [handleUpload] give
    to the CSV parser, over the rows the parser hands them.  The progress bar
    and the other display state are left out. *)

Module Upload.

(** A parsed row: its members in the order of [Object.keys].  The parser
    gives every column of the header a string, and a row nothing for a column
    it has no field for: the cells are values on which the conversion to a
    string returns, and [String(cell)] is [to_string]. *)
Definition Row : Type := list (string * value).

(** [row[key]], for a key that is a string or undefined *)
Definition cell (row : Row) (key : value) : value :=
  from_option snd Undefined
    (List.find (fun entry => String.eqb entry.1 (to_string key)) row).

(** The test on a header that both callbacks use, [h] being the header in
    lower case. *)
Definition names_apn (h : string) : bool :=
  includes h "apn" || includes h "parcel" || includes h "parcelnumber" ||
  includes h "parcel_number" || String.eqb h "apn" || String.eqb h "parcel" ||
  String.eqb h "parcelnumber" || String.eqb h "parcel_number".

(** [Object.keys(row).find(key => ...)] *)
Definition apnKey {unicode : Unicode} (row : Row) : value :=
  from_option Str Undefined
    (List.find (fun key => names_apn (toLowerCase key)) row.*1).

(** *** [validateCSV] *)

Inductive Format : Type := apn_format | address_format | unknown_format.

Record ValidationResult : Type := {
  isValid : bool;
  errors : list string;
  detectedFormat : Format;
  sampleData : list Row }.

(** [!row[apnColumn] || String(row[apnColumn]).trim() === ''] *)
Definition empty_apn (apnColumn : value) (row : Row) : bool :=
  negb (truthy (cell row apnColumn)) ||
  String.eqb (trim (to_string (cell row apnColumn))) "".

(** [data] is what the parser read of the first five rows. *)
Definition validate {unicode : Unicode} (data : list Row) : ValidationResult :=
  match data with
  | [] =>
      {| isValid := false; errors := ["CSV file appears to be empty"];
         detectedFormat := unknown_format; sampleData := [] |}
  | first :: _ =>
      let headers := toLowerCase <$> first.*1 in
      let detectedFormat :=
        if existsb names_apn headers then apn_format else unknown_format in
      let errors :=
        match detectedFormat with
        | unknown_format =>
            ["CSV must contain an APN column. Supported column names: apn, parcel, parcelnumber, parcel_number"]
        | _ => []
        end in
      let errors :=
        match detectedFormat with
        | apn_format =>
            let emptyApns := List.filter (empty_apn (apnKey first)) data in
            if (0 <? length emptyApns)%nat
            then errors ++ [pretty (length emptyApns) +:+ " rows have empty APN values"]
            else errors
        | _ => errors
        end in
      {| isValid := (length errors =? 0)%nat; errors := errors;
         detectedFormat := detectedFormat; sampleData := take 3 data |}
  end.

(** *** [handleUpload] *)

(** What a row becomes: [{ apn, address }]. *)
Record Property : Type := {
  apn : string;
  address : string }.

Definition property_of {unicode : Unicode} (row : Row) : Property :=
  let apnValue := cell row (apnKey row) in
  {| apn := trim (to_string apnValue);
     address := "Property " +:+ to_string apnValue |}.

(** An element of [duplicateChecks]; [checked] is its [apn] member. *)
Record Check : Type := {
  index : nat;
  checked : string;
  isDuplicate : bool;
  existingProperty : value }.

(** An entry of the [errors] array. *)
Inductive UploadError : Type :=
  (** [{ apn, error, type: 'duplicate' }] *)
  | duplicate (apn error : string)
  (** an element of the [errors] of a batch answer *)
  | reported (entry : value)
  (** [{ apn, error, type: 'upload_error' }] *)
  | upload_error (apn error : string).

Record UploadResults : Type := {
  total : nat;
  successful : nat;
  failed : nat;
  results : list value;
  upload_errors : list UploadError }.

(** The two requests to the server of the application, each with what
    comes back: for the duplicate check the parsed body, for a batch whether
    the answer was ok and the parsed body; a request that fails, or whose body
    is not JSON, throws. *)
Class Backend (S : Type) : Type := {
  check_apn : string -> S -> result value * S;
  post_properties : list Property -> S -> result (bool * value) * S }.

Definition batchSize : nat := 5.

(** The elements that [xs.push(...v)] pushes.  The text of the type error for
    a value that cannot be iterated is the engine's. *)
Definition spread_arguments (v : value) : result (list value) :=
  match v with
  | Arr items => Ok items
  | Str s => Ok (chars s)
  | _ => Throw "Spread syntax requires ...iterable[Symbol.iterator] to be a function"
  end.

Section Upload.

Context {S : Type} {backend : Backend S} {unicode : Unicode}.

(** The callback of [properties.map] in the duplicate check, with its
    [catch]. *)
Definition check (index : nat) (prop : Property) (s : S) : Check * S :=
  let '(answer, s') := check_apn (apn prop) s in
  (match result ← answer;
         found ← member result "exists";
         property ← member result "property";
         mret (found, property) with
   | Ok (found, property) =>
       {| index := index; checked := apn prop; isDuplicate := truthy found;
          existingProperty := property |}
   | Throw _ =>
       {| index := index; checked := apn prop; isDuplicate := false;
          existingProperty := Null |}
   end, s').

(** [Promise.all(properties.map(...))]: one check per property, taken in
    the order of the array. *)
Fixpoint duplicateChecks (index : nat) (properties : list Property) (s : S)
  : list Check * S :=
  match properties with
  | [] => ([], s)
  | prop :: rest =>
      let '(c, s1) := check index prop s in
      let '(cs, s2) := duplicateChecks (Datatypes.S index) rest s1 in
      (c :: cs, s2)
  end.

(** [properties.filter((_, index) => !duplicateChecks[index].isDuplicate)],
    from position [index] on *)
Fixpoint uniqueProperties (index : nat) (properties : list Property)
  (checks : list Check) : result (list Property) :=
  match properties with
  | [] => Ok []
  | prop :: rest =>
      match checks !! index with
      | None =>
          Throw "Cannot read properties of undefined (reading 'isDuplicate')"
      | Some c =>
          kept ← uniqueProperties (Datatypes.S index) rest checks;
          mret (if isDuplicate c then kept else prop :: kept)
      end
  end.

(** The [catch] of a batch: one error for each property of the batch. *)
Definition batch_failed (batch : list Property) (message : string)
  : list UploadError :=
  (fun prop => upload_error (apn prop) message) <$> batch.

(** The body of the [for] loop for one batch, [results] and [errors] being
    the two arrays so far. *)
Definition upload_batch (batch : list Property) (results : list value)
  (errors : list UploadError) (s : S) : (list value * list UploadError) * S :=
  let '(answer, s') := post_properties batch s in
  (match answer with
   | Throw message => (results, errors ++ batch_failed batch message)
   | Ok (false, result) =>
       match member result "error" with
       | Ok error =>
           (results,
            errors ++
            batch_failed batch (to_string (or_else error (Str "Upload failed"))))
       | Throw message => (results, errors ++ batch_failed batch message)
       end
   | Ok (true, result) =>
       match created ← member result "created"; spread_arguments created with
       | Throw message => (results, errors ++ batch_failed batch message)
       | Ok created =>
           match reported ← member result "errors"; spread_arguments reported with
           | Throw message =>
               (results ++ created, errors ++ batch_failed batch message)
           | Ok entries =>
               (results ++ created, errors ++ (reported <$> entries))
           end
       end
   end, s').

(** [for (let i = 0; i < uniqueProperties.length; i += batchSize)], from
    [i] on; [fuel] bounds the number of iterations, and [None] is a loop that
    has not ended within it. *)
Fixpoint upload_loop (fuel i : nat) (unique : list Property)
  (results : list value) (errors : list UploadError) (s : S)
  : option ((list value * list UploadError) * S) :=
  if (i <? length unique)%nat then
    match fuel with
    | O => None
    | Datatypes.S fuel' =>
        let batch := take batchSize (drop i unique) in
        let '((results', errors'), s') := upload_batch batch results errors s in
        upload_loop fuel' (i + batchSize) unique results' errors' s'
    end
  else Some ((results, errors), s).

(** The [complete] callback of [handleUpload], on the rows of the file;
    [Throw] is a callback that rejects. *)
Definition complete (data : list Row) (s : S)
  : option (result UploadResults * S) :=
  let properties := property_of <$> data in
  let '(checks, s1) := duplicateChecks 0 properties s in
  let duplicates := List.filter isDuplicate checks in
  match uniqueProperties 0 properties checks with
  | Throw message => Some (Throw message, s1)
  | Ok unique =>
      let errors :=
        (fun dup =>
           duplicate (checked dup)
             ("APN " +:+ checked dup +:+ " already exists in your portfolio"))
          <$> duplicates in
      match upload_loop (length unique) 0 unique [] errors s1 with
      | None => None
      | Some ((results, errors), s2) =>
          Some (Ok {| total := length properties;
                      successful := length results;
                      failed := length errors;
                      results := results;
                      upload_errors := errors |}, s2)
      end
  end.

End Upload.

End Upload.

(** ** The CSV upload, earlier revision: [handleUpload] *)

Module UploadV1.

(** [Object.keys(row).find(k => k.toLowerCase().includes('apn') ||
      k.toLowerCase().includes('parcel'))] *)
Definition apnKey {unicode : Unicode} (row : Upload.Row) : value :=
  from_option Str Undefined
    (List.find
       (fun k => includes (toLowerCase k) "apn" || includes (toLowerCase k) "parcel")
       row.*1).

(** What a row becomes, by the format that the validation detected. *)
Inductive Property : Type :=
  (** [{ apn, address }] *)
  | by_apn (apn address : value)
  (** [{ address, city, state, zip_code }] *)
  | by_address (address city state zip_code : value).

Definition property_of {unicode : Unicode} (detectedFormat : Upload.Format)
  (row : Upload.Row) : Property :=
  let member k := Upload.cell row (Str k) in
  match detectedFormat with
  | Upload.apn_format =>
      let apnKey := apnKey row in
      by_apn (Upload.cell row apnKey)
        (or_else (or_else (member "address") (member "Address"))
           (Str ("Property " +:+ to_string (Upload.cell row apnKey))))
  | _ =>
      by_address (or_else (member "address") (member "Address"))
        (or_else (member "city") (member "City"))
        (or_else (member "state") (member "State"))
        (or_else (or_else (member "zip") (member "ZIP")) (member "zip_code"))
  end.

(** An entry of the [errors] array. *)
Inductive UploadError : Type :=
  (** an element of the [errors] of a batch answer *)
  | reported (entry : value)
  (** [{ batch, error }] *)
  | batch_error (batch : nat) (error : string).

Record UploadResults : Type := {
  total : nat;
  successful : nat;
  failed : nat;
  results : list value;
  upload_errors : list UploadError }.

(** The request to the server of the application with what comes back:
    whether the answer was ok and the parsed body; a request that fails, or
    whose body is not JSON, throws. *)
Class Backend (S : Type) : Type := {
  post_properties : list Property -> S -> result (bool * value) * S }.

Definition batchSize : nat := 10.

Section Upload.

Context {S : Type} {backend : Backend S} {unicode : Unicode}.

(** The body of the [for] loop for the batch that starts at [i]. *)
Definition upload_batch (i : nat) (batch : list Property) (results : list value)
  (errors : list UploadError) (s : S) : (list value * list UploadError) * S :=
  let failed message := [batch_error (i / batchSize + 1) message] in
  let '(answer, s') := post_properties batch s in
  (match answer with
   | Throw message => (results, errors ++ failed message)
   | Ok (false, result) =>
       match member result "error" with
       | Ok error =>
           (results,
            errors ++ failed (to_string (or_else error (Str "Upload failed"))))
       | Throw message => (results, errors ++ failed message)
       end
   | Ok (true, result) =>
       match created ← member result "created";
             Upload.spread_arguments created with
       | Throw message => (results, errors ++ failed message)
       | Ok created =>
           match reported ← member result "errors";
                 Upload.spread_arguments reported with
           | Throw message => (results ++ created, errors ++ failed message)
           | Ok entries => (results ++ created, errors ++ (reported <$> entries))
           end
       end
   end, s').

(** [for (let i = 0; i < properties.length; i += batchSize)], from [i] on;
    [fuel] bounds the number of iterations, and [None] is a loop that has not
    ended within it. *)
Fixpoint upload_loop (fuel i : nat) (properties : list Property)
  (results : list value) (errors : list UploadError) (s : S)
  : option ((list value * list UploadError) * S) :=
  if (i <? length properties)%nat then
    match fuel with
    | O => None
    | Datatypes.S fuel' =>
        let batch := take batchSize (drop i properties) in
        let '((results', errors'), s') := upload_batch i batch results errors s in
        upload_loop fuel' (i + batchSize) properties results' errors' s'
    end
  else Some ((results, errors), s).

(** The [complete] callback of [handleUpload], on the rows of the file. *)
Definition complete (detectedFormat : Upload.Format) (data : list Upload.Row)
  (s : S) : option (UploadResults * S) :=
  let properties := property_of detectedFormat <$> data in
  match upload_loop (length properties) 0 properties [] [] s with
  | None => None
  | Some ((results, errors), s') =>
      Some ({| total := length properties;
               successful := length results;
               failed := length errors;
               results := results;
               upload_errors := errors |}, s')
  end.

End Upload.

End UploadV1.

(** * Vocabulary of the statements, and sample data *)

(** The case mapping of the samples, whose only letters are A to Z and a to
    z: those every engine maps in the same way. *)
Definition ascii_letters : Unicode := {| toLowerCase := ascii_lower |}.

Module NormalizeSpec.

Import Regrid.

(** The container the normaliser reads every field from, as an expression
    without the member reads that could throw. *)
Definition fields_of (rawProperty : value) : value :=
  or_else (or_else (or_else (opt_member (prop rawProperty "properties") "fields")
             (prop rawProperty "fields"))
         (prop rawProperty "properties"))
     rawProperty.

(** The value that [String(...)] is given for the id *)
Definition id_source (rawProperty : value) : value :=
  or_else (or_else (prop rawProperty "id") (prop (fields_of rawProperty) "id"))
    (Str "").

(** [n || 0] on a number *)
Definition number_or_0 (n : number) : number :=
  if truthy (Num n) then n else Dec 0 0.

(** What the normaliser returns on a raw record that is neither null nor
    undefined, given the string of the id, the parsed latitude and longitude
    and the entries of the bag. *)
Definition normalized (id : string) (lat lng : number)
  (entries : list (string * value)) (raw : value) : RegridProperty :=
  let f := fields_of raw in
  {| id := id;
     apn := or_else (or_else (prop f "parcelnumb") (prop f "apn")) (Str "");
     address :=
       {| line1 := or_else (prop f "address") (Str "");
          line2 := Str "";
          city := or_else (or_else (prop f "scity") (prop f "city")) (Str "");
          state := or_else (or_else (prop f "state2") (prop f "state")) (Str "");
          zip := or_else (or_else (prop f "szip5") (prop f "zip")) (Str "") |};
     geometry := or_else (prop raw "geometry") empty_polygon;
     centroid := {| lat := number_or_0 lat; lng := number_or_0 lng |};
     properties := spread (object_of entries) f |}.

(** The numeric attributes of the bag, per revision: the key, the built-in
    that parses it and the raw field it is parsed from. *)
Definition lib_numeric : list (string * (value -> result number) * string) :=
  [ ("lot_size_sqft", parseInt, "ll_gissqft");
    ("lot_acres", parseFloat, "ll_gisacre");
    ("building_sqft", parseInt, "building_sqft");
    ("year_built", parseInt, "yearbuilt");
    ("assessed_value", parseFloat, "assessed_value");
    ("sale_price", parseFloat, "saleprice") ].

Definition rev_numeric : list (string * (value -> result number) * string) :=
  [ ("lot_size_sqft", parseInt, "ll_gissqft");
    ("lot_acres", parseFloat, "ll_gisacre");
    ("building_sqft", parseInt, "building_sqft");
    ("year_built", parseInt, "yearbuilt");
    ("assessed_value", parseFloat, "parval");
    ("improvement_value", parseFloat, "improvval");
    ("land_value", parseFloat, "landval");
    ("last_sale_price", parseFloat, "saleprice") ].

(** The text attributes of the bag, per revision: the key and the raw field
    it is read from. *)
Definition lib_text : list (string * string) :=
  [ ("owner", "owner"); ("zoning", "zoning");
    ("zoning_description", "zoning_description");
    ("property_type", "property_type"); ("use_code", "usecode");
    ("use_description", "usedesc"); ("sale_date", "saledate");
    ("subdivision", "subdivision"); ("county", "county");
    ("qualified_opportunity_zone", "qoz") ].

Definition rev_text : list (string * string) :=
  [ ("owner", "owner"); ("zoning", "zoning");
    ("zoning_description", "zoning_description");
    ("property_type", "property_type"); ("use_code", "usecode");
    ("use_description", "usedesc"); ("sale_date", "saledate");
    ("county", "county"); ("qoz_status", "qoz");
    ("subdivision", "subdivision"); ("qualified_opportunity_zone", "qoz") ].

(** The values that the normaliser converts to a string: the id, the
    latitude, the longitude and the fields of the numeric attributes. *)
Definition converted (numeric : list (string * (value -> result number) * string))
  (raw : value) : list value :=
  let f := fields_of raw in
  id_source raw :: prop f "lat" :: prop f "lon" ::
  ((fun entry => prop f entry.2) <$> numeric).

(** A string, a number, a boolean, null or undefined *)
Definition primitive (v : value) : bool :=
  match v with
  | Arr _ | Obj _ => false
  | _ => true
  end.

(** What [x || undefined] leaves of a parsed number: nothing, or a number
    that is neither NaN nor zero. *)
Definition numeric_attribute (v : value) : Prop :=
  v = Undefined \/
  exists n, v = Num n /\ is_nan n = false /\ is_zero n = false.


(** An object literal as a value. *)
Definition record (members : list (string * value)) : value :=
  Obj (object_of members).

Definition raw_infinite_lat : value :=
  record [ ("properties",
             record [ ("fields",
                        record [ ("parcelnumb", Str "050-183-176");
                                 ("lat", Str "Infinity");
                                 ("lon", Str "-83.05") ]) ]) ].

Definition raw_colliding_keys : value :=
  record [ ("properties",
             record [ ("fields",
                        record [ ("parcelnumb", Str "050-183-176");
                                 ("owner", Null);
                                 ("parval", Str "100");
                                 ("assessed_value", Str "12abc") ]) ]) ].


(** A record whose id is an object with a member [toString], and one with
    such an object as its latitude. *)
Definition raw_unprintable_id : value :=
  record [ ("id", record [ ("toString", Num (Dec 1 0)) ]);
           ("fields", record [ ("parcelnumb", Str "050-183-176") ]) ].

Definition raw_unprintable_lat : value :=
  record [ ("fields",
             record [ ("parcelnumb", Str "050-183-176");
                      ("lat", record [ ("toString", Null) ]) ]) ].

Definition raw_plain : value :=
  record [ ("properties",
             record [ ("fields",
                        record [ ("parcelnumb", Str "050-183-176");
                                 ("owner", Str "Jane Doe");
                                 ("yearbuilt", Str "1998");
                                 ("lat", Str "42.33");
                                 ("lon", Str "-83.05") ]) ]) ].

End NormalizeSpec.

Module RefreshSpec.

(** The provider-derived members of [updatedPropertyData], the parcel number
    apart. *)
Inductive Field : Type :=
  | regrid_id | address | city | state | zip_code | geometry | lat | lng
  | year_built | owner | last_sale_price | sale_date | county | qoz_status
  | improvement_value | land_value | assessed_value | property_data.

(** What the provider response holds for a member. *)
Definition provided (f : Field) (r : Regrid.RegridProperty) : value :=
  match f with
  | regrid_id => Str (Regrid.id r)
  | address => Regrid.line1 (Regrid.address r)
  | city => Regrid.city (Regrid.address r)
  | state => Regrid.state (Regrid.address r)
  | zip_code => Regrid.zip (Regrid.address r)
  | geometry => Regrid.geometry r
  | lat => Num (Regrid.lat (Regrid.centroid r))
  | lng => Num (Regrid.lng (Regrid.centroid r))
  | year_built => bag "year_built" r
  | owner => bag "owner" r
  | last_sale_price => bag "last_sale_price" r
  | sale_date => bag "sale_date" r
  | county => bag "county" r
  | qoz_status => bag "qoz_status" r
  | improvement_value => bag "improvement_value" r
  | land_value => bag "land_value" r
  | assessed_value => bag "assessed_value" r
  | property_data => Regrid.to_value r
  end.

(** What the stored record holds for it. *)
Definition stored (f : Field) (p : Db.Property) : value :=
  match f with
  | regrid_id => Db.text (Db.regrid_id p)
  | address => Str (Db.address p)
  | city => Db.text (Db.city p)
  | state => Db.text (Db.state p)
  | zip_code => Db.text (Db.zip_code p)
  | geometry => Db.geometry p
  | lat => Db.numeric (Db.lat p)
  | lng => Db.numeric (Db.lng p)
  | year_built => Db.numeric (Db.year_built p)
  | owner => Db.text (Db.owner p)
  | last_sale_price => Db.numeric (Db.last_sale_price p)
  | sale_date => Db.text (Db.sale_date p)
  | county => Db.text (Db.county p)
  | qoz_status => Db.text (Db.qoz_status p)
  | improvement_value => Db.numeric (Db.improvement_value p)
  | land_value => Db.numeric (Db.land_value p)
  | assessed_value => Db.numeric (Db.assessed_value p)
  | property_data => Db.property_data p
  end.

(** What the update writes for it. *)
Definition updated (f : Field) (u : Db.Update) : value :=
  match f with
  | regrid_id => Db.u_regrid_id u
  | address => Db.u_address u
  | city => Db.u_city u
  | state => Db.u_state u
  | zip_code => Db.u_zip_code u
  | geometry => Db.u_geometry u
  | lat => Db.u_lat u
  | lng => Db.u_lng u
  | year_built => Db.u_year_built u
  | owner => Db.u_owner u
  | last_sale_price => Db.u_last_sale_price u
  | sale_date => Db.u_sale_date u
  | county => Db.u_county u
  | qoz_status => Db.u_qoz_status u
  | improvement_value => Db.u_improvement_value u
  | land_value => Db.u_land_value u
  | assessed_value => Db.u_assessed_value u
  | property_data => Db.u_property_data u
  end.

(** The separator that [cleanAPN] removes *)
Definition dash : ascii := "-".

(** A stored record and provider answers used below. *)
Definition row_at (id address : string) (apn : option string) : Db.Property :=
  {| Db.id := id; Db.user_id := "u1"; Db.regrid_id := Some "77";
     Db.apn := apn; Db.address := address;
     Db.city := Some "Detroit"; Db.state := Some "MI";
     Db.zip_code := Some "48201"; Db.geometry := Null;
     Db.lat := None; Db.lng := None; Db.year_built := Some (Dec 1998 0);
     Db.owner := Some "Alice"; Db.last_sale_price := None;
     Db.sale_date := None; Db.county := Some "Wayne"; Db.qoz_status := None;
     Db.improvement_value := None; Db.land_value := None;
     Db.assessed_value := None; Db.property_data := Null;
     Db.user_notes := Some "call the broker"; Db.tags := Some ["retail"];
     Db.insurance_provider := None; Db.maintenance_history := None;
     Db.created_at := "t0"; Db.updated_at := "t0" |}.

Definition row (id : string) (apn : option string) : Db.Property :=
  row_at id "123 Main St" apn.

Definition alice_row : Db.Property := row "0" (Some "12-34").

Definition answer_with (apn owner : value) : Regrid.RegridProperty :=
  {| Regrid.id := "77"; Regrid.apn := apn;
     Regrid.address :=
       {| Regrid.line1 := Str "123 Main St"; Regrid.line2 := Str "";
          Regrid.city := Str "Detroit"; Regrid.state := Str "MI";
          Regrid.zip := Str "" |};
     Regrid.geometry := Regrid.empty_polygon;
     Regrid.centroid := {| Regrid.lat := Dec 0 0; Regrid.lng := Dec 0 0 |};
     Regrid.properties := Regrid.object_of [("owner", owner)] |}.

(** A store with the record of Alice, and a provider that knows her parcel
    under the number that is stored. *)
Definition alice_world : World Table.Store Scripted.Net :=
  {| db := {| Table.rows := [alice_row; row "1" None; row "2" (Some "down")];
              Table.clock := "t0" |};
     net := [ ("12-34", Ok (Some (answer_with (Str "12-34") (Str "Bob"))));
              ("down", Throw "Regrid API Error (500): unavailable") ] |}.

End RefreshSpec.

Module CheckApnSpec.


End CheckApnSpec.

Module CreateSpec.

(** The scenario of the spec: a caller without records creates the parcel
    050-183-176, which the provider knows, and then asks for it again. *)
Definition jane_parcel : Regrid.RegridProperty :=
  {| Regrid.id := "4711"; Regrid.apn := Str "050-183-176";
     Regrid.address :=
       {| Regrid.line1 := Str "123 Main St"; Regrid.line2 := Str "";
          Regrid.city := Str "Detroit"; Regrid.state := Str "MI";
          Regrid.zip := Str "48201" |};
     Regrid.geometry := Regrid.empty_polygon;
     Regrid.centroid := {| Regrid.lat := Dec 4233 (-2); Regrid.lng := Dec (-8305) (-2) |};
     Regrid.properties :=
       Regrid.object_of [ ("owner", Str "Jane Doe");
                          ("year_built", Num (Dec 1998 0)) ] |}.

Definition jane_request : value :=
  Obj (Regrid.object_of [ ("apn", Str "050-183-176");
                          ("address", Str "123 Main St") ]).

Definition empty_world : World Table.Store Scripted.Net :=
  {| db := {| Table.rows := []; Table.clock := "t0" |};
     net := [ ("050-183-176", Ok (Some jane_parcel)) ] |}.





End CreateSpec.

Module BulkSpec.

Import UserProperties.

(** The created records among the outcomes, in their order. *)
Definition successes (outs : list (result (option Db.Property)))
  : list (option Db.Property) :=
  omap (fun r => match r with Ok a => Some a | Throw _ => None end) outs.

(** The failed inputs among the outcomes, in their order, each with its
    position (counted from [index]), its input and the message. *)
Fixpoint failures (index : nat) (items : list Schema.CreateInput)
  (outs : list (result (option Db.Property))) : list ErrorEntry :=
  match items, outs with
  | x :: items', Ok _ :: outs' => failures (S index) items' outs'
  | x :: items', Throw m :: outs' =>
      {| index := index; input := x; error := m |} ::
      failures (S index) items' outs'
  | _, _ => []
  end.

Section Outcomes.

Context {DB Net : Type} {store : DatabaseService DB}
  {provider : RegridService Net}.

(** One outcome per input: what [createSinglePropertyFromInput] does on each
    in turn, the world going from one to the next. *)
Fixpoint item_outcomes (userId : string) (items : list Schema.CreateInput)
  (w : World DB Net) : list (result (option Db.Property)) * World DB Net :=
  match items with
  | [] => ([], w)
  | x :: items' =>
      let '(r, w1) := createSinglePropertyFromInput userId x w in
      let '(outs, w2) := item_outcomes userId items' w1 in
      (r :: outs, w2)
  end.

End Outcomes.

(** Two inputs, the second without an address. *)
Definition body_with_bad_item : value :=
  Obj (Regrid.object_of
         [ ("properties",
             Arr [ CreateSpec.jane_request;
                   Obj (Regrid.object_of [("apn", Str "628081041")]) ]) ]).

(** Two inputs that pass the schema; for the second the provider answers
    with a parcel number that is a JSON number, which the store refuses for
    its text column. *)
Definition body_with_two_items : value :=
  Obj (Regrid.object_of
         [ ("properties",
             Arr [ CreateSpec.jane_request;
                   Obj (Regrid.object_of [ ("apn", Str "628081041");
                                           ("address", Str "9 Elm St") ]) ]);
           ("source", Str "csv") ]).

Definition numbered_parcel : Regrid.RegridProperty :=
  {| Regrid.id := "4712"; Regrid.apn := Num (Dec 628081041 0);
     Regrid.address := Regrid.address CreateSpec.jane_parcel;
     Regrid.geometry := Regrid.empty_polygon;
     Regrid.centroid := Regrid.centroid CreateSpec.jane_parcel;
     Regrid.properties := ∅ |}.

Definition two_parcel_world : World Table.Store Scripted.Net :=
  {| db := {| Table.rows := []; Table.clock := "t0" |};
     net := [ ("050-183-176", Ok (Some CreateSpec.jane_parcel));
              ("628081041", Ok (Some numbered_parcel)) ] |}.

End BulkSpec.

Module MoreSpec.

(** The keys of the keyed entries of the bag, per revision. *)
Definition lib_keys : list string :=
  [ "owner"; "lot_size_sqft"; "lot_acres"; "building_sqft"; "year_built";
    "zoning"; "zoning_description"; "property_type"; "use_code";
    "use_description"; "assessed_value"; "sale_date"; "sale_price";
    "subdivision"; "county"; "qualified_opportunity_zone" ].

Definition rev_keys : list string :=
  [ "owner"; "lot_size_sqft"; "lot_acres"; "building_sqft"; "year_built";
    "zoning"; "zoning_description"; "property_type"; "use_code";
    "use_description"; "assessed_value"; "improvement_value"; "land_value";
    "last_sale_price"; "sale_date"; "county"; "qoz_status"; "subdivision";
    "qualified_opportunity_zone" ].

(** A provider endpoint that answers from a table of endpoints; an endpoint
    that is not listed answers 404. *)
Definition Http : Type := list (string * result value).

Definition http_answer (endpoint : string) (n : Http) : result value :=
  match List.find (fun e => String.eqb e.1 endpoint) n with
  | Some e => e.2
  | None => Throw "Regrid API Error (404): Not Found"
  end.

#[global] Instance scripted_http : Provider Http :=
  {| apiKey := Str "secret";
     makeRequest endpoint _ n := (http_answer endpoint n, n) |}.

(** The body of a provider answer with the given features. *)
Definition parcels_body (features : value) : value :=
  NormalizeSpec.record
    [ ("parcels", NormalizeSpec.record [ ("features", features) ]) ].

Definition sample_http : Http :=
  [ ("/parcels/apn", Ok (parcels_body (Arr [NormalizeSpec.raw_plain; Null])));
    ("/parcels/4711", Ok (parcels_body (Arr [NormalizeSpec.raw_plain])));
    ("/parcels/empty", Ok (parcels_body (Arr [])));
    ("/parcels/null", Ok Null);
    ("/search",
      Ok (NormalizeSpec.record
            [ ("results",
                Arr [ NormalizeSpec.record
                        [ ("id", Num (Dec 4711 0));
                          ("score", Num (Dec 97 (-2)));
                          ("fields",
                            NormalizeSpec.record
                              [ ("apn", Str "050-183-176") ]) ];
                      NormalizeSpec.record [ ("id", Str "empty") ] ]) ])) ].

(** A provider endpoint that keeps the requests it was sent, oldest first,
    and answers them by [answers]. *)
Definition Trace : Type := list (string * value).

Definition recording (answers : string -> value -> result value)
  : Provider Trace :=
  {| apiKey := Str "secret";
     makeRequest endpoint params sent :=
       (answers endpoint params, sent ++ [(endpoint, params)]) |}.

(** [data?.parcels?.features] of a provider answer *)
Definition features_of (data : value) : value :=
  opt_member (opt_member data "parcels") "features".

(** A member of a search candidate is the raw one or the default. *)
Definition defaulted (d v : value) : Prop := truthy v = true \/ v = d.

Section Lookups.

Context {Net : Type} {provider : RegridService Net}.


(** The outcome of the lookup of each parcel number, in order, each at the
    state of the provider the one before left. *)
Fixpoint apn_lookups (apns : list string) (state : option string) (n : Net)
  : list (result (option Regrid.RegridProperty)) * Net :=
  match apns with
  | [] => ([], n)
  | apn :: rest =>
      let '(r, n1) := searchByAPN apn state n in
      let '(rs, n2) := apn_lookups rest state n1 in
      (r :: rs, n2)
  end.

End Lookups.

(** The parcel of an outcome that has one. *)
Definition parcel_of (r : result (option Regrid.RegridProperty))
  : option Regrid.RegridProperty :=
  match r with
  | Ok (Some p) => Some p
  | _ => None
  end.

(** The members of a create payload that are JavaScript values, the address
    apart. *)
Definition insert_values (d : Db.Insert) : list value :=
  [ Db.i_apn d; Db.i_city d; Db.i_state d; Db.i_zip_code d; Db.i_geometry d;
    Db.i_lat d; Db.i_lng d; Db.i_year_built d; Db.i_owner d;
    Db.i_last_sale_price d; Db.i_sale_date d; Db.i_county d;
    Db.i_qoz_status d; Db.i_improvement_value d; Db.i_land_value d;
    Db.i_assessed_value d; Db.i_property_data d ].

(** The members of a create payload that are optional strings. *)
Definition insert_texts (d : Db.Insert) : list (option string) :=
  [ Db.i_regrid_id d; Db.i_user_notes d; Db.i_insurance_provider d;
    Db.i_maintenance_history d ].

(** [pieces.join(sep)] *)
Fixpoint join (sep : ascii) (pieces : list string) : string :=
  match pieces with
  | [] => ""
  | [piece] => piece
  | piece :: rest => piece +:+ String sep (join sep rest)
  end.

(** A store with three records of one caller, and a provider that has
    the parcel of the first under a number that is not a string and knows
    none of the others. *)
Definition refresh_world : World Table.Store Scripted.Net :=
  {| db := db RefreshSpec.alice_world;
     net := [ ("12-34",
               Ok (Some (RefreshSpec.answer_with (Num (Dec 1234 0)) Null))) ] |}.

(** A parsed create input with a parcel number and an address only. *)
Definition input_of (apn address : string) : Schema.CreateInput :=
  {| Schema.regrid_id := None; Schema.apn := Some apn;
     Schema.address := address; Schema.city := None; Schema.state := None;
     Schema.zip_code := None; Schema.user_notes := None; Schema.tags := None;
     Schema.insurance_provider := None; Schema.maintenance_history := None |}.

(** A process without a key, and one with a key whose requests the
    provider refuses; the second keeps the URLs it fetched. *)
Definition no_key : Fetch unit :=
  {| REGRID_API_KEY := Undefined;
     fetch _ _ n := (Throw "fetch failed", n) |}.


Section Batches.

Context {S : Type} {backend : Upload.Backend S}.

(** The body of the upload loop run on each of the batches in turn. *)
Fixpoint upload_batches (batches : list (list Upload.Property))
  (results : list value) (errors : list Upload.UploadError) (s : S)
  : (list value * list Upload.UploadError) * S :=
  match batches with
  | [] => ((results, errors), s)
  | batch :: rest =>
      let '((results', errors'), s') :=
        Upload.upload_batch batch results errors s in
      upload_batches rest results' errors' s'
  end.

(** A server whose ok answers account for every property of the batch, as
    the bulk create does: [created] and [errors] are arrays with one element
    for each property between them. *)
Definition accounts_for_batches : Prop :=
  forall batch s result s',
    Upload.post_properties batch s = (Ok (true, result), s') ->
    exists created errors,
      nullish result = false /\
      prop result "created" = Arr created /\
      prop result "errors" = Arr errors /\
      (length created + length errors = length batch)%nat.

End Batches.

(** A server that knows the parcel number [dup] and creates every property
    it is sent; its state is the number of batches it got. *)
Definition accepting : Upload.Backend nat :=
  {| Upload.check_apn apn posted :=
       (Ok (NormalizeSpec.record [("exists", Bool (String.eqb apn "dup"))]),
        posted);
     Upload.post_properties batch posted :=
       (Ok (true,
            NormalizeSpec.record
              [ ("created", Arr ((fun p => Str (Upload.apn p)) <$> batch));
                ("errors", Arr []) ]),
        Datatypes.S posted) |}.

(** Seven rows with the columns [Parcel Number] and [city]; the third has
    the parcel number the server knows, the last has none. *)
Definition parcel_row (apn : value) : Upload.Row :=
  [("city", Str "Detroit"); ("Parcel Number", apn)].

Definition seven_rows : list Upload.Row :=
  parcel_row <$> [ Str " 1 "; Str "2"; Str "dup"; Str "4"; Str "5"; Str "6";
                   Undefined ].

(** The no-break space, U+00A0, in its two bytes. *)
Definition no_break_space : string :=
  String (Ascii.ascii_of_nat 194) (String (Ascii.ascii_of_nat 160) "").

(** The same for the earlier revision of the upload. *)
Definition accounts_for_batches_v1 {S : Type} {backend : UploadV1.Backend S}
  : Prop :=
  forall batch s result s',
    UploadV1.post_properties batch s = (Ok (true, result), s') ->
    exists created errors,
      nullish result = false /\
      prop result "created" = Arr created /\
      prop result "errors" = Arr errors /\
      (length created + length errors = length batch)%nat.

(** A server that is down: every request fails. *)
Definition down : UploadV1.Backend unit :=
  {| UploadV1.post_properties _ s := (Throw "Failed to fetch", s) |}.

(** Test files of which one exists. *)
Definition sample_files : TestData :=
  {| development := true;
     readTestData filename :=
       if String.eqb filename "regrid-test-2.json"
       then Ok (parcels_body (Arr [NormalizeSpec.raw_plain]))
       else Throw "ENOENT: no such file or directory" |}.

End MoreSpec.

(** * Properties *)

(** ** The normaliser *)

Module NormalizeFacts.

Import Regrid NormalizeSpec MoreSpec.

Lemma member_defined v k : nullish v = false -> member v k = Ok (prop v k).
Proof. by destruct v. Qed.

Lemma truthy_not_nullish v : truthy v = true -> nullish v = false.
Proof. by destruct v. Qed.

Lemma or_or a b d : or_else (or_else a b) d = if truthy a then a else or_else b d.
Proof. unfold or_else. destruct (truthy a) eqn:Ha; by rewrite ?Ha. Qed.


Lemma or_not_nullish a b : nullish b = false -> nullish (or_else a b) = false.
Proof.
  intros Hb. unfold or_else. destruct (truthy a) eqn:Ha; [|done].
  by apply truthy_not_nullish.
Qed.

Lemma fields_of_not_nullish raw : nullish raw = false -> nullish (fields_of raw) = false.
Proof. intros H. unfold fields_of. by apply or_not_nullish. Qed.


Lemma select_fields_defined raw :
  nullish raw = false -> select_fields raw = Ok (fields_of raw).
Proof.
  intros H. unfold select_fields, fields_of.
  rewrite !(member_defined raw) by done. cbn.
  unfold or_else.
  destruct (truthy (opt_member (prop raw "properties") "fields")) eqn:H1;
    simpl; rewrite ?H1; [done|].
  destruct (truthy (prop raw "fields")) eqn:H2; simpl; by rewrite ?H2.
Qed.

Lemma select_fields_throws raw :
  nullish raw = true -> exists m, select_fields raw = Throw m.
Proof. destruct raw; try done; intros _; by eexists. Qed.

Lemma field_or_defined f k d :
  nullish f = false -> field_or f k d = Ok (or_else (prop f k) d).
Proof. intros H. unfold field_or. by rewrite member_defined. Qed.

Lemma field_or2_defined f k1 k2 d :
  nullish f = false ->
  field_or2 f k1 k2 d = Ok (or_else (or_else (prop f k1) (prop f k2)) d).
Proof.
  intros H. unfold field_or2. rewrite !member_defined by done. simpl.
  unfold or_else. destruct (truthy (prop f k1)) eqn:H1; simpl; by rewrite ?H1.
Qed.

(** A conversion returns on the values that can be converted, and on no
    other. *)
Lemma String_returns v s : String_ v = Ok s -> convertible v = true /\ s = to_string v.
Proof. unfold String_. destruct (convertible v); [|done]. by intros [= <-]. Qed.

Lemma String_convertible v : convertible v = true -> String_ v = Ok (to_string v).
Proof. unfold String_. by intros ->. Qed.

Lemma parseFloat_convertible v :
  convertible v = true -> parseFloat v = Ok (parseFloat_string (to_string v)).
Proof. unfold parseFloat, String_. by intros ->. Qed.

Lemma parseInt_convertible v :
  convertible v = true -> parseInt v = Ok (parseInt_string (to_string v)).
Proof. unfold parseInt, String_. by intros ->. Qed.

Lemma parseFloat_throws v :
  convertible v = false -> exists m, parseFloat v = Throw m.
Proof. unfold parseFloat, String_. intros ->. by eexists. Qed.

Lemma parseInt_throws v :
  convertible v = false -> exists m, parseInt v = Throw m.
Proof. unfold parseInt, String_. intros ->. by eexists. Qed.

Lemma primitive_convertible v : primitive v = true -> convertible v = true.
Proof. by destruct v. Qed.

Lemma float_or_0_defined f k :
  nullish f = false -> float_or_0 f k = number_or_0 <$> parseFloat (prop f k).
Proof.
  intros H. unfold float_or_0. rewrite member_defined by done.
  cbn [mbind result_bind]. by destruct (parseFloat _).
Qed.

Lemma float_or_undefined_defined f k :
  nullish f = false ->
  float_or_undefined f k
  = (fun n => or_else (Num n) Undefined) <$> parseFloat (prop f k).
Proof.
  intros H. unfold float_or_undefined. rewrite member_defined by done.
  cbn [mbind result_bind]. by destruct (parseFloat _).
Qed.

Lemma int_or_undefined_defined f k :
  nullish f = false ->
  int_or_undefined f k
  = (fun n => or_else (Num n) Undefined) <$> parseInt (prop f k).
Proof.
  intros H. unfold int_or_undefined. rewrite member_defined by done.
  cbn [mbind result_bind]. by destruct (parseInt _).
Qed.

(** On a raw record that is neither null nor undefined the normaliser is
    three conversions, the entries of the bag and a record. *)
Lemma normalize_with_defined canonical raw :
  nullish raw = false ->
  normalize_with canonical raw
  = (id ← String_ (id_source raw);
     lat ← parseFloat (prop (fields_of raw) "lat");
     lng ← parseFloat (prop (fields_of raw) "lon");
     entries ← canonical (fields_of raw);
     mret (normalized id lat lng entries raw)).
Proof.
  intros Hraw. unfold normalize_with.
  pose proof (fields_of_not_nullish raw Hraw) as Hf.
  rewrite select_fields_defined by done. cbn [mbind result_bind].
  rewrite !(member_defined raw) by done. cbn [mbind result_bind].
  rewrite !field_or2_defined, field_or_defined, !float_or_0_defined by done.
  rewrite member_defined by done. cbn [mbind result_bind].
  assert ((if truthy (prop raw "id") then String_ (prop raw "id")
           else String_ (or_else (prop (fields_of raw) "id") (Str "")))
          = String_ (id_source raw)) as ->.
  { unfold id_source. rewrite or_or. by destruct (truthy (prop raw "id")). }
  destruct (String_ (id_source raw)) as [id|]; [|done]. cbn [mbind result_bind].
  destruct (parseFloat (prop (fields_of raw) "lat")) as [lat|]; [|done].
  cbn [fmap result_fmap mbind result_bind].
  destruct (parseFloat (prop (fields_of raw) "lon")) as [lng|]; [|done].
  cbn [fmap result_fmap mbind result_bind].
  by destruct (canonical (fields_of raw)).
Qed.

Lemma normalize_with_throws canonical raw :
  nullish raw = true -> exists m, normalize_with canonical raw = Throw m.
Proof.
  intros H. destruct (select_fields_throws raw H) as [m Hm].
  exists m. unfold normalize_with. by rewrite Hm.
Qed.

(** What a normalisation that returned has done. *)
Lemma normalize_with_returns canonical raw r :
  normalize_with canonical raw = Ok r ->
  nullish raw = false /\
  exists id lat lng entries,
    String_ (id_source raw) = Ok id /\
    parseFloat (prop (fields_of raw) "lat") = Ok lat /\
    parseFloat (prop (fields_of raw) "lon") = Ok lng /\
    canonical (fields_of raw) = Ok entries /\
    r = normalized id lat lng entries raw.
Proof.
  intros Hr. destruct (nullish raw) eqn:Hraw.
  { destruct (normalize_with_throws canonical raw Hraw) as [m Hm]. congruence. }
  split; [done|]. rewrite normalize_with_defined in Hr by done.
  destruct (String_ (id_source raw)) as [id|]; [|done].
  destruct (parseFloat (prop (fields_of raw) "lat")) as [lat|]; [|done].
  destruct (parseFloat (prop (fields_of raw) "lon")) as [lng|]; [|done].
  destruct (canonical (fields_of raw)) as [entries|]; [|done].
  injection Hr as <-. by exists id, lat, lng, entries.
Qed.

Ltac run_canonical H :=
  rewrite ?field_or_defined, ?float_or_undefined_defined,
    ?int_or_undefined_defined by exact H;
  cbn [mbind result_bind mret result_ret].

(** Every parsed field of a chain can be converted, or the chain throws. *)
Ltac parse_all :=
  repeat match goal with
    | |- context [parseInt ?v] =>
        let E := fresh "E" in
        destruct (convertible v) eqn:E;
        [ rewrite (parseInt_convertible v E)
        | let m := fresh "m" in let Hm := fresh "Hm" in
          destruct (parseInt_throws v E) as [m Hm]; rewrite Hm ]
    | |- context [parseFloat ?v] =>
        let E := fresh "E" in
        destruct (convertible v) eqn:E;
        [ rewrite (parseFloat_convertible v E)
        | let m := fresh "m" in let Hm := fresh "Hm" in
          destruct (parseFloat_throws v E) as [m Hm]; rewrite Hm ]
    end;
  cbn [fmap result_fmap mbind result_bind mret result_ret].

Ltac each_entry H :=
  repeat (apply elem_of_cons in H as [H | H]; [simplify_eq|]);
  [.. | by apply elem_of_nil in H].

Ltac some_entry :=
  eexists _, _, _; split; [|eassumption];
  unfold lib_numeric, rev_numeric;
  solve [repeat first [apply list_elem_of_here | apply list_elem_of_further]].

(** The keyed entries of the bag: they are there exactly when every parsed
    field can be converted, and then each is what [||] leaves of its
    field. *)
Lemma lib_canonical_entries f :
  nullish f = false ->
  match Lib.canonical f with
  | Ok entries =>
      entries.*1 = lib_keys /\
      (forall key parse src, (key, parse, src) ∈ lib_numeric ->
         exists n, parse (prop f src) = Ok n /\
           object_of entries !! key = Some (or_else (Num n) Undefined)) /\
      (forall key src, (key, src) ∈ lib_text ->
         object_of entries !! key = Some (or_else (prop f src) (Str "")))
  | Throw _ =>
      exists key parse src,
        (key, parse, src) ∈ lib_numeric /\ convertible (prop f src) = false
  end.
Proof.
  intros H. unfold Lib.canonical. run_canonical H.
  parse_all; try some_entry.
  split; [reflexivity|]. split.
  - intros key parse src Hin. unfold lib_numeric in Hin.
    each_entry Hin;
      (eexists; split;
       [first [by apply parseInt_convertible | by apply parseFloat_convertible]
       |reflexivity]).
  - intros key src Hin. unfold lib_text in Hin. each_entry Hin; reflexivity.
Qed.

Lemma rev_canonical_entries f :
  nullish f = false ->
  match Rev.canonical f with
  | Ok entries =>
      entries.*1 = rev_keys /\
      (forall key parse src, (key, parse, src) ∈ rev_numeric ->
         exists n, parse (prop f src) = Ok n /\
           object_of entries !! key = Some (or_else (Num n) Undefined)) /\
      (forall key src, (key, src) ∈ rev_text ->
         object_of entries !! key = Some (or_else (prop f src) (Str "")))
  | Throw _ =>
      exists key parse src,
        (key, parse, src) ∈ rev_numeric /\ convertible (prop f src) = false
  end.
Proof.
  intros H. unfold Rev.canonical. run_canonical H.
  parse_all; try some_entry.
  split; [reflexivity|]. split.
  - intros key parse src Hin. unfold rev_numeric in Hin.
    each_entry Hin;
      (eexists; split;
       [first [by apply parseInt_convertible | by apply parseFloat_convertible]
       |reflexivity]).
  - intros key src Hin. unfold rev_text in Hin. each_entry Hin; reflexivity.
Qed.

(** The entries are there when every parsed field can be converted. *)
Lemma canonical_returns
  (numeric : list (string * (value -> result number) * string)) f :
  Forall (fun v => convertible v = true) ((fun entry => prop f entry.2) <$> numeric) ->
  forall key parse src,
    (key, parse, src) ∈ numeric -> convertible (prop f src) = true.
Proof.
  intros Hall key parse src Hin. rewrite list.Forall_forall in Hall.
  apply Hall. apply list_elem_of_fmap. by exists (key, parse, src).
Qed.

(** On a conflict the bag holds the raw member: the spread comes last. *)
Lemma spread_lookup_raw o f k v :
  own_props f !! k = Some v -> spread o f !! k = Some v.
Proof. intros H. unfold spread. by apply lookup_union_Some_l. Qed.

Lemma spread_lookup_canonical o f k :
  own_props f !! k = None -> spread o f !! k = o !! k.
Proof. intros H. unfold spread. by apply lookup_union_r. Qed.

Lemma spread_lookup o f k :
  spread o f !! k = match own_props f !! k with Some v => Some v | None => o !! k end.
Proof.
  destruct (own_props f !! k) as [v|] eqn:H.
  - by apply spread_lookup_raw.
  - by apply spread_lookup_canonical.
Qed.

Lemma number_or_undefined n : numeric_attribute (or_else (Num n) Undefined).
Proof.
  unfold numeric_attribute, or_else. destruct (truthy (Num n)) eqn:H; [|by left].
  right. exists n. simpl in H. apply andb_true_iff in H as [H1 H2].
  by rewrite negb_true_iff in H1, H2.
Qed.

Lemma number_or_0_not_nan n : is_nan (number_or_0 n) = false.
Proof.
  unfold number_or_0. destruct (truthy (Num n)) eqn:H; [|done].
  simpl in H. apply andb_true_iff in H as [H1 _]. by rewrite negb_true_iff in H1.
Qed.

Lemma number_or_0_cases n :
  number_or_0 n = if is_nan n || is_zero n then Dec 0 0 else n.
Proof.
  unfold number_or_0. cbn [truthy]. by destruct (is_nan n), (is_zero n).
Qed.

Lemma number_or_undefined_cases n :
  or_else (Num n) Undefined = if is_nan n || is_zero n then Undefined else Num n.
Proof.
  unfold or_else. cbn [truthy]. by destruct (is_nan n), (is_zero n).
Qed.

(** Whether the normaliser returns, by revision. *)
Lemma lib_normalize_returns raw :
  (exists r, Lib.normalizeProperty raw = Ok r) <->
  nullish raw = false /\
  Forall (fun v => convertible v = true) (converted lib_numeric raw).
Proof.
  unfold Lib.normalizeProperty. split.
  - intros [r (Hraw & id & lat & lng & es & Hid & Hlat & Hlng & Hes & _)%normalize_with_returns].
    split; [done|]. unfold converted.
    pose proof (lib_canonical_entries _ (fields_of_not_nullish raw Hraw)) as Hc.
    rewrite Hes in Hc. destruct Hc as (_ & Hnum & _).
    apply String_returns in Hid as [Hid _].
    constructor; [done|].
    constructor.
    { unfold parseFloat in Hlat. destruct (String_ _) eqn:E; [|done].
      by apply String_returns in E as [? _]. }
    constructor.
    { unfold parseFloat in Hlng. destruct (String_ _) eqn:E; [|done].
      by apply String_returns in E as [? _]. }
    apply list.Forall_forall. intros v ([[key parse] src] & -> & Hin)%list_elem_of_fmap.
    destruct (Hnum key parse src Hin) as (n & Hn & _). cbn [snd].
    destruct (convertible (prop (fields_of raw) src)) eqn:E; [done|].
    unfold lib_numeric in Hin.
    each_entry Hin;
      first [ destruct (parseInt_throws _ E) as [m Hm]; congruence
            | destruct (parseFloat_throws _ E) as [m Hm]; congruence ].
  - intros [Hraw Hall]. unfold converted in Hall.
    apply Forall_cons_1 in Hall as [Hid Hall].
    apply Forall_cons_1 in Hall as [Hlat Hall].
    apply Forall_cons_1 in Hall as [Hlng Hall].
    rewrite normalize_with_defined by done.
    rewrite (String_convertible _ Hid), (parseFloat_convertible _ Hlat),
      (parseFloat_convertible _ Hlng). cbn [mbind result_bind].
    pose proof (lib_canonical_entries _ (fields_of_not_nullish raw Hraw)) as Hc.
    destruct (Lib.canonical (fields_of raw)) as [es|m]; [by eexists|].
    destruct Hc as (key & parse & src & Hin & E).
    by rewrite (canonical_returns _ _ Hall key parse src Hin) in E.
Qed.

Lemma rev_normalize_returns raw :
  (exists r, Rev.normalizeProperty raw = Ok r) <->
  nullish raw = false /\
  Forall (fun v => convertible v = true) (converted rev_numeric raw).
Proof.
  unfold Rev.normalizeProperty. split.
  - intros [r (Hraw & id & lat & lng & es & Hid & Hlat & Hlng & Hes & _)%normalize_with_returns].
    split; [done|]. unfold converted.
    pose proof (rev_canonical_entries _ (fields_of_not_nullish raw Hraw)) as Hc.
    rewrite Hes in Hc. destruct Hc as (_ & Hnum & _).
    apply String_returns in Hid as [Hid _].
    constructor; [done|].
    constructor.
    { unfold parseFloat in Hlat. destruct (String_ _) eqn:E; [|done].
      by apply String_returns in E as [? _]. }
    constructor.
    { unfold parseFloat in Hlng. destruct (String_ _) eqn:E; [|done].
      by apply String_returns in E as [? _]. }
    apply list.Forall_forall. intros v ([[key parse] src] & -> & Hin)%list_elem_of_fmap.
    destruct (Hnum key parse src Hin) as (n & Hn & _). cbn [snd].
    destruct (convertible (prop (fields_of raw) src)) eqn:E; [done|].
    unfold rev_numeric in Hin.
    each_entry Hin;
      first [ destruct (parseInt_throws _ E) as [m Hm]; congruence
            | destruct (parseFloat_throws _ E) as [m Hm]; congruence ].
  - intros [Hraw Hall]. unfold converted in Hall.
    apply Forall_cons_1 in Hall as [Hid Hall].
    apply Forall_cons_1 in Hall as [Hlat Hall].
    apply Forall_cons_1 in Hall as [Hlng Hall].
    rewrite normalize_with_defined by done.
    rewrite (String_convertible _ Hid), (parseFloat_convertible _ Hlat),
      (parseFloat_convertible _ Hlng). cbn [mbind result_bind].
    pose proof (rev_canonical_entries _ (fields_of_not_nullish raw Hraw)) as Hc.
    destruct (Rev.canonical (fields_of raw)) as [es|m]; [by eexists|].
    destruct Hc as (key & parse & src & Hin & E).
    by rewrite (canonical_returns _ _ Hall key parse src Hin) in E.
Qed.

(** What a normalisation that returned holds, member by member. *)
Lemma normalized_members canonical raw r :
  normalize_with canonical raw = Ok r ->
  let f := fields_of raw in
  nullish raw = false /\
  String_ (id_source raw) = Ok (id r) /\
  apn r = or_else (or_else (prop f "parcelnumb") (prop f "apn")) (Str "") /\
  line1 (address r) = or_else (prop f "address") (Str "") /\
  line2 (address r) = Str "" /\
  city (address r) = or_else (or_else (prop f "scity") (prop f "city")) (Str "") /\
  state (address r) = or_else (or_else (prop f "state2") (prop f "state")) (Str "") /\
  zip (address r) = or_else (or_else (prop f "szip5") (prop f "zip")) (Str "") /\
  geometry r = or_else (prop raw "geometry") empty_polygon /\
  (exists n, parseFloat (prop f "lat") = Ok n /\ lat (centroid r) = number_or_0 n) /\
  (exists n, parseFloat (prop f "lon") = Ok n /\ lng (centroid r) = number_or_0 n) /\
  exists entries,
    canonical f = Ok entries /\ properties r = spread (object_of entries) f.
Proof.
  intros (Hraw & id' & lat' & lng' & es & Hid & Hlat & Hlng & Hes & ->)%normalize_with_returns f.
  split; [done|].
  cbn [id apn address line1 line2 city state zip geometry centroid lat lng
       properties normalized].
  repeat split; try done; by eexists.
Qed.

(** The keyed attributes of the bag of a normalisation that returned: the
    raw member of the same name if the fields have one, else what [||] leaves
    of the field they are made from. *)
Lemma lib_bag raw r :
  Lib.normalizeProperty raw = Ok r ->
  let f := fields_of raw in
  (forall key parse src, (key, parse, src) ∈ lib_numeric ->
     exists n, parse (prop f src) = Ok n /\
       properties r !! key
       = Some (default (or_else (Num n) Undefined) (own_props f !! key))) /\
  (forall key src, (key, src) ∈ lib_text ->
     properties r !! key
     = Some (default (or_else (prop f src) (Str "")) (own_props f !! key))).
Proof.
  intros Hr f. unfold Lib.normalizeProperty in Hr.
  apply normalized_members in Hr as (Hraw & _ & _ & _ & _ & _ & _ & _ & _ & _ & _ & es & Hes & ->).
  pose proof (lib_canonical_entries _ (fields_of_not_nullish raw Hraw)) as Hc.
  rewrite Hes in Hc. destruct Hc as (_ & Hnum & Htext). split.
  - intros key parse src Hin. destruct (Hnum key parse src Hin) as (n & Hn & Hk).
    exists n. split; [done|]. rewrite spread_lookup. fold f.
    by destruct (own_props f !! key).
  - intros key src Hin. rewrite spread_lookup. fold f.
    rewrite (Htext key src Hin). by destruct (own_props f !! key).
Qed.

Lemma rev_bag raw r :
  Rev.normalizeProperty raw = Ok r ->
  let f := fields_of raw in
  (forall key parse src, (key, parse, src) ∈ rev_numeric ->
     exists n, parse (prop f src) = Ok n /\
       properties r !! key
       = Some (default (or_else (Num n) Undefined) (own_props f !! key))) /\
  (forall key src, (key, src) ∈ rev_text ->
     properties r !! key
     = Some (default (or_else (prop f src) (Str "")) (own_props f !! key))).
Proof.
  intros Hr f. unfold Rev.normalizeProperty in Hr.
  apply normalized_members in Hr as (Hraw & _ & _ & _ & _ & _ & _ & _ & _ & _ & _ & es & Hes & ->).
  pose proof (rev_canonical_entries _ (fields_of_not_nullish raw Hraw)) as Hc.
  rewrite Hes in Hc. destruct Hc as (_ & Hnum & Htext). split.
  - intros key parse src Hin. destruct (Hnum key parse src Hin) as (n & Hn & Hk).
    exists n. split; [done|]. rewrite spread_lookup. fold f.
    by destruct (own_props f !! key).
  - intros key src Hin. rewrite spread_lookup. fold f.
    rewrite (Htext key src Hin). by destruct (own_props f !! key).
Qed.

(** C4, as stated, fails: the claim wants every numeric field of the result
    finite (or the default, 0 for the centroid); on a record whose latitude
    is the text Infinity both revisions return a centroid latitude that is
    infinite. *)
Lemma normalize_latitude_not_finite :
  lat ∘ centroid <$> Lib.normalizeProperty raw_infinite_lat = Ok (Infinity false) /\
  lat ∘ centroid <$> Rev.normalizeProperty raw_infinite_lat = Ok (Infinity false) /\
  is_finite (Infinity false) = false.
Proof. by vm_compute. Qed.

(** The claim also fails on its first half: a record whose id is an object
    with a member [toString], which the provider can send as JSON, makes
    [String(...)] throw, and the normaliser with it; so does such an object
    under a field that is parsed. *)
Example normalize_throws_on_an_object :
  Lib.normalizeProperty raw_unprintable_id
  = Throw "Cannot convert object to primitive value" /\
  Rev.normalizeProperty raw_unprintable_id
  = Throw "Cannot convert object to primitive value" /\
  Lib.normalizeProperty raw_unprintable_lat
  = Throw "Cannot convert object to primitive value" /\
  nullish raw_unprintable_id = false /\ nullish raw_unprintable_lat = false.
Proof. by vm_compute. Qed.

(** C4, amended: on a raw record that is neither null nor undefined the
    normaliser returns when the values it converts to a string, which are the
    id, the latitude, the longitude and the fields of the numeric attributes,
    can be converted, as every string, number, boolean, null and missing
    member can.  Then the centroid latitude and longitude are the parsed
    numbers, or 0 where parsing gives NaN or 0: they are never NaN, and they
    are infinite where the parsed number is.  Each numeric attribute is the
    raw member of its own name when the fields have one, and otherwise the
    parsed number of its field, or undefined where parsing gives NaN or 0.
    Both revisions. *)
Theorem normalize_total (raw : value) :
  nullish raw = false ->
  let f := fields_of raw in
  (forall v, primitive v = true -> convertible v = true) /\
  (Forall (fun v => convertible v = true) (converted lib_numeric raw) ->
   exists r, Lib.normalizeProperty raw = Ok r) /\
  (Forall (fun v => convertible v = true) (converted rev_numeric raw) ->
   exists r, Rev.normalizeProperty raw = Ok r) /\
  (forall r,
     Lib.normalizeProperty raw = Ok r \/ Rev.normalizeProperty raw = Ok r ->
     (exists n, parseFloat (prop f "lat") = Ok n /\
        lat (centroid r) = if is_nan n || is_zero n then Dec 0 0 else n) /\
     (exists n, parseFloat (prop f "lon") = Ok n /\
        lng (centroid r) = if is_nan n || is_zero n then Dec 0 0 else n) /\
     is_nan (lat (centroid r)) = false /\ is_nan (lng (centroid r)) = false) /\
  (forall r key parse src,
     Lib.normalizeProperty raw = Ok r /\ (key, parse, src) ∈ lib_numeric \/
     Rev.normalizeProperty raw = Ok r /\ (key, parse, src) ∈ rev_numeric ->
     exists n, parse (prop f src) = Ok n /\
       properties r !! key
       = Some (default (if is_nan n || is_zero n then Undefined else Num n)
                 (own_props f !! key))).
Proof.
  intros Hraw f. split; [apply primitive_convertible|].
  split; [by intros H; apply lib_normalize_returns|].
  split; [by intros H; apply rev_normalize_returns|]. split.
  - intros r Hr.
    assert (exists canonical, normalize_with canonical raw = Ok r) as [c Hc].
    { destruct Hr; by eexists. }
    apply normalized_members
      in Hc as (_ & _ & _ & _ & _ & _ & _ & _ & _ & (n1 & Hn1 & Hlat) & (n2 & Hn2 & Hlng) & _).
    rewrite Hlat, Hlng, !number_or_0_not_nan, !number_or_0_cases.
    split; [by exists n1|]. split; [by exists n2|]. done.
  - intros r key parse src [[Hr Hin]|[Hr Hin]].
    + destruct (proj1 (lib_bag raw r Hr) key parse src Hin) as (n & Hn & Hk).
      exists n. by rewrite <- number_or_undefined_cases.
    + destruct (proj1 (rev_bag raw r Hr) key parse src Hin) as (n & Hn & Hk).
      exists n. by rewrite <- number_or_undefined_cases.
Qed.

Lemma normalize_total_witness :
  nullish raw_plain = false /\
  exists r, Lib.normalizeProperty raw_plain = Ok r /\
    lat (centroid r) = Dec 4233 (-2) /\
    properties r !! "year_built" = Some (Num (Dec 1998 0)) /\
    properties r !! "lot_acres" = Some Undefined.
Proof.
  split; [reflexivity|].
  destruct (normalize_total raw_plain eq_refl) as (_ & Hlib & _ & Hcentroid & Hbag).
  destruct Hlib as [r Hr].
  { unfold converted, lib_numeric. cbn [fmap list_fmap snd].
    repeat (constructor; [by vm_compute|]). constructor. }
  exists r. split; [exact Hr|]. split; [|split].
  - destruct (Hcentroid r (or_introl Hr)) as ((n & Hn & ->) & _).
    vm_compute in Hn. by injection Hn as <-.
  - destruct (Hbag r "year_built" parseInt "yearbuilt") as (n & Hn & ->).
    { left. split; [exact Hr|]. unfold lib_numeric.
      repeat first [apply list_elem_of_here | apply list_elem_of_further]. }
    vm_compute in Hn. by injection Hn as <-.
  - destruct (Hbag r "lot_acres" parseFloat "ll_gisacre") as (n & Hn & ->).
    { left. split; [exact Hr|]. unfold lib_numeric.
      repeat first [apply list_elem_of_here | apply list_elem_of_further]. }
    vm_compute in Hn. by injection Hn as <-.
Defined.

(** C5 at the failing input: the raw fields carry [owner: null] and
    [assessed_value: "12abc"]; the keyed entries hold the canonical values
    (the empty string, and the parsed number), and the bag of the result
    holds the raw members instead.  Both revisions. *)
Theorem normalize_passthrough_overwrites :
  let fields := fields_of raw_colliding_keys in
  (fun es => object_of es !! "owner") <$> Lib.canonical fields
    = Ok (Some (Str "")) /\
  (fun es => object_of es !! "assessed_value") <$> Lib.canonical fields
    = Ok (Some (Num (Dec 12 0))) /\
  (fun es => object_of es !! "assessed_value") <$> Rev.canonical fields
    = Ok (Some (Num (Dec 1 2))) /\
  (fun r => properties r !! "owner") <$> Lib.normalizeProperty raw_colliding_keys
    = Ok (Some Null) /\
  (fun r => properties r !! "assessed_value")
    <$> Lib.normalizeProperty raw_colliding_keys = Ok (Some (Str "12abc")) /\
  (fun r => properties r !! "owner") <$> Rev.normalizeProperty raw_colliding_keys
    = Ok (Some Null) /\
  (fun r => properties r !! "assessed_value")
    <$> Rev.normalizeProperty raw_colliding_keys = Ok (Some (Str "12abc")).
Proof. by vm_compute. Qed.

(** Whatever the raw record, a member of the raw fields is what the bag
    holds under its key. *)
Lemma normalize_bag_holds_raw canonical (raw : value) r k v :
  normalize_with canonical raw = Ok r ->
  own_props (fields_of raw) !! k = Some v ->
  properties r !! k = Some v.
Proof.
  intros (_ & _ & _ & _ & _ & _ & _ & _ & _ & _ & _ & es & _ & ->)%normalized_members Hk.
  by apply spread_lookup_raw.
Qed.




End NormalizeFacts.

(** ** The batch lookup *)

Module BatchFacts.

Import Batch MoreSpec.

Section Facts.

Context {Net : Type} {provider : RegridService Net}.

Lemma allSettled_length {A} (calls : list (Net -> result A * Net)) n :
  length (allSettled calls n).1 = length calls.
Proof.
  revert n. induction calls as [|call rest IH]; intros n; [done|].
  simpl. destruct (call n) as [r n1]. specialize (IH n1).
  destruct (allSettled rest n1) as [settled n2]. simpl in *. by rewrite IH.
Qed.

(** A rejected or empty outcome leaves no trace in what is returned. *)
Lemma kept_values_cons s (settled : list (Settled (option Regrid.RegridProperty))) :
  omap value_of (List.filter kept (s :: settled)) =
  match s with
  | Fulfilled (Some r) => r :: omap value_of (List.filter kept settled)
  | _ => omap value_of (List.filter kept settled)
  end.
Proof. by destruct s as [[r|]|m]. Qed.

(** The promises of the batch settle with the outcomes of the lookups, taken
    one after the other. *)
Lemma allSettled_lookups apns state (n : Net) :
  allSettled ((fun apn => searchByAPN apn state) <$> apns) n
  = (settle <$> (apn_lookups apns state n).1, (apn_lookups apns state n).2).
Proof.
  revert n. induction apns as [|apn rest IH]; intros n; [done|].
  rewrite fmap_cons. cbn [allSettled apn_lookups].
  destruct (searchByAPN apn state n) as [r n1]. rewrite IH.
  by destruct (apn_lookups rest state n1) as [rs n2].
Qed.

Lemma kept_values_outcomes (outcomes : list (result (option Regrid.RegridProperty))) :
  omap value_of (List.filter kept (settle <$> outcomes)) = omap parcel_of outcomes.
Proof.
  induction outcomes as [|r rs IH]; [done|].
  rewrite fmap_cons, kept_values_cons. cbn [omap list_omap].
  destruct r as [[p|]|m]; cbn [settle parcel_of]; by rewrite IH.
Qed.

Lemma apn_lookups_length apns state (n : Net) :
  length (apn_lookups apns state n).1 = length apns.
Proof.
  revert n. induction apns as [|apn rest IH]; intros n; [done|].
  cbn [apn_lookups]. destruct (searchByAPN apn state n) as [r n1].
  specialize (IH n1). destruct (apn_lookups rest state n1). cbn [fst length] in *.
  by rewrite IH.
Qed.

(** The lookup at a position runs at the state that the lookups before it
    left, whatever their outcomes. *)
Lemma apn_lookups_lookup apns state (n : Net) j apn :
  apns !! j = Some apn ->
  (apn_lookups apns state n).1 !! j
  = Some (searchByAPN apn state (apn_lookups (take j apns) state n).2).1.
Proof.
  revert n j. induction apns as [|a rest IH]; intros n j; [done|].
  destruct j as [|j]; cbn [apn_lookups take fst snd].
  - intros [= ->]. destruct (searchByAPN apn state n) as [r n1].
    by destruct (apn_lookups rest state n1).
  - intros Hj. destruct (searchByAPN a state n) as [r n1].
    specialize (IH n1 j Hj).
    destruct (apn_lookups rest state n1) as [rs n2].
    destruct (apn_lookups (take j rest) state n1) as [rs' n2'].
    exact IH.
Qed.

Lemma parcel_of_elem (outcomes : list (result (option Regrid.RegridProperty))) p :
  p ∈ omap parcel_of outcomes <-> Ok (Some p) ∈ outcomes.
Proof.
  rewrite list_elem_of_omap. split.
  - intros ([[q|]|m] & Hin & Hq); cbn in Hq; by simplify_eq.
  - intros Hin. by exists (Ok (Some p)).
Qed.

Lemma parcel_of_count (outcomes : list (result (option Regrid.RegridProperty))) :
  (length (omap parcel_of outcomes) +
   length (List.filter (fun r => bool_decide (parcel_of r = None)) outcomes)
   = length outcomes)%nat.
Proof.
  induction outcomes as [|r rs IH]; [done|].
  cbn [omap list_omap List.filter].
  destruct r as [[p|]|m]; cbn [parcel_of]; cbn; lia.
Qed.

(** C9: the batch makes the lookup of every parcel number, each one whatever
    the outcome of the others, one after the other on the provider; it never
    throws; and it returns the parcels of the lookups that returned one, in
    the order of the parcel numbers, and nothing for a lookup that threw or
    returned null.  So the parcels returned and the lookups dropped add up to
    the batch. *)
Theorem batch_lookup_tolerates_failures (apns : list string)
  (state : option string) (n : Net) :
  let outcomes := (apn_lookups apns state n).1 in
  batchSearchByAPNs apns state n
  = (Ok (omap parcel_of outcomes), (apn_lookups apns state n).2) /\
  length outcomes = length apns /\
  (forall j apn,
     apns !! j = Some apn ->
     outcomes !! j
     = Some (searchByAPN apn state (apn_lookups (take j apns) state n).2).1) /\
  (forall p, p ∈ omap parcel_of outcomes <-> Ok (Some p) ∈ outcomes) /\
  (length (omap parcel_of outcomes) +
   length (List.filter (fun r => bool_decide (parcel_of r = None)) outcomes)
   = length apns)%nat.
Proof.
  intros outcomes. split; [|split; [|split; [|split]]].
  - unfold batchSearchByAPNs. rewrite allSettled_lookups.
    by rewrite kept_values_outcomes.
  - apply apn_lookups_length.
  - intros j apn Hj. by apply apn_lookups_lookup.
  - apply parcel_of_elem.
  - rewrite <- (apn_lookups_length apns state n). apply parcel_of_count.
Qed.

End Facts.

(** Three lookups: a parcel, a provider error, no parcel.  One record comes
    back. *)
Lemma batch_lookup_tolerates_failures_witness :
  (apn_lookups ["12-34"; "down"; "unknown"] None (net RefreshSpec.alice_world)).1
  = [ Ok (Some (RefreshSpec.answer_with (Str "12-34") (Str "Bob")));
      Throw "Regrid API Error (500): unavailable"; Ok None ] /\
  batchSearchByAPNs ["12-34"; "down"; "unknown"] None
    (net RefreshSpec.alice_world)
  = (Ok [RefreshSpec.answer_with (Str "12-34") (Str "Bob")],
     net RefreshSpec.alice_world).
Proof.
  split; [reflexivity|].
  rewrite (proj1 (batch_lookup_tolerates_failures ["12-34"; "down"; "unknown"]
                    None (net RefreshSpec.alice_world))).
  reflexivity.
Defined.

End BatchFacts.

(** ** Refresh *)

Module RefreshFacts.

Import Refresh RefreshSpec.

Lemma cleanAPN_defined v :
  match cleanAPN v with
  | Ok None => truthy v = false
  | Ok (Some s) => exists a, v = Str a /\ a <> "" /\ s = remove_all "-" a
  | Throw _ => truthy v = true /\ forall a, v <> Str a
  end.
Proof.
  unfold cleanAPN. destruct (truthy v) eqn:Hv; simpl; [|done].
  destruct v; try done.
  exists s. repeat split. intros ->. done.
Qed.

Lemma includes_cons c s d :
  includes (String c s) (String d "") = Ascii.eqb d c || includes s (String d "").
Proof.
  simpl. destruct (ascii_dec d c) as [->|Hne].
  - rewrite Ascii.eqb_refl. by destruct s.
  - apply Ascii.eqb_neq in Hne. by rewrite Hne.
Qed.

Lemma remove_all_gone c s : includes (remove_all c s) (String c "") = false.
Proof.
  induction s as [|d s IH]; [done|]. simpl.
  destruct (Ascii.eqb c d) eqn:Hcd; [done|].
  by rewrite includes_cons, Hcd, IH.
Qed.

Lemma remove_all_filter c s :
  String.list_ascii_of_string (remove_all c s)
  = List.filter (fun d => negb (Ascii.eqb c d)) (String.list_ascii_of_string s).
Proof.
  induction s as [|d s IH]; [done|]. cbn [remove_all String.list_ascii_of_string List.filter].
  destruct (Ascii.eqb c d); cbn [negb]; [done|].
  cbn [String.list_ascii_of_string]. by rewrite IH.
Qed.

(** The parcel number of the update is the cleaned one of the provider, or
    else of the stored record. *)
Lemma updated_apn existingProperty regridData now u :
  updatedPropertyData existingProperty regridData now = Ok u ->
  cleanAPN (or_else (Regrid.apn regridData) (Db.text (Db.apn existingProperty)))
  = Ok (Db.u_apn u).
Proof.
  unfold updatedPropertyData. destruct (cleanAPN _) as [o|m]; [|done].
  cbn [mbind result_bind mret result_ret]. by intros [= <-].
Qed.

Lemma filter_without (c : ascii) (l : list ascii) :
  c ∉ List.filter (fun d => negb (Ascii.eqb c d)) l.
Proof.
  intros [_ H]%list_elem_of_In%filter_In. by rewrite Ascii.eqb_refl in H.
Qed.

(** C1, as stated, fails on the parcel number: the provider has none, and
    what is written is not the stored parcel number but the stored one
    without its dash. *)
Lemma refresh_merge_rewrites_stored_apn :
  truthy (Regrid.apn (answer_with (Str "") (Str "Bob"))) = false /\
  Db.apn alice_row = Some "12-34" /\
  Db.u_apn <$> updatedPropertyData alice_row (answer_with (Str "") (Str "Bob")) "t1"
    = Ok (Some "1234").
Proof. by vm_compute. Qed.

(** C1, amended: when the merge returns, every provider-derived member other
    than the parcel number is the provider's value if that is truthy and the
    stored value otherwise, the four user-authored members are the stored
    ones, and the parcel number is the provider's if truthy, else the stored
    one, in both cases without its dashes.  It throws only on a provider
    parcel number that is truthy and not a string. *)
Theorem refresh_merge (existingProperty : Db.Property)
  (regridData : Regrid.RegridProperty) (now : string) :
  match updatedPropertyData existingProperty regridData now with
  | Ok u =>
      (forall f,
         updated f u =
         if truthy (provided f regridData) then provided f regridData
         else stored f existingProperty) /\
      Db.u_user_notes u = Db.user_notes existingProperty /\
      Db.u_tags u = Db.tags existingProperty /\
      Db.u_insurance_provider u = Db.insurance_provider existingProperty /\
      Db.u_maintenance_history u = Db.maintenance_history existingProperty /\
      match Db.u_apn u with
      | Some s =>
          exists a, a <> "" /\ s = remove_all "-" a /\
            if truthy (Regrid.apn regridData) then Regrid.apn regridData = Str a
            else Db.apn existingProperty = Some a
      | None =>
          truthy (Regrid.apn regridData) = false /\
          nonempty (Db.apn existingProperty) = None
      end
  | Throw _ =>
      truthy (Regrid.apn regridData) = true /\
      forall a, Regrid.apn regridData <> Str a
  end.
Proof.
  unfold updatedPropertyData.
  pose proof (cleanAPN_defined
    (or_else (Regrid.apn regridData) (Db.text (Db.apn existingProperty)))) as Hc.
  destruct (cleanAPN _) as [[s|]|m]; simpl.
  - split; [by intros []|]. repeat split.
    destruct Hc as (a & Ha & Hne & ->). exists a. repeat split; [done|].
    unfold or_else in Ha. destruct (truthy (Regrid.apn regridData)); [done|].
    destruct (Db.apn existingProperty); simpl in Ha; congruence.
  - split; [by intros []|]. repeat split.
    + unfold or_else in Hc.
      destruct (truthy (Regrid.apn regridData)) eqn:H; congruence.
    + unfold or_else in Hc. destruct (truthy (Regrid.apn regridData)) eqn:H;
        [congruence|].
      destruct (Db.apn existingProperty) as [a|]; [|done]. simpl in *.
      by destruct (String.eqb a "").
  - destruct Hc as [Ht Hs]. unfold or_else in *.
    destruct (truthy (Regrid.apn regridData)) eqn:H; [done|].
    destruct (Db.apn existingProperty) as [a|]; [|done]. by destruct (Hs a).
Qed.

(** The scenario of the spec: the owner stays Alice when the provider has
    none and becomes Bob when the provider says so; the notes stay in both
    cases. *)
Example refresh_merge_owner :
  (fun u => (Db.u_owner u, Db.u_user_notes u))
    <$> updatedPropertyData alice_row (answer_with (Str "12-34") Null) "t1"
  = Ok (Str "Alice", Some "call the broker") /\
  (fun u => (Db.u_owner u, Db.u_user_notes u))
    <$> updatedPropertyData alice_row (answer_with (Str "12-34") (Str "Bob")) "t1"
  = Ok (Str "Bob", Some "call the broker").
Proof. by vm_compute. Qed.

Section Route.

Context {DB Net : Type} {store : DatabaseService DB}
  {provider : RegridService Net}.

Ltac run_route :=
  unfold POST, fetchFresh, try_catch, bind, db_read, db_write, net_call, ret,
    pure.

(** C8: for a signed-in caller and a record id, an id the caller has no
    record for is answered 404, a record without a parcel number 400, and a
    provider lookup that throws 503; in each of the three the store is the
    one the request found. *)
Theorem refresh_preconditions (session : option string) (userId id now : string)
  (w : World DB Net) :
  nonempty session = Some userId ->
  id <> "" ->
  (getProperty id userId (db w) = Ok None ->
   POST session id now w = (Ok (Failure 404 "Property not found"), w)) /\
  (forall p,
     getProperty id userId (db w) = Ok (Some p) ->
     nonempty (Db.apn p) = None ->
     POST session id now w =
       (Ok (Failure 400 "Cannot refresh property: No APN available"), w)) /\
  (forall p apn m n',
     getProperty id userId (db w) = Ok (Some p) ->
     nonempty (Db.apn p) = Some apn ->
     searchByAPN apn (nonempty (Db.state p)) (net w) = (Throw m, n') ->
     POST session id now w =
       (Ok (Failure 503 "Failed to fetch updated property data from Regrid API"),
        {| db := db w; net := n' |})).
Proof.
  intros Hs Hid. apply String.eqb_neq in Hid.
  split; [|split].
  - intros Hget. run_route. by rewrite Hs, Hid, Hget.
  - intros p Hget Hapn. run_route. by rewrite Hs, Hid, Hget, Hapn.
  - intros p apn m n' Hget Hapn Hnet. run_route.
    by rewrite Hs, Hid, Hget, Hapn, Hnet.
Qed.

(** C10: a refresh that succeeds has asked the provider for the stored parcel
    number and has handed to [updateProperty], once, the merge of the stored
    record and the parcel the provider returned.  The parcel number of that
    update is the provider's, or the stored one when the provider has none,
    without its dashes and otherwise character by character: it contains no
    dash.  So when that number had a dash, the stored one as it came back
    included, the parcel number that is written differs from it, and the key
    of the duplicate check changes.  The payload of a create, the other
    writer of parcel numbers, holds the parcel number of the provider or of
    the caller as it is. *)
Theorem refresh_strips_dashes (session : option string) (id now : string)
  (w w' : World DB Net) (p : Db.Property) :
  POST session id now w = (Ok (Success p), w') ->
  (exists userId existingProperty apn regridData u a s,
     nonempty session = Some userId /\
     getProperty id userId (db w) = Ok (Some existingProperty) /\
     Db.apn existingProperty = Some apn /\
     searchByAPN apn (nonempty (Db.state existingProperty)) (net w)
     = (Ok (Some regridData), net w') /\
     updatedPropertyData existingProperty regridData now = Ok u /\
     updateProperty id userId u (db w) = (Ok p, db w') /\
     (if truthy (Regrid.apn regridData) then Regrid.apn regridData = Str a
      else a = apn) /\
     Db.u_apn u = Some s /\
     String.list_ascii_of_string s
     = List.filter (fun c => negb (Ascii.eqb dash c))
         (String.list_ascii_of_string a) /\
     (dash ∉ String.list_ascii_of_string s) /\
     (dash ∈ String.list_ascii_of_string a -> s <> a) /\
     (a = apn -> dash ∈ String.list_ascii_of_string apn ->
      Db.u_apn u <> Db.apn existingProperty)) /\
  (forall i regridData a,
     Db.i_apn (UserProperties.propertyData i regridData) = Str a ->
     of_regrid regridData Regrid.apn = Str a \/ Schema.apn i = Some a).
Proof.
  intros H. split.
  - revert H. run_route. intros H.
    destruct (nonempty session) as [userId|] eqn:Hs; [|done].
    destruct (String.eqb id ""); [done|].
    destruct (getProperty id userId (db w)) as [[existing|]|] eqn:Hget; try done.
    destruct (nonempty (Db.apn existing)) as [apn|] eqn:Hapn; [|done].
    destruct (searchByAPN apn _ (net w)) as [[[regrid|]|] n1] eqn:Hnet;
      simpl in H; try done.
    destruct (updatedPropertyData existing regrid now) as [u|] eqn:Hu;
      simpl in H; [|done].
    destruct (updateProperty id userId u (db w)) as [[q|] d] eqn:Hup;
      simpl in H; [|done].
    injection H as <- <-. cbn [db net].
    assert (Hstored : Db.apn existing = Some apn /\ apn <> "").
    { destruct (Db.apn existing) as [x|]; [|done]. cbn in Hapn.
      destruct (String.eqb x "") eqn:Hx; [done|].
      apply String.eqb_neq in Hx. by simplify_eq. }
    destruct Hstored as [Hstored Hne].
    pose proof (updated_apn _ _ _ _ Hu) as Hclean.
    pose proof (cleanAPN_defined
      (or_else (Regrid.apn regrid) (Db.text (Db.apn existing)))) as Hc.
    rewrite Hclean in Hc. rewrite Hstored in Hc. cbn [Db.text from_option] in Hc.
    destruct (Db.u_apn u) as [s|] eqn:Hs'.
    2:{ unfold or_else in Hc. destruct (truthy (Regrid.apn regrid)) eqn:E;
          [congruence|].
        cbn in Hc. apply String.eqb_neq in Hne. by rewrite Hne in Hc. }
    destruct Hc as (a & Ha & _ & ->).
    assert (Hfilter : String.list_ascii_of_string (remove_all "-" a)
              = List.filter (fun c => negb (Ascii.eqb "-" c))
                  (String.list_ascii_of_string a)) by apply remove_all_filter.
    assert (Hnone : dash ∉ String.list_ascii_of_string (remove_all "-" a)).
    { rewrite Hfilter. apply filter_without. }
    assert (Hdiff : dash ∈ String.list_ascii_of_string a -> remove_all "-" a <> a).
    { intros Hin Heq. rewrite Heq in Hnone. done. }
    exists userId, existing, apn, regrid, u, a, (remove_all "-" a).
    repeat apply conj; try done.
    + unfold or_else in Ha. destruct (truthy (Regrid.apn regrid)); [exact Ha|].
      by injection Ha as <-.
    + intros -> Hin. rewrite Hs', Hstored. intros [= Heq]. by apply Hdiff.
  - intros i regridData a. unfold UserProperties.propertyData. cbn [Db.i_apn].
    rewrite NormalizeFacts.or_or.
    destruct (truthy (of_regrid regridData Regrid.apn)); [intros E; by left|].
    unfold or_else. destruct (Schema.apn i) as [x|];
      cbn [optional from_option truthy]; [|done].
    destruct (negb (String.eqb x "")); [|done]. intros [= ->]. by right.
Qed.

End Route.

Lemma refresh_preconditions_witness :
  POST (Some "u1") "9" "t1" alice_world
    = (Ok (Failure 404 "Property not found"), alice_world) /\
  POST (Some "u1") "1" "t1" alice_world
    = (Ok (Failure 400 "Cannot refresh property: No APN available"),
       alice_world) /\
  POST (Some "u1") "2" "t1" alice_world
    = (Ok (Failure 503 "Failed to fetch updated property data from Regrid API"),
       alice_world).
Proof.
  split; [|split].
  - apply (refresh_preconditions (Some "u1") "u1" "9" "t1" alice_world);
      [reflexivity | discriminate | reflexivity].
  - apply (refresh_preconditions (Some "u1") "u1" "1" "t1" alice_world)
      with (p := row "1" None); [reflexivity | discriminate | reflexivity..].
  - apply (refresh_preconditions (Some "u1") "u1" "2" "t1" alice_world)
      with (p := row "2" (Some "down")) (apn := "down")
           (m := "Regrid API Error (500): unavailable");
      [reflexivity | discriminate | reflexivity..].
Defined.

(** The stored parcel number has a dash and the provider returns the very
    same number: the row after the refresh holds it without the dash. *)
Lemma refresh_strips_dashes_witness :
  exists p w',
    POST (Some "u1") "0" "t1" alice_world = (Ok (Success p), w') /\
    Db.apn alice_row = Some "12-34" /\
    Db.apn p = Some "1234" /\
    exists u s,
      updateProperty "0" "u1" u (db alice_world) = (Ok p, db w') /\
      Db.u_apn u = Some s /\
      dash ∉ String.list_ascii_of_string s.
Proof.
  assert (exists p w',
            POST (Some "u1") "0" "t1" alice_world = (Ok (Success p), w') /\
            Db.apn p = Some "1234")
    as (p & w' & H & Hp) by (eexists _, _; vm_compute; split; reflexivity).
  exists p, w'. split; [exact H|]. split; [reflexivity|]. split; [exact Hp|].
  destruct (proj1 (refresh_strips_dashes _ _ _ _ _ _ H))
    as (userId & existing & apn & regrid & u & a & s & Hs & _ & _ & _ & _ & Hup
        & _ & Hapn & _ & Hnone & _).
  injection Hs as <-. by exists u, s.
Defined.

(** The scenario of the spec: the stored parcel number has a dash, the
    provider returns the very same number, and the row after the refresh
    holds it without the dash; the owner follows the provider and the notes
    stay. *)
Example refresh_changes_the_key :
  (fun r => match r with
            | Success p => (Db.apn p, Db.owner p, Db.user_notes p)
            | Failure _ _ => (None, None, None)
            end) <$> (POST (Some "u1") "0" "t1" alice_world).1
  = Ok (Some "1234", Some "Bob", Some "call the broker").
Proof. by vm_compute. Qed.

End RefreshFacts.

(** ** The duplicate resolver *)

Module CheckApnFacts.

Import CheckApn CheckApnSpec.


Section Route.

Context {DB Net : Type} {store : DatabaseService DB} {unicode : Unicode}.



End Route.

Import RefreshSpec.

#[local] Existing Instance ascii_letters.


End CheckApnFacts.

(** ** Creating a record *)

Module CreateFacts.

Import UserProperties CheckApnSpec CheckApnFacts CreateSpec.

Lemma prefix_refl s : String.prefix s s = true.
Proof.
  induction s as [|c s IH]; [done|]. simpl.
  destruct (ascii_dec c c); [exact IH | congruence].
Qed.

Lemma includes_refl s : includes s s = true.
Proof. destruct s; [done|]. cbn [includes]. by rewrite prefix_refl. Qed.


Section Create.

Context {DB Net : Type} {store : DatabaseService DB}
  {provider : RegridService Net} {unicode : Unicode}.

Local Abbreviation W := (World DB Net).





Ltac run_create :=
  unfold handleSingleCreate, try_catch, bind, db_read, db_write, pure, ret, throw.


End Create.

#[local] Existing Instance ascii_letters.



End CreateFacts.

(** ** Bulk create *)

Module BulkFacts.

Import UserProperties BulkSpec.

Lemma successes_ok a outs : successes (Ok a :: outs) = a :: successes outs.
Proof. done. Qed.

Lemma successes_throw m outs : successes (Throw m :: outs) = successes outs.
Proof. done. Qed.

Lemma bookkeeping_lengths i items outs :
  length outs = length items ->
  (length (successes outs) + length (failures i items outs) = length items)%nat.
Proof.
  revert i outs. induction items as [|x items IH]; intros i [|[a|m] outs]; try done.
  - intros [= H]. specialize (IH (S i) outs H).
    rewrite successes_ok. simpl. lia.
  - intros [= H]. specialize (IH (S i) outs H).
    rewrite successes_throw. simpl. lia.
Qed.

Lemma failures_elem i items outs e :
  e ∈ failures i items outs <->
  exists j x m, items !! j = Some x /\ outs !! j = Some (Throw m) /\
    e = {| index := i + j; input := x; error := m |}.
Proof.
  revert i outs. induction items as [|x items IH]; intros i outs.
  { simpl. split; [by intros ?%elem_of_nil | by intros (j & ? & ? & ? & _)]. }
  destruct outs as [|[a|m] outs]; simpl.
  - split; [by intros ?%elem_of_nil | by intros (j & ? & ? & _ & ? & _)].
  - rewrite IH. split.
    + intros (j & y & m & Hy & Hm & ->). exists (S j), y, m.
      repeat split; [done..|]. f_equal. lia.
    + intros ([|j] & y & m & Hy & Hm & ->); [done|]. exists j, y, m.
      repeat split; [done..|]. f_equal. lia.
  - rewrite elem_of_cons, IH. split.
    + intros [->|(j & y & m' & Hy & Hm & ->)].
      * exists 0%nat, x, m. repeat split. f_equal. lia.
      * exists (S j), y, m'. repeat split; [done..|]. f_equal. lia.
    + intros ([|j] & y & m' & Hy & Hm & ->).
      * left. simpl in *. simplify_eq. f_equal. lia.
      * right. exists j, y, m'. repeat split; [done..|]. f_equal. lia.
Qed.

Section Bulk.

Context {DB Net : Type} {store : DatabaseService DB}
  {provider : RegridService Net}.

Lemma item_outcomes_length userId items w :
  length (item_outcomes userId items w).1 = length items.
Proof.
  revert w. induction items as [|x items IH]; intros w; [done|]. simpl.
  destruct (createSinglePropertyFromInput userId x w) as [r w1].
  specialize (IH w1). destruct (item_outcomes userId items w1). simpl in *.
  by rewrite IH.
Qed.

Lemma bulk_loop_outcomes userId i items results errs w :
  bulk_loop userId i items results errs w =
  (Ok (results ++ successes (item_outcomes userId items w).1,
       errs ++ failures i items (item_outcomes userId items w).1),
   (item_outcomes userId items w).2).
Proof.
  revert i results errs w.
  induction items as [|x items IH]; intros i results errs w.
  { simpl. unfold ret. by rewrite !app_nil_r. }
  cbn [bulk_loop item_outcomes]. unfold bind, try_catch, ret.
  destruct (createSinglePropertyFromInput userId x w) as [[a|m] w1];
    cbn [fst snd]; rewrite IH;
    destruct (item_outcomes userId items w1) as [outs w2];
    cbn [fst snd failures].
  - by rewrite successes_ok, <- app_assoc.
  - by rewrite successes_throw, <- app_assoc.
Qed.

(** C3, amended: a body that passes the schema is never answered by a throw:
    every input gets one outcome, the created list is the returned ones and
    the error list the thrown ones, each with the position and the input it
    belongs to, and the summary counts add up to the number of inputs.  A body
    that the schema refuses, be it for a single item, makes the whole call
    throw before any input is attempted. *)
Theorem bulk_bookkeeping (userId : string) (body : value) (w : World DB Net) :
  match Schema.bulkCreateSchema_parse body with
  | Ok v =>
      let inputs := Schema.properties v in
      let outs := (item_outcomes userId inputs w).1 in
      exists response,
        handleBulkCreate userId body w
          = (Ok response, (item_outcomes userId inputs w).2) /\
        length outs = length inputs /\
        created response = successes outs /\
        errors response = failures 0 inputs outs /\
        (forall e, e ∈ errors response <->
           exists j x m, inputs !! j = Some x /\ outs !! j = Some (Throw m) /\
             e = {| index := j; input := x; error := m |}) /\
        total (summary response) = length inputs /\
        successful (summary response) = length (created response) /\
        failed (summary response) = length (errors response) /\
        (successful (summary response) + failed (summary response)
         = total (summary response))%nat
  | Throw m => handleBulkCreate userId body w = (Throw m, w)
  end.
Proof.
  unfold handleBulkCreate, bind, pure, ret.
  destruct (Schema.bulkCreateSchema_parse body) as [v|m]; [|done].
  rewrite bulk_loop_outcomes.
  set (inputs := Schema.properties v).
  set (outs := (item_outcomes userId inputs w).1).
  assert (Hlen : length outs = length inputs) by apply item_outcomes_length.
  eexists. split; [reflexivity|]. cbn [created errors summary total successful failed].
  repeat split; try done.
  - by intros ?%failures_elem.
  - by intros ?%(failures_elem 0).
  - by apply bookkeeping_lengths.
Qed.

End Bulk.

Example bulk_isolates_a_failing_item :
  (fun r => (Db.apn <$> omap id (created r), index <$> errors r,
             error <$> errors r, summary r))
    <$> (handleBulkCreate "u1" body_with_two_items two_parcel_world).1
  = Ok ([Some "050-183-176"], [1%nat], ["invalid input for a column"],
        {| total := 2; successful := 1; failed := 1; source := Some "csv" |}).
Proof. by vm_compute. Qed.

(** C3, as stated, fails: one item that the schema refuses makes the batch
    call throw, and the well-formed item before it is never attempted; the
    store stays empty. *)
Lemma bulk_fails_as_a_whole :
  handleBulkCreate "u1" body_with_bad_item CreateSpec.empty_world
  = (Throw "ZodError: invalid address", CreateSpec.empty_world).
Proof. by vm_compute. Qed.

End BulkFacts.

(** * Further properties of the code *)

#[local] Set Warnings "-clear-no-such-hyp".

(** ** The normaliser *)

Module NormalizeMore.

Import Regrid NormalizeSpec NormalizeFacts MoreSpec.

Lemma dom_object_of (entries : list (string * value)) :
  dom (object_of entries : gmap string value) = list_to_set entries.*1.
Proof.
  unfold object_of.
  enough (forall (o : object),
            dom (foldl (fun o kv => <[kv.1 := kv.2]> o) o entries)
            = list_to_set entries.*1 ∪ dom o) as H.
  { rewrite H. unfold object. rewrite dom_empty_L. set_solver. }
  induction entries as [|[k v] entries IH]; intros o; simpl.
  { set_solver. }
  rewrite IH. unfold object in *. rewrite dom_insert_L. set_solver.
Qed.

(** X1: the normaliser returns exactly when the raw value is neither null
    nor undefined and every value that it converts to a string or to a number
    can be converted: the identifier, the two coordinates and the sources of
    the numeric attributes of the revision.  In every other case it throws. *)
Theorem normalize_returns_exactly_when (raw : value) :
  ((exists r, Lib.normalizeProperty raw = Ok r) <->
   nullish raw = false /\
   Forall (fun v => convertible v = true) (converted lib_numeric raw)) /\
  ((exists r, Rev.normalizeProperty raw = Ok r) <->
   nullish raw = false /\
   Forall (fun v => convertible v = true) (converted rev_numeric raw)) /\
  ((exists m, Lib.normalizeProperty raw = Throw m) <->
   ~ (nullish raw = false /\
      Forall (fun v => convertible v = true) (converted lib_numeric raw))) /\
  ((exists m, Rev.normalizeProperty raw = Throw m) <->
   ~ (nullish raw = false /\
      Forall (fun v => convertible v = true) (converted rev_numeric raw))).
Proof.
  pose proof (lib_normalize_returns raw) as Hlib.
  pose proof (rev_normalize_returns raw) as Hrev.
  split; [exact Hlib|]. split; [exact Hrev|]. split.
  - rewrite <- Hlib. destruct (Lib.normalizeProperty raw) as [r|m].
    + split; [by intros [m ?]|]. intros []. by exists r.
    + split; [by intros _ [r ?]|]. intros _. by exists m.
  - rewrite <- Hrev. destruct (Rev.normalizeProperty raw) as [r|m].
    + split; [by intros [m ?]|]. intros []. by exists r.
    + split; [by intros _ [r ?]|]. intros _. by exists m.
Qed.

(** X2: the keys of the attribute bag are the keyed entries of the
    revision together with the members of the raw fields, and every member of
    the raw fields is in the bag with the value it has there. *)
Theorem normalize_bag_keys (raw : value) (r : RegridProperty) :
  Lib.normalizeProperty raw = Ok r \/ Rev.normalizeProperty raw = Ok r ->
  (Lib.normalizeProperty raw = Ok r ->
   dom (properties r) = list_to_set lib_keys ∪ dom (own_props (fields_of raw))) /\
  (Rev.normalizeProperty raw = Ok r ->
   dom (properties r) = list_to_set rev_keys ∪ dom (own_props (fields_of raw))) /\
  forall k v, own_props (fields_of raw) !! k = Some v -> properties r !! k = Some v.
Proof.
  intros Hr. split; [|split].
  - intros Hlib.
    destruct (normalized_members _ _ _ Hlib)
      as (Hn & _ & _ & _ & _ & _ & _ & _ & _ & _ & _ & es & Hes & ->).
    pose proof (lib_canonical_entries _ (fields_of_not_nullish raw Hn)) as Hc.
    rewrite Hes in Hc. destruct Hc as [Hkeys _].
    unfold spread, object.
    rewrite dom_union_L, dom_object_of, Hkeys. set_solver.
  - intros Hrev.
    destruct (normalized_members _ _ _ Hrev)
      as (Hn & _ & _ & _ & _ & _ & _ & _ & _ & _ & _ & es & Hes & ->).
    pose proof (rev_canonical_entries _ (fields_of_not_nullish raw Hn)) as Hc.
    rewrite Hes in Hc. destruct Hc as [Hkeys _].
    unfold spread, object.
    rewrite dom_union_L, dom_object_of, Hkeys. set_solver.
  - intros k v Hk. destruct Hr as [Hr|Hr].
    + by apply (normalize_bag_holds_raw Lib.canonical raw).
    + by apply (normalize_bag_holds_raw Rev.canonical raw).
Qed.

Lemma normalize_bag_keys_witness :
  exists r, Lib.normalizeProperty raw_plain = Ok r /\
    properties r !! "yearbuilt" = Some (Str "1998") /\
    properties r !! "year_built" = Some (Num (Dec 1998 0)).
Proof.
  assert (exists r, Lib.normalizeProperty raw_plain = Ok r /\
            properties r !! "year_built" = Some (Num (Dec 1998 0)))
    as (r & Hr & Hy) by (eexists; split; vm_compute; reflexivity).
  exists r. split; [exact Hr|]. split; [|exact Hy].
  apply (normalize_bag_keys raw_plain r (or_introl Hr)). reflexivity.
Defined.

End NormalizeMore.

(** ** The provider client *)

Module ClientMore.

Import Regrid NormalizeSpec NormalizeFacts MoreSpec.

Lemma first_of_array first rest : prop (Arr (first :: rest)) "0" = first.
Proof.
  unfold prop. cbn [String.eqb Ascii.eqb Bool.eqb]. unfold indexed.
  cbn [imap list_to_map foldr fst snd uncurry].
  unfold object. change "0" with (pretty 0%nat). by rewrite lookup_insert_eq.
Qed.

Lemma gt_zero_length first (rest : list value) :
  gt_zero (prop (Arr (first :: rest)) "length") = Ok true.
Proof.
  unfold gt_zero, prop.
  cbn [String.eqb Ascii.eqb Bool.eqb to_number mbind result_bind mret result_ret].
  f_equal.
Qed.

Lemma lib_first_feature_empty : RegridClient.first_feature (Arr []) = Ok None.
Proof. reflexivity. Qed.

Lemma lib_first_feature_cons first rest :
  RegridClient.first_feature (Arr (first :: rest))
  = Some <$> Lib.normalizeProperty first.
Proof.
  unfold RegridClient.first_feature. cbn [member mbind result_bind].
  rewrite gt_zero_length. cbn [mbind result_bind]. rewrite first_of_array.
  by destruct (Lib.normalizeProperty first).
Qed.

Lemma rev_first_feature_empty : RevClient.first_feature (Arr []) = Ok None.
Proof. reflexivity. Qed.

Lemma rev_first_feature_cons first rest :
  RevClient.first_feature (Arr (first :: rest))
  = Some <$> Rev.normalizeProperty first.
Proof.
  unfold RevClient.first_feature. cbn [member mbind result_bind].
  rewrite gt_zero_length. cbn [mbind result_bind]. rewrite first_of_array.
  by destruct (Rev.normalizeProperty first).
Qed.

Lemma or_else_falsy a b : truthy a = false -> or_else a b = b.
Proof. unfold or_else. by intros ->. Qed.

Lemma or_else_truthy a b : truthy a = true -> or_else a b = a.
Proof. unfold or_else. by intros ->. Qed.

Section Client.

Context {Net : Type} {http : Provider Net}.

(** X3: the parcel lookup by number makes one request, in which the
    state it was given has no part; an error of the request is thrown on
    unchanged; an answer without features, a null answer included, gives no
    parcel; otherwise the first feature alone is normalised, whatever follows
    it.  Both revisions. *)
Theorem searchByAPN_outcomes (apn : string) (state : option string)
  (n n' : Net) (answer : result value) :
  makeRequest "/parcels/apn"
    (Obj (object_of [("parcelnumb", Str apn); ("token", apiKey)])) n
  = (answer, n') ->
  (forall state',
     RegridClient.searchByAPN apn state' n = RegridClient.searchByAPN apn state n) /\
  match answer with
  | Throw m =>
      RegridClient.searchByAPN apn state n = (Throw m, n') /\
      RevClient.lookup apn n = (Throw m, n')
  | Ok data =>
      (truthy (features_of data) = false \/ features_of data = Arr [] ->
       RegridClient.searchByAPN apn state n = (Ok None, n') /\
       RevClient.lookup apn n = (Ok None, n')) /\
      (forall first rest,
         features_of data = Arr (first :: rest) ->
         RegridClient.searchByAPN apn state n
           = (Some <$> Lib.normalizeProperty first, n') /\
         RevClient.lookup apn n = (Some <$> Rev.normalizeProperty first, n'))
  end.
Proof.
  intros Hreq. split; [done|].
  unfold RegridClient.searchByAPN, RevClient.lookup.
  rewrite Hreq. destruct answer as [data|m]; [|done].
  cbn [mbind result_bind]. fold (features_of data). split.
  - intros [Hf|Hf].
    + by rewrite or_else_falsy.
    + by rewrite Hf.
  - intros first rest Hf. rewrite Hf. rewrite or_else_truthy by done.
    by rewrite lib_first_feature_cons, rev_first_feature_cons.
Qed.

Lemma getPropertyById_throws (id : value) (n n' : Net) m :
  makeRequest ("/parcels/" +:+ to_string id)
    (Obj (object_of [("token", apiKey)])) n
  = (Throw m, n') ->
  RegridClient.getPropertyById id n = (Throw m, n').
Proof. intros Hreq. unfold RegridClient.getPropertyById. by rewrite Hreq. Qed.

Lemma getPropertyById_null (id : value) (n n' : Net) data :
  makeRequest ("/parcels/" +:+ to_string id)
    (Obj (object_of [("token", apiKey)])) n
  = (Ok data, n') ->
  nullish data = true ->
  exists m, RegridClient.getPropertyById id n = (Throw m, n').
Proof.
  intros Hreq Hn. unfold RegridClient.getPropertyById. rewrite Hreq.
  destruct data; try done; by eexists.
Qed.

Lemma getPropertyById_features (id : value) (n n' : Net) data :
  makeRequest ("/parcels/" +:+ to_string id)
    (Obj (object_of [("token", apiKey)])) n
  = (Ok data, n') ->
  nullish data = false ->
  RegridClient.getPropertyById id n
  = (if truthy (features_of data)
     then RegridClient.first_feature (features_of data) else Ok None, n').
Proof.
  intros Hreq Hn. unfold RegridClient.getPropertyById. rewrite Hreq.
  cbn [mbind result_bind]. rewrite member_defined by done.
  cbn [mbind result_bind]. unfold features_of, opt_member. by rewrite Hn.
Qed.


End Client.

Lemma searchByAPN_outcomes_witness :
  RegridClient.searchByAPN "050-183-176" None sample_http
  = (Some <$> Lib.normalizeProperty raw_plain, sample_http).
Proof.
  assert (makeRequest "/parcels/apn"
            (Obj (object_of [("parcelnumb", Str "050-183-176"); ("token", apiKey)]))
            sample_http
          = (Ok (parcels_body (Arr [raw_plain; Null])), sample_http)) as Hreq
    by reflexivity.
  exact (proj1 (proj2 (proj2 (searchByAPN_outcomes "050-183-176" None sample_http
                                sample_http _ Hreq)) raw_plain [Null] eq_refl)).
Defined.


(** X5: the address search sends one request, to the search endpoint,
    with the query, a limit that is never above 25, and the city and the
    state only when they are given and not empty; it sends nothing else, the
    key neither. *)
Theorem searchByAddress_request (answers : string -> value -> result value)
  (address : string) (city state : option string) (limit : Z) (sent : Trace) :
  exists params : gmap string value,
    (RegridClient.searchByAddress (http := recording answers)
       address city state limit sent).2
    = sent ++ [("/search", Obj params)] /\
    params !! "query" = Some (Str address) /\
    params !! "limit" = Some (Num (Dec (Z.min limit 25) 0)) /\
    Z.min limit 25 <= 25 /\
    params !! "city" = Str <$> nonempty city /\
    params !! "state" = Str <$> nonempty state /\
    dom params ⊆ list_to_set ["query"; "limit"; "city"; "state"].
Proof.
  unfold RegridClient.searchByAddress. cbn [makeRequest recording snd].
  eexists. split; [reflexivity|].
  rewrite NormalizeMore.dom_object_of.
  destruct (nonempty city), (nonempty state); cbn [from_option app];
    (repeat apply conj; [by vm_compute | by vm_compute | lia | by vm_compute
                        | by vm_compute | set_solver]).
Qed.

Lemma mapM_results {A B} (f : A -> result B) items found :
  mapM f items = Ok found -> Forall2 (fun x c => f x = Ok c) items found.
Proof.
  revert found. induction items as [|x items IH]; intros found; simpl.
  { intros [= <-]. constructor. }
  destruct (f x) as [c|] eqn:Hx; [|done]. cbn [mbind result_bind].
  destruct (mapM f items) as [cs|]; [|done]. cbn [mbind result_bind].
  intros [= <-]. constructor; [done|]. by apply IH.
Qed.

Lemma defaulted_or_else v d : defaulted d (or_else v d).
Proof. unfold defaulted, or_else. destruct (truthy v) eqn:H; auto. Qed.

Section Candidates.

Context {Net : Type} {http : Provider Net}.

(** X6: when the address search returns, it returns one candidate per
    raw result of the answer, in order, with the id of that result as it is;
    every other member of a candidate is a truthy value or else the empty
    string, zero for the score: none is undefined or null. *)
Theorem searchByAddress_candidates (address : string)
  (city state : option string) (limit : Z) (n n' : Net)
  (found : list RegridSearchResult) :
  RegridClient.searchByAddress address city state limit n = (Ok found, n') ->
  (exists params data items,
     makeRequest "/search" params n = (Ok data, n') /\
     or_else (prop data "results") (Arr []) = Arr items /\
     length found = length items /\
     forall j x c, items !! j = Some x -> found !! j = Some c ->
       sr_id c = prop x "id") /\
  Forall (fun c =>
            defaulted (Str "") (sr_apn c) /\
            defaulted (Str "") (sr_address c) /\
            defaulted (Str "") (sr_city c) /\
            defaulted (Str "") (sr_state c) /\
            defaulted (Str "") (sr_zip c) /\
            defaulted (Num (Dec 0 0)) (sr_score c)) found.
Proof.
  unfold RegridClient.searchByAddress.
  destruct (makeRequest "/search" _ n) as [[data|m] n1] eqn:Hreq; [|done].
  cbn [mbind result_bind].
  destruct (member data "results") as [results|] eqn:Hres; [|done].
  cbn [mbind result_bind].
  destruct (or_else results (Arr [])) as [| | | | |items|] eqn:Hitems; try done.
  intros [= Hmap <-]. apply mapM_results in Hmap.
  assert (Hsame : forall x c, RegridClient.search_result x = Ok c ->
            sr_id c = prop x "id" /\
            defaulted (Str "") (sr_apn c) /\
            defaulted (Str "") (sr_address c) /\
            defaulted (Str "") (sr_city c) /\
            defaulted (Str "") (sr_state c) /\
            defaulted (Str "") (sr_zip c) /\
            defaulted (Num (Dec 0 0)) (sr_score c)).
  { intros x c. unfold RegridClient.search_result.
    destruct (nullish x) eqn:Hx.
    { by destruct x. }
    rewrite !member_defined by done. cbn [mbind result_bind mret result_ret].
    intros [= <-]. cbn. repeat split; apply defaulted_or_else. }
  split.
  - eexists _, data, items. split; [exact Hreq|].
    assert (results = prop data "results") as ->.
    { destruct data; try done; by injection Hres as <-. }
    split; [done|]. split.
    { symmetry. by eapply Forall2_length. }
    intros j x c Hx Hc.
    apply Hsame. exact (Forall2_lookup_lr _ _ _ _ _ _ Hmap Hx Hc).
  - apply list.Forall_forall. intros c Hc.
    apply list_elem_of_lookup in Hc as [j Hc].
    destruct (Forall2_lookup_r _ _ _ _ _ Hmap Hc) as (x & Hx & Hxc).
    by apply Hsame in Hxc as (_ & ?).
Qed.

End Candidates.

Lemma searchByAddress_candidates_witness :
  exists found,
    RegridClient.searchByAddress "1 Main St" None None 1 sample_http
    = (Ok found, sample_http) /\
    sr_id <$> found = [Num (Dec 4711 0); Str "empty"] /\
    sr_apn <$> found = [Str "050-183-176"; Str ""] /\
    Forall (fun c => defaulted (Str "") (sr_zip c)) found.
Proof.
  assert (exists found,
            RegridClient.searchByAddress "1 Main St" None None 1 sample_http
            = (Ok found, sample_http) /\
            sr_id <$> found = [Num (Dec 4711 0); Str "empty"] /\
            sr_apn <$> found = [Str "050-183-176"; Str ""])
    as (found & Hfound & Hid & Hapn)
    by (eexists; vm_compute; repeat split; reflexivity).
  exists found. split; [exact Hfound|]. split; [exact Hid|]. split; [exact Hapn|].
  eapply Forall_impl;
    [exact (proj2 (searchByAddress_candidates _ _ _ _ _ _ _ Hfound))|].
  intros c H. apply H.
Defined.

Section AddressBatch.

Context {Net : Type} {provider : RegridService Net}.





End AddressBatch.

Lemma filename_of_mapping apn filename :
  (apn, filename) ∈ RevClient.TEST_APN_MAPPING ->
  RevClient.filename_of apn = Str filename /\ apn ∈ RevClient.TEST_APNS.
Proof.
  unfold RevClient.TEST_APN_MAPPING. rewrite !elem_of_cons, elem_of_nil.
  intros H. repeat (destruct H as [[= -> ->]|H]; [split; [done|]|]); [..|done];
    unfold RevClient.TEST_APNS, RevClient.TEST_APN_MAPPING; cbn [fmap list_fmap fst];
    set_solver.
Qed.

Lemma test_apn_has_file apn :
  apn ∈ RevClient.TEST_APNS ->
  exists filename, (apn, filename) ∈ RevClient.TEST_APN_MAPPING.
Proof.
  unfold RevClient.TEST_APNS. intros ((a & filename) & -> & H)%list_elem_of_fmap.
  by exists filename.
Qed.

Section RevClient.

Context {Net : Type} {http : Provider Net} {files : TestData}.

Lemma cached_feature apn filename data first rest :
  (apn, filename) ∈ RevClient.TEST_APN_MAPPING ->
  readTestData filename = Ok data ->
  features_of data = Arr (first :: rest) ->
  RevClient.cached apn = Some <$> Rev.normalizeProperty first.
Proof.
  intros [Hname _]%filename_of_mapping Hread Hf.
  unfold RevClient.cached. rewrite Hname, Hread. cbn [mbind result_bind].
  fold (features_of data). rewrite Hf, or_else_truthy by done.
  apply rev_first_feature_cons.
Qed.

(** X8: in development, a test parcel number whose file holds a
    feature is answered from the file when the normaliser returns on that
    feature: the answer is the normalised feature and no request is made to
    the provider.  When the normaliser throws on it, the lookup is the
    request to the provider. *)
Theorem searchByAPN_cache_hit (apn : string) (state : option string) (n : Net)
  (filename : string) (data first : value) (rest : list value) :
  development = true ->
  (apn, filename) ∈ RevClient.TEST_APN_MAPPING ->
  readTestData filename = Ok data ->
  features_of data = Arr (first :: rest) ->
  RevClient.searchByAPN apn state n
  = match Rev.normalizeProperty first with
    | Ok p => (Ok (Some p), n)
    | Throw _ => RevClient.lookup apn n
    end.
Proof.
  intros Hdev Hin Hread Hf. unfold RevClient.searchByAPN.
  destruct (filename_of_mapping _ _ Hin) as [_ Htest].
  rewrite Hdev, bool_decide_eq_true_2 by done. cbn [andb].
  rewrite (cached_feature apn filename data first rest Hin Hread Hf).
  by destruct (Rev.normalizeProperty first).
Qed.

(** X9: in development, a batch of test parcel numbers whose files each
    hold a feature on which the normaliser returns is answered with those
    normalised features, one for each number and in their order, and makes no
    request to the provider. *)
Theorem batch_of_cached_parcels (apns : list string) (state : option string)
  (n : Net) (parcels : list RegridProperty) :
  development = true ->
  Forall2 (fun apn p =>
             exists filename data first rest,
               (apn, filename) ∈ RevClient.TEST_APN_MAPPING /\
               readTestData filename = Ok data /\
               features_of data = Arr (first :: rest) /\
               Rev.normalizeProperty first = Ok p)
    apns parcels ->
  Batch.batchSearchByAPNs (provider := RevClient.service) apns state n
  = (Ok parcels, n).
Proof.
  intros Hdev Hall. unfold Batch.batchSearchByAPNs.
  assert (Batch.allSettled
            ((fun apn => searchByAPN (RegridService := RevClient.service) apn state)
               <$> apns) n
          = (Batch.Fulfilled <$> (Some <$> parcels), n)) as Hsettled.
  { induction Hall as [|apn p apns parcels Hapn _ IH]; [done|].
    destruct Hapn as (filename & data & first & rest & Hin & Hread & Hf & Hp).
    assert (Hhit : RevClient.searchByAPN apn state n = (Ok (Some p), n)).
    { unfold RevClient.searchByAPN.
      destruct (filename_of_mapping _ _ Hin) as [_ Htest].
      rewrite Hdev, bool_decide_eq_true_2 by done. cbn [andb].
      by rewrite (cached_feature apn filename data first rest Hin Hread Hf), Hp. }
    rewrite !fmap_cons. cbn [Batch.allSettled]. cbv beta.
    change (searchByAPN (RegridService := RevClient.service) apn state n)
      with (RevClient.searchByAPN apn state n).
    by rewrite Hhit, IH. }
  rewrite Hsettled. f_equal. f_equal.
  clear. induction parcels as [|p parcels IH]; [done|].
  rewrite !fmap_cons, BatchFacts.kept_values_cons. by rewrite IH.
Qed.

(** X10: outside development, for a parcel number that is not a test
    one, and when the test file cannot be read, holds no feature or holds
    null as its first feature, the lookup by number is the request to the
    provider. *)
Theorem searchByAPN_falls_back (apn : string) (state : option string) (n : Net) :
  development = false \/ apn ∉ RevClient.TEST_APNS \/
  (forall filename,
     (apn, filename) ∈ RevClient.TEST_APN_MAPPING ->
     match readTestData filename with
     | Throw _ => True
     | Ok data =>
         truthy (features_of data) = false \/ features_of data = Arr [] \/
         exists first rest,
           features_of data = Arr (first :: rest) /\ nullish first = true
     end) ->
  RevClient.searchByAPN apn state n = RevClient.lookup apn n.
Proof.
  intros H. unfold RevClient.searchByAPN.
  destruct (bool_decide (apn ∈ RevClient.TEST_APNS)) eqn:Hin; [|done].
  apply bool_decide_eq_true in Hin.
  destruct development; [|done]. cbn [andb].
  destruct H as [H|[H|H]]; [done..|].
  destruct (test_apn_has_file _ Hin) as [filename Hfile].
  specialize (H filename Hfile).
  destruct (filename_of_mapping _ _ Hfile) as [Hname _].
  unfold RevClient.cached. rewrite Hname.
  destruct (readTestData filename) as [data|m]; [|done].
  cbn [mbind result_bind]. fold (features_of data).
  destruct H as [H|[H|(first & rest & H & Hn)]].
  - by rewrite or_else_falsy.
  - by rewrite H.
  - rewrite H, or_else_truthy by done. rewrite rev_first_feature_cons.
    destruct (normalize_with_throws Rev.canonical first Hn) as [m Hm].
    unfold Rev.normalizeProperty. by rewrite Hm.
Qed.

End RevClient.

Lemma searchByAPN_cache_hit_witness :
  exists p,
    Rev.normalizeProperty raw_plain = Ok p /\
    RevClient.searchByAPN (files := sample_files) "50183176" None []
    = (Ok (Some p), []) /\
    Regrid.apn p = Str "050-183-176".
Proof.
  assert ((("50183176", "regrid-test-2.json") : string * string)
          ∈ RevClient.TEST_APN_MAPPING) as Hin.
  { unfold RevClient.TEST_APN_MAPPING.
    repeat first [apply list_elem_of_here | apply list_elem_of_further]. }
  assert (exists p, Rev.normalizeProperty raw_plain = Ok p /\
            Regrid.apn p = Str "050-183-176") as (p & Hp & Hapn)
    by (eexists; split; vm_compute; reflexivity).
  exists p. split; [exact Hp|]. split; [|exact Hapn].
  rewrite (searchByAPN_cache_hit (files := sample_files) "50183176" None
             ([] : Http) "regrid-test-2.json"
             (parcels_body (Arr [raw_plain])) raw_plain []
             eq_refl Hin eq_refl eq_refl).
  by rewrite Hp.
Defined.

Lemma batch_of_cached_parcels_witness :
  exists p,
    Rev.normalizeProperty raw_plain = Ok p /\
    Batch.batchSearchByAPNs
      (provider := RevClient.service (files := sample_files))
      ["50183176"; "50183176"] None ([] : Http)
    = (Ok [p; p], []).
Proof.
  assert ((("50183176", "regrid-test-2.json") : string * string)
          ∈ RevClient.TEST_APN_MAPPING) as Hin.
  { unfold RevClient.TEST_APN_MAPPING.
    repeat first [apply list_elem_of_here | apply list_elem_of_further]. }
  assert (exists p, Rev.normalizeProperty raw_plain = Ok p) as [p Hp]
    by (eexists; vm_compute; reflexivity).
  exists p. split; [exact Hp|].
  assert (exists filename data first rest,
            (("50183176", filename) : string * string)
            ∈ RevClient.TEST_APN_MAPPING /\
            readTestData (TestData := sample_files) filename = Ok data /\
            features_of data = Arr (first :: rest) /\
            Rev.normalizeProperty first = Ok p) as Hfile.
  { exists "regrid-test-2.json", (parcels_body (Arr [raw_plain])), raw_plain, [].
    split; [exact Hin|]. split; [reflexivity|]. split; [reflexivity|exact Hp]. }
  apply (batch_of_cached_parcels (files := sample_files)
           ["50183176"; "50183176"] None ([] : Http) [p; p] eq_refl).
  constructor; [exact Hfile|]. constructor; [exact Hfile|]. constructor.
Defined.

Lemma searchByAPN_falls_back_witness :
  RevClient.searchByAPN (files := sample_files) "505090290" None sample_http
  = (Some <$> Rev.normalizeProperty raw_plain, sample_http).
Proof.
  rewrite (searchByAPN_falls_back (files := sample_files)).
  - reflexivity.
  - right. right. intros filename.
    unfold RevClient.TEST_APN_MAPPING. rewrite !elem_of_cons, elem_of_nil.
    intros H. repeat (destruct H as [H|H]; [by simplify_eq; vm_compute|]). done.
Defined.

Section Detail.

Context {Net : Type} {http : Provider Net}.

Local Abbreviation GET := (PropertyDetail.GET (provider := client_service)).

(** X11: the detail route answers 401 without a session and 400
    without an id, in both cases without a request to the provider; else it
    makes the one request of the lookup by id and answers 500 when the
    request fails or answers null, 404 when the answer has no feature, and
    otherwise the normalised first feature when the normaliser returns on it
    and 500 when the normaliser throws. *)
Theorem detail_answers (session : option string) (id : string) (n : Net) :
  (nonempty session = None -> GET session id n = (Failure 401 "Unauthorized", n)) /\
  (forall userId, nonempty session = Some userId ->
     (id = "" -> GET session id n = (Failure 400 "Property ID is required", n)) /\
     (id <> "" ->
      forall answer n',
        makeRequest ("/parcels/" +:+ id) (Obj (object_of [("token", apiKey)])) n
        = (answer, n') ->
        match answer with
        | Throw _ =>
            GET session id n = (Failure 500 "Failed to get property details", n')
        | Ok data =>
            (nullish data = true ->
             GET session id n
             = (Failure 500 "Failed to get property details", n')) /\
            (nullish data = false ->
             truthy (features_of data) = false \/ features_of data = Arr [] ->
             GET session id n = (Failure 404 "Property not found", n')) /\
            (forall first rest,
               features_of data = Arr (first :: rest) ->
               GET session id n
               = (match Lib.normalizeProperty first with
                  | Ok p => Success p
                  | Throw _ => Failure 500 "Failed to get property details"
                  end, n'))
        end)).
Proof.
  split.
  { intros Hs. unfold PropertyDetail.GET. by rewrite Hs. }
  intros userId Hs. split.
  { intros ->. unfold PropertyDetail.GET. by rewrite Hs. }
  intros Hid%String.eqb_neq answer n' Hreq.
  unfold PropertyDetail.GET. rewrite Hs, Hid.
  cbn [getPropertyById client_service].
  destruct answer as [data|m].
  - split; [|split].
    + intros Hn.
      destruct (getPropertyById_null (Str id) n n' data Hreq Hn) as [m ->]. done.
    + intros Hn Hf. rewrite (getPropertyById_features (Str id) n n' data Hreq Hn).
      by destruct Hf as [-> | ->].
    + intros first rest Hf.
      assert (Hd : nullish data = false).
      { destruct data; try done; by vm_compute in Hf. }
      rewrite (getPropertyById_features (Str id) n n' data Hreq Hd), Hf.
      cbn [truthy]. rewrite lib_first_feature_cons.
      by destruct (Lib.normalizeProperty first).
  - by rewrite (getPropertyById_throws (Str id) n n' m Hreq).
Qed.

End Detail.

Lemma detail_answers_witness :
  PropertyDetail.GET (provider := client_service) (Some "u1") "empty" sample_http
  = (Failure 404 "Property not found", sample_http) /\
  PropertyDetail.GET (provider := client_service) (Some "u1") "null" sample_http
  = (Failure 500 "Failed to get property details", sample_http) /\
  exists p,
    Lib.normalizeProperty raw_plain = Ok p /\
    PropertyDetail.GET (provider := client_service) (Some "u1") "4711" sample_http
    = (Success p, sample_http).
Proof.
  split; [|split].
  - assert (makeRequest ("/parcels/" +:+ "empty")
              (Obj (object_of [("token", apiKey)])) sample_http
            = (Ok (parcels_body (Arr [])), sample_http)) as Hreq by reflexivity.
    assert ("empty" <> "") as Hid by done.
    exact (proj1 (proj2 (proj2 (proj2 (detail_answers (Some "u1") "empty"
                                         sample_http) "u1" eq_refl)
                           Hid _ _ Hreq))
             eq_refl (or_intror eq_refl)).
  - assert (makeRequest ("/parcels/" +:+ "null")
              (Obj (object_of [("token", apiKey)])) sample_http
            = (Ok Null, sample_http)) as Hreq by reflexivity.
    assert ("null" <> "") as Hid by done.
    exact (proj1 (proj2 (proj2 (detail_answers (Some "u1") "null"
                                  sample_http) "u1" eq_refl)
                    Hid _ _ Hreq)
             eq_refl).
  - assert (exists p, Lib.normalizeProperty raw_plain = Ok p) as [p Hp]
      by (eexists; vm_compute; reflexivity).
    exists p. split; [exact Hp|].
    assert (makeRequest ("/parcels/" +:+ "4711")
              (Obj (object_of [("token", apiKey)])) sample_http
            = (Ok (parcels_body (Arr [raw_plain])), sample_http)) as Hreq
      by reflexivity.
    assert ("4711" <> "") as Hid by done.
    rewrite (proj2 (proj2 (proj2 (proj2 (detail_answers (Some "u1") "4711"
                                           sample_http) "u1" eq_refl)
                             Hid _ _ Hreq))
               raw_plain [] eq_refl).
    by rewrite Hp.
Defined.

Example null_answers :
  (RegridClient.searchByAPN "1" None [("/parcels/apn", Ok Null)]).1 = Ok None /\
  (RegridClient.getPropertyById (Str "null") sample_http).1
  = Throw "Cannot read properties of null (reading 'parcels')".
Proof. by vm_compute. Qed.

End ClientMore.

(** ** The refresh route *)

Module RefreshMore.

Import Refresh RefreshSpec RefreshFacts MoreSpec.

Lemma remove_all_idempotent c s : remove_all c (remove_all c s) = remove_all c s.
Proof.
  induction s as [|d s IH]; [done|]. cbn [remove_all].
  destruct (Ascii.eqb c d) eqn:Hd; [done|]. cbn [remove_all].
  by rewrite Hd, IH.
Qed.

(** X12: on a string that is not empty, [cleanAPN] returns its
    characters other than the dash, in their order; the result may be the
    empty string, which a second cleaning turns into null, and is otherwise
    left as it is by a second cleaning. *)
Theorem cleanAPN_keeps_other_characters (s : string) :
  s <> "" ->
  exists t,
    cleanAPN (Str s) = Ok (Some t) /\
    String.list_ascii_of_string t
    = List.filter (fun d => negb (Ascii.eqb "-" d)) (String.list_ascii_of_string s) /\
    cleanAPN (Str t) = Ok (if String.eqb t "" then None else Some t).
Proof.
  intros Hs%String.eqb_neq. exists (remove_all "-" s).
  unfold cleanAPN. cbn [truthy]. rewrite Hs. cbn [negb].
  split; [done|]. split; [apply remove_all_filter|].
  destruct (String.eqb (remove_all "-" s) ""); cbn [negb]; [done|].
  by rewrite remove_all_idempotent.
Qed.

Lemma cleanAPN_keeps_other_characters_witness :
  cleanAPN (Str "--") = Ok (Some "") /\ cleanAPN (Str "") = Ok None /\
  cleanAPN (Str "050-183-176") = Ok (Some "050183176").
Proof.
  assert ("--" <> "") as H1 by done.
  assert ("050-183-176" <> "") as H2 by done.
  destruct (cleanAPN_keeps_other_characters "--" H1) as (t & Ht & _ & _).
  destruct (cleanAPN_keeps_other_characters "050-183-176" H2) as (t' & Ht' & _ & _).
  repeat split; reflexivity.
Defined.

Section Route.

Context {DB Net : Type} {store : DatabaseService DB}
  {provider : RegridService Net}.

Ltac run_route :=
  unfold POST, fetchFresh, try_catch, bind, db_read, db_write, net_call, pure,
    ret.

(** X13: the refresh route never throws, whatever the store and the
    provider do, and it leaves the store as it found it, and answers with a
    failure, unless it reached the update.  Then the provider was asked once, for the stored parcel number
    and state, and answered with a parcel; the store is the one
    [updateProperty] left, called once, for the id and the caller of the
    request, with the merge of the stored record and that parcel; and the
    answer is the updated record, or the error of the update. *)
Theorem refresh_writes_at_most_once (session : option string) (id now : string)
  (w : World DB Net) :
  exists answer w',
    POST session id now w = (Ok answer, w') /\
    (db w' = db w /\ (forall p, answer <> Success p) \/
     exists userId existingProperty apn regridData u,
       nonempty session = Some userId /\
       id <> "" /\
       getProperty id userId (db w) = Ok (Some existingProperty) /\
       nonempty (Db.apn existingProperty) = Some apn /\
       searchByAPN apn (nonempty (Db.state existingProperty)) (net w)
       = (Ok (Some regridData), net w') /\
       updatedPropertyData existingProperty regridData now = Ok u /\
       db w' = (updateProperty id userId u (db w)).2 /\
       answer
       = match (updateProperty id userId u (db w)).1 with
         | Ok p => Success p
         | Throw m =>
             Failure (if includes m "not found" then 404
                      else if includes m "Unauthorized" then 401 else 500) m
         end).
Proof.
  run_route.
  destruct (nonempty session) as [userId|] eqn:Hs; [|by eexists _, _; split; [|left]].
  destruct (String.eqb id "") eqn:Hid; [by eexists _, _; split; [|left]|].
  apply String.eqb_neq in Hid.
  destruct (getProperty id userId (db w)) as [[existing|]|m] eqn:Hget;
    try by (eexists _, _; split; [|left]).
  destruct (nonempty (Db.apn existing)) as [apn|] eqn:Hapn;
    [|by eexists _, _; split; [|left]].
  destruct (searchByAPN apn _ (net w)) as [[[regrid|]|m] n1] eqn:Hnet;
    cbn [fst snd db net]; try by (eexists _, _; split; [|left]).
  destruct (updatedPropertyData existing regrid now) as [u|m] eqn:Hu;
    cbn [fst snd db net]; [|by eexists _, _; split; [|left]].
  destruct (updateProperty id userId u (db w)) as [[p|m] d] eqn:Hup;
    cbn [fst snd db net].
  - eexists _, _. split; [done|]. right.
    exists userId, existing, apn, regrid, u. by rewrite Hup.
  - eexists _, _. split; [done|]. right.
    exists userId, existing, apn, regrid, u. by rewrite Hup.
Qed.

(** X14: the other refusals of the refresh.  Without a session it
    answers 401 and without an id 400, before it reads the store.  For a
    stored record with a parcel number: when the provider has no parcel it
    answers 404, and when the parcel number of the provider is truthy and not
    a string, 500 with the message of the type error, the store untouched in
    both cases.  An error of the store, in the read or in the update, is
    answered with its own message, with 404 when that contains "not found",
    else 401 when it contains "Unauthorized", else 500. *)
Theorem refresh_other_refusals (session : option string) (id now : string)
  (w : World DB Net) :
  let caught m : Response Db.Property :=
    Failure (if includes m "not found" then 404
             else if includes m "Unauthorized" then 401 else 500) m in
  (nonempty session = None ->
   POST session id now w = (Ok (Failure 401 "Unauthorized"), w)) /\
  (forall userId, nonempty session = Some userId ->
     (id = "" ->
      POST session id now w = (Ok (Failure 400 "Property ID is required"), w)) /\
     (id <> "" ->
      (forall m, getProperty id userId (db w) = Throw m ->
         POST session id now w = (Ok (caught m), w)) /\
      (forall p apn r n',
         getProperty id userId (db w) = Ok (Some p) ->
         nonempty (Db.apn p) = Some apn ->
         searchByAPN apn (nonempty (Db.state p)) (net w) = (Ok r, n') ->
         match r with
         | None =>
             POST session id now w
             = (Ok (Failure 404 "No updated data available for this property"),
                {| db := db w; net := n' |})
         | Some regridData =>
             match updatedPropertyData p regridData now with
             | Throw m =>
                 m = "apn.replace is not a function" /\
                 POST session id now w
                 = (Ok (Failure 500 m), {| db := db w; net := n' |})
             | Ok u =>
                 forall m d,
                   updateProperty id userId u (db w) = (Throw m, d) ->
                   POST session id now w
                   = (Ok (caught m), {| db := d; net := n' |})
             end
         end))).
Proof.
  intros caught. split.
  { intros Hs. run_route. by rewrite Hs. }
  intros userId Hs. split.
  { intros ->. run_route. by rewrite Hs. }
  intros Hid%String.eqb_neq. split.
  { intros m Hget. run_route. by rewrite Hs, Hid, Hget. }
  intros p apn r n' Hget Hapn Hnet. destruct r as [regridData|].
  - destruct (updatedPropertyData p regridData now) as [u|m] eqn:Hu.
    + intros m d Hup. run_route.
      by rewrite Hs, Hid, Hget, Hapn, Hnet; cbn [fst snd db net]; rewrite Hu, Hup.
    + assert (m = "apn.replace is not a function") as ->.
      { unfold updatedPropertyData in Hu.
        destruct (cleanAPN _) as [o|m'] eqn:Hc; [done|].
        cbn [mbind result_bind] in Hu. injection Hu as <-.
        unfold cleanAPN in Hc. destruct (negb _); [done|].
        by destruct (or_else _ _); simplify_eq. }
      split; [done|]. run_route.
      by rewrite Hs, Hid, Hget, Hapn, Hnet; cbn [fst snd db net]; rewrite Hu.
  - run_route. by rewrite Hs, Hid, Hget, Hapn, Hnet.
Qed.

End Route.

Lemma refresh_other_refusals_witness :
  POST (Some "u1") "2" "t1" refresh_world
  = (Ok (Failure 404 "No updated data available for this property"),
     refresh_world) /\
  POST (Some "u1") "0" "t1" refresh_world
  = (Ok (Failure 500 "apn.replace is not a function"), refresh_world) /\
  POST None "0" "t1" refresh_world
  = (Ok (Failure 401 "Unauthorized"), refresh_world).
Proof.
  assert ("2" <> "") as H2 by done.
  assert ("0" <> "") as H0 by done.
  split; [|split].
  - exact (proj2 (proj2 (proj2 (refresh_other_refusals (Some "u1") "2" "t1"
                                  refresh_world) "u1" eq_refl) H2)
             (row "2" (Some "down")) "down" None (net refresh_world)
             eq_refl eq_refl eq_refl).
  - exact (proj2 (proj2 (proj2 (proj2 (refresh_other_refusals (Some "u1") "0"
                                         "t1" refresh_world) "u1" eq_refl) H0)
                    alice_row "12-34"
                    (Some (answer_with (Num (Dec 1234 0)) Null))
                    (net refresh_world) eq_refl eq_refl eq_refl)).
  - exact (proj1 (refresh_other_refusals None "0" "t1" refresh_world) eq_refl).
Defined.

End RefreshMore.

(** ** Request validation *)

Module SchemaMore.

Import Schema MoreSpec.

Lemma pretty_N_go_nonempty (x : N) s : s <> "" -> pretty_N_go x s <> "".
Proof.
  revert s. induction (N.lt_wf_0 x) as [x _ IH]; intros s Hs.
  assert (x = 0 \/ 0 < x)%N as [->|Hx] by lia.
  - by rewrite pretty_N_go_0.
  - rewrite pretty_N_go_step by done. apply IH; [|done].
    by apply N.div_lt.
Qed.

Lemma pretty_N_nonempty (x : N) : pretty x <> "".
Proof.
  unfold pretty, pretty_N. destruct (decide (x = 0%N)); [done|].
  rewrite pretty_N_go_step by lia. by apply pretty_N_go_nonempty.
Qed.

Lemma append_nonempty_l a b : a <> "" -> a +:+ b <> "".
Proof. by destruct a. Qed.

Lemma append_nonempty_r a b : b <> "" -> a +:+ b <> "".
Proof. by destruct a. Qed.

Lemma number_to_string_nonempty n : number_to_string n <> "".
Proof.
  destruct n as [|negative|m e]; [done|by destruct negative|].
  unfold number_to_string. destruct (canonical m e) as [m' e'].
  destruct (m' =? 0); [done|].
  pose proof (pretty_N_nonempty (Z.abs_N m')) as Hs.
  cbv zeta.
  repeat match goal with
         | |- context [if ?c then _ else _] => destruct c
         end;
    repeat first [ done | by apply append_nonempty_l
                 | apply append_nonempty_r ].
Qed.

Lemma props_of_input i :
  let v := input_value i in
  prop v "regrid_id" = optional (regrid_id i) /\
  prop v "apn" = optional (apn i) /\
  prop v "address" = Str (address i) /\
  prop v "city" = optional (city i) /\
  prop v "state" = optional (state i) /\
  prop v "zip_code" = optional (zip_code i) /\
  prop v "user_notes" = optional (user_notes i) /\
  prop v "tags" = from_option (fun l => Arr (Str <$> l)) Undefined (tags i) /\
  prop v "insurance_provider" = optional (insurance_provider i) /\
  prop v "maintenance_history" = optional (maintenance_history i).
Proof.
  destruct i as [[r|] [a|] addr [c|] [s|] [z|] [u|] [t|] [ip|] [mh|]];
    by vm_compute.
Qed.

Lemma mapM_strings path (l : list string) :
  mapM (fun x => match x with Str s => Ok s | _ => invalid path end) (Str <$> l)
  = Ok l.
Proof.
  induction l as [|x l IH]; [done|]. cbn [fmap list_fmap mapM].
  cbn [mbind result_bind]. fold (list_fmap string value Str l).
  change (list_fmap string value Str l) with (Str <$> l).
  by rewrite IH.
Qed.

Lemma optional_string_optional path o :
  optional_string path (optional o) = Ok o.
Proof. by destruct o. Qed.

Ltac parse_step H :=
  match type of H with
  | mbind _ ?r = _ =>
      let E := fresh "E" in
      destruct r eqn:E; cbn [mbind result_bind] in H; [|discriminate H]
  end.

Lemma parse_well_formed body i :
  createPropertySchema_parse body = Ok i ->
  address i <> "" /\ regrid_id i <> Some "".
Proof.
  intros H. unfold createPropertySchema_parse in H.
  destruct body; try done. do 10 parse_step H. injection H as <-.
  cbn [address regrid_id]. split.
  - unfold nonempty_string in *. destruct (prop _ "address"); try done.
    destruct (String.eqb s "") eqn:Hs; [done|].
    apply String.eqb_neq in Hs. by simplify_eq.
  - unfold optional_id in *.
    destruct (prop _ "regrid_id") as [| | |n|s| |]; try done.
    + by simplify_eq.
    + destruct (is_nan n); [done|].
      destruct (truthy (Num n)); cbn in *; simplify_eq; [|done].
      intros [= H]. by apply (number_to_string_nonempty n).
    + destruct (truthy (Str s)) eqn:Hs; cbn in *; simplify_eq; [|done].
      intros [= ->]. done.
Qed.

Lemma reparse i :
  address i <> "" -> regrid_id i <> Some "" ->
  createPropertySchema_parse (input_value i) = Ok i.
Proof.
  intros Ha Hr. destruct (props_of_input i)
    as (H1 & H2 & H3 & H4 & H5 & H6 & H7 & H8 & H9 & H10).
  unfold createPropertySchema_parse. unfold input_value at 1. cbv beta iota.
  rewrite H1, H2, H3, H4, H5, H6, H7, H8, H9, H10.
  rewrite !optional_string_optional.
  assert (optional_id "regrid_id" (optional (regrid_id i)) = Ok (regrid_id i)) as ->.
  { destruct (regrid_id i) as [r|]; [|done]. cbn.
    destruct (String.eqb r "") eqn:Hr'; [|done].
    apply String.eqb_eq in Hr'. by subst. }
  assert (nonempty_string "address" (Str (address i)) = Ok (address i)) as ->.
  { cbn. apply String.eqb_neq in Ha. by rewrite Ha. }
  assert (optional_strings "tags"
            (from_option (fun l => Arr (Str <$> l)) Undefined (tags i))
          = Ok (tags i)) as ->.
  { destruct (tags i) as [l|]; [|done]. cbn [from_option optional_strings].
    by rewrite mapM_strings. }
  by destruct i.
Qed.

Lemma bulk_inputs_reparse body b :
  bulkCreateSchema_parse body = Ok b ->
  Forall (fun i => createPropertySchema_parse (input_value i) = Ok i /\
                   address i <> "")
    (properties b).
Proof.
  intros H. unfold bulkCreateSchema_parse in H.
  destruct body; try done. destruct (prop _ "properties"); try done.
  destruct (mapM createPropertySchema_parse items) as [l|] eqn:Hl; [|done].
  cbn [mbind result_bind] in H.
  destruct (optional_source _); [|done]. injection H as <-.
  cbn [properties]. revert l Hl.
  induction items as [|x items IH]; intros l; cbn [mapM].
  { intros [= <-]. constructor. }
  destruct (createPropertySchema_parse x) as [i|] eqn:Hx; [|done].
  cbn [mbind result_bind].
  destruct (mapM createPropertySchema_parse items) as [l'|]; [|done].
  cbn [mbind result_bind]. intros [= <-]. constructor; [|by apply IH].
  apply parse_well_formed in Hx as [Ha Hr]. split; [by apply reparse|done].
Qed.

(** X15: validation is idempotent: what the create schema returns for a
    body, taken as a body again, is returned unchanged.  So the second
    validation that the bulk handler runs on each input, after the bulk
    schema has accepted the body, never fails. *)
Theorem validation_is_idempotent (body : value) :
  (forall i, createPropertySchema_parse body = Ok i ->
     createPropertySchema_parse (input_value i) = Ok i) /\
  (forall b, bulkCreateSchema_parse body = Ok b ->
     Forall (fun i => createPropertySchema_parse (input_value i) = Ok i)
       (properties b)).
Proof.
  split.
  - intros i [Ha Hr]%parse_well_formed. by apply reparse.
  - intros b H. eapply Forall_impl; [exact (bulk_inputs_reparse body b H)|].
    by intros i [? _].
Qed.

Lemma validation_is_idempotent_witness :
  exists i,
    createPropertySchema_parse CreateSpec.jane_request = Ok i /\
    createPropertySchema_parse (input_value i) = Ok i.
Proof.
  assert (exists i, createPropertySchema_parse CreateSpec.jane_request = Ok i)
    as [i Hi] by (eexists; vm_compute; reflexivity).
  exists i. split; [exact Hi|].
  exact (proj1 (validation_is_idempotent CreateSpec.jane_request) i Hi).
Defined.

End SchemaMore.

(** ** Single and bulk create *)

Module CreateMore.

Import UserProperties MoreSpec CreateFacts BulkSpec BulkFacts SchemaMore.

Lemma truthy_or_null a : truthy (or_else a Null) = true \/ or_else a Null = Null.
Proof. unfold or_else. destruct (truthy a) eqn:H; auto. Qed.

Lemma nonempty_not_empty o : nonempty o <> Some "".
Proof.
  destruct o as [s|]; [|done]. cbn. destruct (String.eqb s "") eqn:H; [done|].
  apply String.eqb_neq in H. congruence.
Qed.

(** X16: whatever the input and the provider answer, every member of
    the create payload that is a JavaScript value is truthy or null, so
    undefined, the empty string, zero and NaN are never persisted, a latitude
    of zero becoming null; no optional text is the empty string; and the
    address is truthy when the address of the input is not empty. *)
Theorem create_payload_members (i : Schema.CreateInput)
  (regridData : option Regrid.RegridProperty) :
  Forall (fun v => truthy v = true \/ v = Null)
    (insert_values (propertyData i regridData)) /\
  Forall (fun o => o <> Some "") (insert_texts (propertyData i regridData)) /\
  (Schema.address i <> "" ->
   truthy (Db.i_address (propertyData i regridData)) = true).
Proof.
  split; [|split].
  - unfold insert_values, propertyData.
    cbn [Db.i_apn Db.i_city Db.i_state Db.i_zip_code Db.i_geometry Db.i_lat
         Db.i_lng Db.i_year_built Db.i_owner Db.i_last_sale_price Db.i_sale_date
         Db.i_county Db.i_qoz_status Db.i_improvement_value Db.i_land_value
         Db.i_assessed_value Db.i_property_data].
    repeat (constructor; [apply truthy_or_null|]). constructor.
  - unfold insert_texts, propertyData.
    cbn [Db.i_regrid_id Db.i_user_notes Db.i_insurance_provider
         Db.i_maintenance_history].
    repeat (constructor; [apply nonempty_not_empty|]). constructor.
  - intros Ha%String.eqb_neq. unfold propertyData. cbn [Db.i_address].
    unfold or_else. destruct (truthy (of_regrid _ _)) eqn:Ht; [done|].
    cbn. by rewrite Ha.
Qed.

Lemma create_payload_members_witness :
  Db.i_lat (propertyData
              {| Schema.regrid_id := None; Schema.apn := Some "12-34";
                 Schema.address := "123 Main St"; Schema.city := Some "";
                 Schema.state := None; Schema.zip_code := None;
                 Schema.user_notes := Some ""; Schema.tags := None;
                 Schema.insurance_provider := None;
                 Schema.maintenance_history := None |}
              (Some (RefreshSpec.answer_with (Str "") Null))) = Null /\
  truthy (Db.i_address
            (propertyData
               {| Schema.regrid_id := None; Schema.apn := Some "12-34";
                  Schema.address := "123 Main St"; Schema.city := Some "";
                  Schema.state := None; Schema.zip_code := None;
                  Schema.user_notes := Some ""; Schema.tags := None;
                  Schema.insurance_provider := None;
                  Schema.maintenance_history := None |}
               (Some (RefreshSpec.answer_with (Str "") Null)))) = true.
Proof.
  split; [reflexivity|].
  apply (create_payload_members _ (Some (RefreshSpec.answer_with (Str "") Null))).
  done.
Defined.

Section Create.

Context {DB Net : Type} {store : DatabaseService DB}
  {provider : RegridService Net} {unicode : Unicode}.

Local Abbreviation W := (World DB Net).

Lemma fetch_reads_no_store v (w w1 : W) r :
  fetchRegridData v w = (r, w1) -> db w1 = db w.
Proof.
  unfold fetchRegridData, lookupByAddress, bind, net_call, ret.
  destruct (nonempty (Schema.apn v)) as [apn|].
  { destruct (searchByAPN _ _ _). by intros [= _ <-]. }
  simpl. destruct (String.eqb _ _); simpl; [by intros [= _ <-]|].
  destruct (searchByAddress _ _ _ _ _) as [[[|first rest]|m] n1]; simpl;
    try by intros [= _ <-].
  destruct (getPropertyById _ _). by intros [= _ <-].
Qed.

Ltac run_create :=
  unfold handleSingleCreate, try_catch, bind, db_read, db_write, pure, ret, throw.

(** X17: how a single create fails.  A body the schema refuses and a
    provider lookup that throws make it throw that error as it is, with
    nothing written.  Every other error is thrown with the prefix "Database
    error: ", and then too the store is untouched, unless it is
    [createProperty] itself that threw or returned null. *)
Theorem single_create_failures (userId : string) (body : value) (w w' : W)
  (m : string) :
  handleSingleCreate userId body w = (Throw m, w') ->
  (Schema.createPropertySchema_parse body = Throw m /\ w' = w) \/
  (exists v,
     Schema.createPropertySchema_parse body = Ok v /\
     fetchRegridData v w = (Throw m, w') /\ db w' = db w) \/
  (exists v regridData w1 m',
     Schema.createPropertySchema_parse body = Ok v /\
     fetchRegridData v w = (Ok regridData, w1) /\
     m = "Database error: " +:+ m' /\
     net w' = net w1 /\
     (db w' = db w \/
      exists r,
        createProperty userId (propertyData v regridData) (db w) = (r, db w') /\
        (r = Throw m' \/ r = Ok None))).
Proof.
  run_create.
  destruct (Schema.createPropertySchema_parse body) as [v|m0]; [|by left; simplify_eq].
  destruct (fetchRegridData v w) as [[regridData|m0] w1] eqn:Hfetch.
  2:{ intros [= <- <-]. right. left. exists v. split; [done|]. split; [done|].
      by eapply fetch_reads_no_store. }
  pose proof (fetch_reads_no_store _ _ _ _ Hfetch) as Hdb.
  set (d := propertyData v regridData).
  intros H. right. right.
  destruct (truthy (Db.i_apn d)).
  - destruct (getFilteredProperties userId _ (db w1)) as [found|m0];
      cbn [fst snd] in H.
    2:{ injection H as <- <-. exists v, regridData, w1, m0. repeat split; try done. by left. }
    destruct (find_exact found (Db.i_apn d)) as [[q|]|m0]; cbn [fst snd] in H.
    + injection H as <- <-. eexists v, regridData, w1, _. repeat split; try done. by left.
    + destruct (createProperty userId d (db w1)) as [[[p|]|m0] d'] eqn:Hc;
        cbn [fst snd db net] in H; [done|..]; injection H as <- <-;
        eexists v, regridData, w1, _; (repeat split; try done); right; rewrite <- Hdb;
        eexists; (split; [exact Hc|]); auto.
    + injection H as <- <-. exists v, regridData, w1, m0. repeat split; try done. by left.
  - destruct (createProperty userId d (db w1)) as [[[p|]|m0] d'] eqn:Hc;
      cbn [fst snd db net] in H; [done|..]; injection H as <- <-;
      eexists v, regridData, w1, _; (repeat split; try done); right; rewrite <- Hdb;
      eexists; (split; [exact Hc|]); auto.
Qed.

Lemma lookup_phase_is_fetch (i : Schema.CreateInput) :
  Schema.address i <> "" ->
  match nonempty (Schema.apn i) with
  | Some apn => net_call (searchByAPN apn (Schema.state i))
  | None => lookupByAddress i
  end = fetchRegridData (DB := DB) i.
Proof.
  intros Ha%String.eqb_neq. unfold fetchRegridData.
  destruct (nonempty (Schema.apn i)); [done|]. cbn [truthy]. by rewrite Ha.
Qed.

(** What a bulk item does: the provider phase, whose failure counts as no
    parcel, then the one call of [createProperty]. *)
Lemma item_outcome userId i (w : W) :
  Schema.createPropertySchema_parse (Schema.input_value i) = Ok i ->
  Schema.address i <> "" ->
  createSinglePropertyFromInput userId i w
  = let '(r, w1) := fetchRegridData i w in
    db_write
      (createProperty userId
         (propertyData i match r with Ok found => found | Throw _ => None end))
      w1.
Proof.
  intros Hparse Ha. unfold createSinglePropertyFromInput, bind, pure, try_catch, ret.
  rewrite Hparse. rewrite (lookup_phase_is_fetch i Ha).
  by destruct (fetchRegridData i w) as [[r|m] w1].
Qed.

Lemma item_outcomes_lookup userId items (w : W) j x r :
  items !! j = Some x ->
  (item_outcomes userId items w).1 !! j = Some r ->
  exists wj wj', createSinglePropertyFromInput userId x wj = (r, wj').
Proof.
  revert w j. induction items as [|y items IH]; intros w j; [done|].
  cbn [item_outcomes].
  destruct (createSinglePropertyFromInput userId y w) as [r0 w1] eqn:Hy.
  specialize (IH w1). destruct (item_outcomes userId items w1) as [outs w2].
  destruct j as [|j]; cbn.
  - intros [= ->] [= ->]. by exists w, w1.
  - apply IH.
Qed.

(** X18: after the bulk schema has accepted the body, the only error an
    input can end with is an error of [createProperty]: each entry of the
    error list carries the message that [createProperty] threw for the
    payload of that input.  A provider failure is never in the list. *)
Theorem bulk_errors_come_from_the_store (userId : string) (body : value)
  (b : Schema.BulkInput) (w w' : W) (response : BulkResponse) :
  Schema.bulkCreateSchema_parse body = Ok b ->
  handleBulkCreate userId body w = (Ok response, w') ->
  forall e, e ∈ errors response ->
    input e ∈ Schema.properties b /\
    exists regridData d d',
      createProperty userId (propertyData (input e) regridData) d
      = (Throw (error e), d').
Proof.
  intros Hparse. pose proof (bulk_inputs_reparse body b Hparse) as Hvalid.
  unfold handleBulkCreate, bind, pure, ret. rewrite Hparse.
  rewrite bulk_loop_outcomes. intros [= <- <-] e.
  cbn [errors app]. intros (j & x & m & Hx & Hm & ->)%failures_elem.
  cbn [input error]. split; [by eapply list_elem_of_lookup_2|].
  destruct (item_outcomes_lookup _ _ _ _ _ _ Hx Hm) as (wj & wj' & Hitem).
  rewrite list.Forall_forall in Hvalid.
  destruct (Hvalid x) as [Hre Ha]; [by eapply list_elem_of_lookup_2|].
  rewrite (item_outcome userId x wj Hre Ha) in Hitem.
  destruct (fetchRegridData x wj) as [r w1]. unfold db_write in Hitem.
  destruct (createProperty userId _ (db w1)) as [r' d'] eqn:Hc.
  injection Hitem as -> _. by eexists _, _, _.
Qed.

(** X19: the same failure of the provider is fatal for a single create
    and harmless for a bulk item: the single create throws the provider's
    error and writes nothing, the bulk item goes on to [createProperty] with
    the payload made of the caller's data alone. *)
Theorem provider_failure_single_and_bulk (userId : string)
  (i : Schema.CreateInput) (w w1 : W) (m : string) :
  Schema.createPropertySchema_parse (Schema.input_value i) = Ok i ->
  Schema.address i <> "" ->
  fetchRegridData i w = (Throw m, w1) ->
  handleSingleCreate userId (Schema.input_value i) w = (Throw m, w1) /\
  db w1 = db w /\
  createSinglePropertyFromInput userId i w
  = db_write (createProperty userId (propertyData i None)) w1 /\
  Db.i_apn (propertyData i None) = or_else (optional (Schema.apn i)) Null /\
  Db.i_address (propertyData i None) = Str (Schema.address i) /\
  Db.i_property_data (propertyData i None) = Null.
Proof.
  intros Hparse Ha Hfetch. split; [|split; [|split]].
  - run_create. by rewrite Hparse, Hfetch.
  - by eapply fetch_reads_no_store.
  - by rewrite item_outcome, Hfetch.
  - done.
Qed.


End Create.

#[local] Existing Instance ascii_letters.

Lemma single_create_failures_witness :
  let body := Obj (Regrid.object_of [("apn", Str "628081041")]) in
  handleSingleCreate "u1" body CreateSpec.empty_world
  = (Throw "ZodError: invalid address", CreateSpec.empty_world) /\
  Schema.createPropertySchema_parse body = Throw "ZodError: invalid address".
Proof.
  intros body.
  assert (handleSingleCreate "u1" body CreateSpec.empty_world
          = (Throw "ZodError: invalid address", CreateSpec.empty_world)) as H
    by reflexivity.
  split; [exact H|].
  destruct (single_create_failures "u1" body _ _ _ H)
    as [[Hp _]|[(v & Hv & _)|(v & r & w1 & m' & Hv & _)]];
    [exact Hp | discriminate Hv | discriminate Hv].
Defined.

Lemma bulk_errors_come_from_the_store_witness :
  exists b response w',
    Schema.bulkCreateSchema_parse body_with_two_items = Ok b /\
    handleBulkCreate "u1" body_with_two_items two_parcel_world
    = (Ok response, w') /\
    error <$> errors response = ["invalid input for a column"] /\
    forall e, e ∈ errors response -> input e ∈ Schema.properties b.
Proof.
  assert (exists b, Schema.bulkCreateSchema_parse body_with_two_items = Ok b)
    as [b Hb] by (eexists; vm_compute; reflexivity).
  assert (exists response w',
            handleBulkCreate "u1" body_with_two_items two_parcel_world
            = (Ok response, w') /\
            error <$> errors response = ["invalid input for a column"])
    as (response & w' & H & He)
    by (eexists _, _; vm_compute; split; reflexivity).
  exists b, response, w'. split; [exact Hb|]. split; [exact H|].
  split; [exact He|]. intros e Hin.
  exact (proj1 (bulk_errors_come_from_the_store "u1" _ b _ _ response Hb H e Hin)).
Defined.

Lemma provider_failure_single_and_bulk_witness :
  handleSingleCreate "u1" (Schema.input_value (input_of "down" "9 Elm St"))
    RefreshSpec.alice_world
  = (Throw "Regrid API Error (500): unavailable", RefreshSpec.alice_world) /\
  createSinglePropertyFromInput "u1" (input_of "down" "9 Elm St")
    RefreshSpec.alice_world
  = db_write (createProperty "u1" (propertyData (input_of "down" "9 Elm St") None))
      RefreshSpec.alice_world.
Proof.
  assert (Schema.address (input_of "down" "9 Elm St") <> "") as Ha by done.
  assert (fetchRegridData (input_of "down" "9 Elm St") RefreshSpec.alice_world
          = (Throw "Regrid API Error (500): unavailable", RefreshSpec.alice_world))
    as Hfetch by reflexivity.
  destruct (provider_failure_single_and_bulk "u1" (input_of "down" "9 Elm St")
              RefreshSpec.alice_world RefreshSpec.alice_world
              "Regrid API Error (500): unavailable" eq_refl Ha Hfetch)
    as (Hsingle & _ & Hbulk & _).
  split; [exact Hsingle | exact Hbulk].
Defined.


End CreateMore.

(** ** The create route and the earlier single create *)

Module RouteMore.

Import UserProperties CreateRoute MoreSpec RefreshFacts.

Section Dispatch.

Context {DB Net : Type} {store : DatabaseService DB}
  {provider : RegridService Net} {unicode : Unicode}.

Local Abbreviation W := (World DB Net).

(** X21: the create route answers 401 without a session, and with the
    catch of the route when the body cannot be read or is null.  For any other
    body it hands over to the bulk handler when [properties] is an array and
    to the single handler otherwise, and what the handler throws is thrown by
    the route: the catch, with its 400 for validation errors, is not applied
    to it, so with a session and a body the route never answers an error
    status. *)
Theorem create_route_answers (session : option string) (json : result value)
  (w : W) :
  (nonempty session = None ->
   POST session json w = (Ok (Failure 401 "Unauthorized"), w)) /\
  (forall userId, nonempty session = Some userId ->
     match json with
     | Throw m => POST session json w = (Ok (failure m), w)
     | Ok body =>
         if nullish body then
           exists m, member body "properties" = Throw m /\
             POST session json w = (Ok (Failure 500 m), w)
         else
           POST session json w
           = (if isArray (prop body "properties")
              then let '(r, w') := handleBulkCreate userId body w in
                   ((fun b => Success (Bulk b)) <$> r, w')
              else let '(r, w') := handleSingleCreate userId body w in
                   ((fun p => Success (Single p)) <$> r, w')) /\
           forall status message w',
             POST session json w <> (Ok (Failure status message), w')
     end).
Proof.
  split.
  { intros Hs. unfold POST. by rewrite Hs. }
  intros userId Hs. unfold POST. rewrite Hs.
  destruct json as [body|m]; [|done]. cbn [mbind result_bind].
  destruct (nullish body) eqn:Hn.
  { destruct body; try done; (eexists; split; [reflexivity|done]). }
  rewrite NormalizeFacts.member_defined by done.
  cbn [mbind result_bind mret result_ret].
  assert (truthy (prop body "properties") && isArray (prop body "properties")
          = isArray (prop body "properties")) as ->.
  { destruct (prop body "properties"); cbn [isArray]; by rewrite ?andb_false_r. }
  unfold bind, ret.
  destruct (isArray (prop body "properties")).
  - destruct (handleBulkCreate userId body w) as [[r|m] w1]; by split.
  - destruct (handleSingleCreate userId body w) as [[r|m] w1]; by split.
Qed.

End Dispatch.

#[local] Existing Instance ascii_letters.

Lemma create_route_answers_witness :
  POST (Some "u1") (Ok (Obj (Regrid.object_of [("apn", Str "628081041")])))
    CreateSpec.empty_world
  = (Throw "ZodError: invalid address", CreateSpec.empty_world) /\
  POST (Some "u1") (Ok Null) CreateSpec.empty_world
  = (Ok (Failure 500 "Cannot read properties of null (reading 'properties')"),
     CreateSpec.empty_world).
Proof.
  split.
  - exact (proj1 (proj2 (create_route_answers (Some "u1")
                           (Ok (Obj (Regrid.object_of [("apn", Str "628081041")])))
                           CreateSpec.empty_world) "u1" eq_refl)).
  - destruct (proj2 (create_route_answers (Some "u1") (Ok Null)
                       CreateSpec.empty_world) "u1" eq_refl) as (m & Hm & H).
    injection Hm as <-. exact H.
Defined.

Section Earlier.

Context {DB Net : Type} {store : DatabaseService DB}
  {provider : RegridService Net}.

Local Abbreviation W := (World DB Net).

(** X22: in the earlier revision of the single create, a request that
    carries an id, a parcel number and an address makes no call to the
    provider and goes to [createProperty] with the caller's data alone,
    without a duplicate check; any other request has the provider phase of
    the later revision. *)
Theorem earlier_create_skips_provider (userId : string) (body : value)
  (v : Schema.CreateInput) (w : W) :
  Schema.createPropertySchema_parse body = Ok v ->
  (Schema.regrid_id v <> None -> nonempty (Schema.apn v) <> None ->
   exists a,
     Schema.apn v = Some a /\
     Db.i_apn (UserPropertiesV1.propertyData v None) = Str a /\
     Db.i_property_data (UserPropertiesV1.propertyData v None) = Null /\
     UserPropertiesV1.handleSingleCreate userId body w
     = (let '(r, d) :=
          createProperty userId (UserPropertiesV1.propertyData v None) (db w) in
        (match r with
         | Ok (Some p) => Ok p
         | Ok None =>
             Throw "Database error: Cannot read properties of null (reading 'id')"
         | Throw m => Throw ("Database error: " +:+ m)
         end,
         {| db := d; net := net w |}))) /\
  (Schema.regrid_id v = None \/ nonempty (Schema.apn v) = None ->
   UserPropertiesV1.fetchRegridData v w = fetchRegridData v w).
Proof.
  intros Hparse.
  destruct (SchemaMore.parse_well_formed _ _ Hparse) as [Ha Hr].
  apply String.eqb_neq in Ha. split.
  - intros Hid Hapn.
    destruct (Schema.regrid_id v) as [r|] eqn:Hrid; [|done].
    destruct (Schema.apn v) as [a|] eqn:Hv; [|done]. exists a.
    cbn [nonempty] in Hapn. destruct (String.eqb a "") eqn:Hne; [done|].
    assert (String.eqb r "" = false) as Hr'.
    { apply String.eqb_neq. congruence. }
    split; [done|]. split.
    { unfold UserPropertiesV1.propertyData. cbn [Db.i_apn of_regrid from_option].
      rewrite Hv. unfold or_else. cbn. by rewrite Hne. }
    split; [done|].
    unfold UserPropertiesV1.handleSingleCreate, UserPropertiesV1.fetchRegridData,
      try_catch, bind, db_write, pure, ret, throw.
    rewrite Hparse, Hrid, Hv. cbn [optional from_option truthy].
    rewrite Hr', Hne, Ha. cbn [negb andb].
    by destruct (createProperty userId _ (db w)) as [[[p|]|m] d].
  - intros H. unfold UserPropertiesV1.fetchRegridData, fetchRegridData.
    assert (truthy (optional (Schema.regrid_id v)) &&
            truthy (optional (Schema.apn v)) = false) as ->.
    { destruct H as [->|H]; [done|].
      destruct (Schema.apn v) as [a|]; [|by rewrite andb_false_r].
      cbn in *. destruct (String.eqb a ""); [|done]. by rewrite andb_false_r. }
    cbn [andb]. destruct (nonempty (Schema.apn v)); [done|].
    cbn [truthy]. by rewrite Ha.
Qed.

End Earlier.

Lemma earlier_create_skips_provider_witness :
  exists p w1,
    UserPropertiesV1.handleSingleCreate "u1"
      (Obj (Regrid.object_of [ ("regrid_id", Num (Dec 4711 0));
                               ("apn", Str "down");
                               ("address", Str "9 Elm St") ]))
      RefreshSpec.alice_world
    = (Ok p, w1) /\
    net w1 = net RefreshSpec.alice_world /\
    Db.apn p = Some "down" /\ Db.regrid_id p = Some "4711".
Proof.
  assert (exists v,
            Schema.createPropertySchema_parse
              (Obj (Regrid.object_of [ ("regrid_id", Num (Dec 4711 0));
                                       ("apn", Str "down");
                                       ("address", Str "9 Elm St") ]))
            = Ok v /\ Schema.regrid_id v = Some "4711" /\
            Schema.apn v = Some "down")
    as (v & Hv & Hid & Hapn) by (eexists; vm_compute; repeat split; reflexivity).
  assert (Schema.regrid_id v <> None) as H1 by (by rewrite Hid).
  assert (nonempty (Schema.apn v) <> None) as H2 by (by rewrite Hapn).
  destruct (proj1 (earlier_create_skips_provider "u1" _ v RefreshSpec.alice_world
                     Hv) H1 H2) as (a & _ & _ & _ & H).
  rewrite H. vm_compute in Hv. injection Hv as <-.
  eexists _, _. vm_compute. repeat split; reflexivity.
Defined.

End RouteMore.

(** ** The list route *)

Module ListMore.

Import ListProperties MoreSpec RefreshFacts.

Lemma split_not_nil sep s : split sep s <> [].
Proof.
  induction s as [|c s IH]; [done|]. cbn [split].
  destruct (Ascii.eqb c sep); [done|]. by destruct (split sep s).
Qed.

Lemma join_split sep s : join sep (split sep s) = s.
Proof.
  induction s as [|c s IH]; [done|]. cbn [split].
  destruct (Ascii.eqb c sep) eqn:Hc.
  - apply Ascii.eqb_eq in Hc as ->. pose proof (split_not_nil sep s) as Hne.
    cbn [join]. destruct (split sep s) as [|piece pieces]; [done|].
    cbn [String.append]. by rewrite IH.
  - pose proof (split_not_nil sep s) as Hne.
    destruct (split sep s) as [|piece pieces]; [done|].
    rewrite <- IH. cbn [join]. by destruct pieces.
Qed.

Lemma split_pieces sep s :
  Forall (fun piece => includes piece (String sep "") = false) (split sep s).
Proof.
  induction s as [|c s IH]; cbn [split].
  { by repeat constructor. }
  destruct (Ascii.eqb c sep) eqn:Hc.
  { by constructor. }
  destruct (split sep s) as [|piece pieces]; inversion IH; subst.
  - repeat constructor. rewrite includes_cons. rewrite Ascii.eqb_sym, Hc. done.
  - constructor; [|done]. rewrite includes_cons. by rewrite Ascii.eqb_sym, Hc.
Qed.

Section Route.

Context {DB Net : Type} {store : DatabaseService DB}.

(** X23: the list route never throws and never writes: it answers 401
    without a session, 500 with a fixed message when the store throws, and
    what the store returns otherwise.  In the filter it passes, the city, the
    state and the search term are absent rather than empty; the tags are the
    pieces of the parameter between commas that are not empty, in order, none
    containing a comma; joining the pieces of the parameter with commas gives
    the parameter back; and a parameter without any tag still sets the filter,
    to no tags. *)
Theorem list_route_filters (session city state tags search : option string)
  (w : World DB Net) :
  GET session city state tags search w
  = (Ok match nonempty session with
        | None => Failure 401 "Unauthorized"
        | Some userId =>
            match getFilteredProperties userId
                    (filters_of city state tags search) (db w) with
            | Ok properties => Success properties
            | Throw _ => Failure 500 "Failed to get properties"
            end
        end, w) /\
  Db.f_city (filters_of city state tags search) <> Some "" /\
  Db.f_state (filters_of city state tags search) <> Some "" /\
  Db.f_search (filters_of city state tags search) <> Some (Str "") /\
  match tags with
  | None => Db.f_tags (filters_of city state tags search) = None
  | Some t =>
      join "," (split "," t) = t /\
      Db.f_tags (filters_of city state tags search)
      = Some (List.filter (fun piece => negb (String.eqb piece ""))
                (split "," t)) /\
      forall tag,
        tag ∈ List.filter (fun piece => negb (String.eqb piece "")) (split "," t) ->
        tag <> "" /\ includes tag "," = false
  end.
Proof.
  split; [|split; [|split; [|split]]].
  - unfold GET, try_catch, bind, db_read, ret.
    destruct (nonempty session) as [userId|]; [|done].
    by destruct (getFilteredProperties userId _ (db w)).
  - apply CreateMore.nonempty_not_empty.
  - apply CreateMore.nonempty_not_empty.
  - cbn [filters_of Db.f_search]. destruct (nonempty search) as [q|] eqn:Hq; [|done].
    cbn. intros [= ->]. by apply (CreateMore.nonempty_not_empty search).
  - destruct tags as [t|]; [|done]. split; [apply join_split|]. split; [done|].
    intros tag [Hin Ht]%list_elem_of_In%filter_In. split.
    + intros ->. done.
    + pose proof (split_pieces "," t) as Hall.
      rewrite List.Forall_forall in Hall. by apply Hall.
Qed.

End Route.

Lemma list_route_filters_witness :
  "retail" <> "" /\ includes "retail" "," = false.
Proof.
  assert ("retail" ∈ List.filter (fun piece => negb (String.eqb piece ""))
                       (split "," "retail,,office,")) as Hin.
  { vm_compute. set_solver. }
  exact (proj2 (proj2 (proj2 (proj2 (proj2 (proj2
           (list_route_filters (Some "u1") None None (Some "retail,,office,")
              None RefreshSpec.alice_world))))))
           "retail" Hin).
Defined.

Example tags_of_parameters :
  tags_of (Some "retail,,office,") = Some ["retail"; "office"] /\
  tags_of (Some ",") = Some [] /\ tags_of (Some "") = Some [] /\
  tags_of None = None.
Proof. by vm_compute. Qed.

End ListMore.

(** ** Requests to the provider *)

Module FetchMore.

Import MoreSpec.

Section Client.

Context {Net : Type} {network : Fetch Net}.

Lemma makeRequest_without_key endpoint params (n : Net) :
  truthy REGRID_API_KEY = false ->
  FetchClient.makeRequest endpoint params n
  = (Throw "Regrid API key is not configured", n).
Proof. intros H. unfold FetchClient.makeRequest. by rewrite H. Qed.


Local Abbreviation client := (client_service (http := FetchClient.provider)).

(** X25: without a configured key no request leaves the process: each
    of the three lookups throws the configuration error and the network is
    untouched; so the detail route answers 500 and the refresh of a stored
    record with a parcel number answers 503, its store untouched. *)
Theorem lookups_without_key :
  truthy REGRID_API_KEY = false ->
  let configuration := "Regrid API key is not configured" in
  (forall apn state (n : Net),
     searchByAPN (RegridService := client) apn state n
     = (Throw configuration, n)) /\
  (forall address city state limit (n : Net),
     searchByAddress (RegridService := client) address city state limit n
     = (Throw configuration, n)) /\
  (forall id (n : Net),
     getPropertyById (RegridService := client) id n = (Throw configuration, n)) /\
  (forall session userId id (n : Net),
     nonempty session = Some userId -> id <> "" ->
     PropertyDetail.GET (provider := client) session id n
     = (Failure 500 "Failed to get property details", n)) /\
  (forall DB (store : DatabaseService DB) session userId id now p apn
     (w : World DB Net),
     nonempty session = Some userId -> id <> "" ->
     getProperty id userId (db w) = Ok (Some p) ->
     nonempty (Db.apn p) = Some apn ->
     Refresh.POST (provider := client) session id now w
     = (Ok (Failure 503 "Failed to fetch updated property data from Regrid API"),
        w)).
Proof.
  intros Hkey configuration.
  assert (Hapn : forall apn state (n : Net),
            searchByAPN (RegridService := client) apn state n
            = (Throw configuration, n)).
  { intros. cbn [searchByAPN client_service]. unfold RegridClient.searchByAPN.
    cbn [makeRequest FetchClient.provider].
    by rewrite makeRequest_without_key. }
  assert (Hid : forall id (n : Net),
            getPropertyById (RegridService := client) id n
            = (Throw configuration, n)).
  { intros. cbn [getPropertyById client_service]. unfold RegridClient.getPropertyById.
    cbn [makeRequest FetchClient.provider].
    by rewrite makeRequest_without_key. }
  split; [exact Hapn|]. split; [|split; [exact Hid|split]].
  - intros. cbn [searchByAddress client_service]. unfold RegridClient.searchByAddress.
    cbn [makeRequest FetchClient.provider].
    by rewrite makeRequest_without_key.
  - intros session userId id n Hs Hne%String.eqb_neq.
    unfold PropertyDetail.GET. by rewrite Hs, Hne, Hid.
  - intros DB store session userId id now p apn w Hs Hne%String.eqb_neq Hget Hp.
    unfold Refresh.POST, Refresh.fetchFresh, try_catch, bind, db_read, net_call, ret.
    rewrite Hs, Hne, Hget, Hp, Hapn. by destruct w.
Qed.

End Client.


Lemma lookups_without_key_witness :
  searchByAPN (RegridService := client_service (http := FetchClient.provider (network := no_key)))
    "12-34" None tt
  = (Throw "Regrid API key is not configured", tt).
Proof.
  exact (proj1 (lookups_without_key (network := no_key) eq_refl) "12-34" None tt).
Defined.

End FetchMore.

(** ** The CSV upload *)

Module UploadMore.

Import Upload MoreSpec.

Lemma prefix_append a b s :
  String.prefix (a +:+ b) s = true -> String.prefix a s = true.
Proof.
  revert s. induction a as [|c a IH]; intros s; [by destruct s|].
  destruct s as [|d s]; [done|]. simpl.
  destruct (ascii_dec c d); [apply IH|done].
Qed.

Lemma includes_append s a b :
  includes s (a +:+ b) = true -> includes s a = true.
Proof.
  induction s as [|c s IH]; cbn [includes].
  - rewrite !orb_false_r. apply prefix_append.
  - intros [H|H]%orb_true_iff; apply orb_true_iff.
    + left. by apply prefix_append in H.
    + right. by apply IH.
Qed.

(** Of the eight tests on a header, the first two decide. *)
Lemma names_apn_decided h :
  names_apn h = includes h "apn" || includes h "parcel".
Proof.
  unfold names_apn.
  destruct (includes h "apn") eqn:Hapn; [done|].
  destruct (includes h "parcel") eqn:Hparcel; [done|]. cbn [orb].
  assert (includes h "parcelnumber" = false) as ->.
  { destruct (includes h "parcelnumber") eqn:H; [|done].
    apply (includes_append h "parcel" "number") in H. congruence. }
  assert (includes h "parcel_number" = false) as ->.
  { destruct (includes h "parcel_number") eqn:H; [|done].
    apply (includes_append h "parcel" "_number") in H. congruence. }
  cbn [orb].
  destruct (String.eqb h "apn") eqn:H1.
  { apply String.eqb_eq in H1. subst. done. }
  destruct (String.eqb h "parcel") eqn:H2.
  { apply String.eqb_eq in H2. subst. done. }
  destruct (String.eqb h "parcelnumber") eqn:H3.
  { apply String.eqb_eq in H3. subst. done. }
  destruct (String.eqb h "parcel_number") eqn:H4.
  { apply String.eqb_eq in H4. subst. done. }
  done.
Qed.

Lemma existsb_find {A} (f : A -> bool) (l : list A) :
  existsb f l = true <-> exists x, List.find f l = Some x.
Proof.
  induction l as [|x l IH]; cbn.
  - split; [done|by intros [? ?]].
  - destruct (f x); [by split; [eexists|]|]. exact IH.
Qed.

Lemma existsb_fmap {A B} (f : B -> bool) (g : A -> B) (l : list A) :
  existsb f (g <$> l) = existsb (fun x => f (g x)) l.
Proof. induction l as [|x l IH]; [done|]. cbn. by rewrite IH. Qed.

Lemma filter_none {A} (f : A -> bool) (l : list A) :
  length (List.filter f l) = 0%nat <-> Forall (fun x => f x = false) l.
Proof.
  induction l as [|x l IH]; cbn.
  - split; [constructor|done].
  - destruct (f x) eqn:Hx; cbn.
    + split; [done|]. intros H. inversion H; congruence.
    + rewrite IH. split; [by constructor|]. intros H. by inversion H.
Qed.

Lemma strip_length backwards cs :
  (length (strip backwards cs) <= length cs)%nat.
Proof.
  induction cs as [cs IH] using (induction_ltof1 _ (@length ascii)).
  unfold ltof in IH. destruct cs as [|a r]; [done|]. cbn [strip].
  destruct (space1 a). { pose proof (IH r). cbn [length] in *. lia. }
  destruct r as [|b r2]; [done|].
  destruct (if backwards then space2 b a else space2 a b).
  { pose proof (IH r2). cbn [length] in *. lia. }
  destruct r2 as [|c r3]; [done|].
  destruct (if backwards then space3 c b a else space3 a b c); [|done].
  pose proof (IH r3). cbn [length] in *. lia.
Qed.

Ltac too_short H backwards l :=
  exfalso;
  match type of H with
  | _ = ?whole =>
      let E := fresh "E" in
      assert (E : length (strip backwards l) = length whole)
        by (f_equal; exact H);
      pose proof (strip_length backwards l);
      cbn [length] in *; lia
  end.

(** What [strip] returns does not begin with white space, so that [strip]
    returns it as it is; and so for every part of it that it begins with. *)
Lemma strip_idempotent backwards cs :
  strip backwards (strip backwards cs) = strip backwards cs.
Proof.
  induction cs as [cs IH] using (induction_ltof1 _ (@length ascii)).
  unfold ltof in IH. destruct cs as [|a r]; [done|]. cbn [strip].
  destruct (space1 a) eqn:H1. { apply IH. cbn [length]. lia. }
  destruct r as [|b r2]. { cbn [strip]. by rewrite H1. }
  destruct (if backwards then space2 b a else space2 a b) eqn:H2.
  { apply IH. cbn [length]. lia. }
  destruct r2 as [|c r3]. { cbn [strip]. by rewrite H1, H2. }
  destruct (if backwards then space3 c b a else space3 a b c) eqn:H3.
  { apply IH. cbn [length]. lia. }
  cbn [strip]. by rewrite H1, H2, H3.
Qed.

Lemma strip_suffix backwards cs :
  exists spaces, cs = spaces ++ strip backwards cs.
Proof.
  induction cs as [cs IH] using (induction_ltof1 _ (@length ascii)).
  unfold ltof in IH. destruct cs as [|a r]; [by exists []|]. cbn [strip].
  destruct (space1 a).
  { destruct (IH r) as [spaces Hr]; [cbn [length]; lia|].
    exists (a :: spaces). cbn [app]. by rewrite <- Hr. }
  destruct r as [|b r2]; [by exists []|].
  destruct (if backwards then space2 b a else space2 a b).
  { destruct (IH r2) as [spaces Hr]; [cbn [length]; lia|].
    exists (a :: b :: spaces). cbn [app]. by rewrite <- Hr. }
  destruct r2 as [|c r3]; [by exists []|].
  destruct (if backwards then space3 c b a else space3 a b c); [|by exists []].
  destruct (IH r3) as [spaces Hr]; [cbn [length]; lia|].
  exists (a :: b :: c :: spaces). cbn [app]. by rewrite <- Hr.
Qed.

Lemma strip_prefix_fixed backwards p t :
  strip backwards (p ++ t) = p ++ t -> strip backwards p = p.
Proof.
  intros H. destruct p as [|a [|b [|c p]]]; [done|..]; cbn [app strip] in *.
  - destruct (space1 a); [too_short H backwards t|done].
  - destruct (space1 a); [too_short H backwards (b :: t)|].
    destruct (if backwards then space2 b a else space2 a b);
      [too_short H backwards t|done].
  - destruct (space1 a); [too_short H backwards (b :: c :: p ++ t)|].
    destruct (if backwards then space2 b a else space2 a b);
      [too_short H backwards (c :: p ++ t)|].
    destruct (if backwards then space3 c b a else space3 a b c);
      [too_short H backwards (p ++ t)|done].
Qed.

(** The bytes [trim] keeps begin and end with one that is not white
    space, so that [trim] keeps them all. *)
Lemma trim_idempotent s : trim (trim s) = trim s.
Proof.
  unfold trim, trim_end, trim_start.
  rewrite String.list_ascii_of_string_of_list_ascii.
  set (X := strip false (String.list_ascii_of_string s)).
  set (Y := strip true (reverse X)).
  assert (HX : strip false X = X) by apply strip_idempotent.
  assert (HY : strip true Y = Y) by apply strip_idempotent.
  destruct (strip_suffix true (reverse X)) as [spaces Hsp]. fold Y in Hsp.
  assert (HXeq : X = reverse Y ++ reverse spaces).
  { rewrite <- reverse_app, <- Hsp. by rewrite reverse_involutive. }
  rewrite HXeq in HX. apply strip_prefix_fixed in HX.
  by rewrite HX, reverse_involutive, HY.
Qed.

Lemma find_same {A} (f g : A -> bool) (l : list A) :
  (forall x, f x = g x) -> List.find f l = List.find g l.
Proof.
  intros H. induction l as [|x l IH]; [done|]. cbn. by rewrite H, IH.
Qed.

Section Rows.

Context {unicode : Unicode}.

(** X26: the validation of the first rows accepts the file exactly when
    there is a row, the first row has a column whose name in lower case
    contains "apn" or "parcel", and in the first such column every row has a
    value that is truthy and, as a string, not white space only; the other
    six tests on the name of a column add nothing. *)
Theorem validate_accepts (data : list Row) :
  (forall h, names_apn h = includes h "apn" || includes h "parcel") /\
  (isValid (validate data) = true <->
   exists first rest key,
     data = first :: rest /\
     List.find (fun key => names_apn (toLowerCase key)) first.*1 = Some key /\
     Forall (fun row =>
               truthy (cell row (Str key)) = true /\
               trim (to_string (cell row (Str key))) <> "")
       data).
Proof.
  split; [apply names_apn_decided|].
  destruct data as [|first rest].
  { split; [done|]. by intros (? & ? & ? & ? & _). }
  unfold validate. rewrite existsb_fmap.
  destruct (existsb _ first.*1) eqn:Hsome.
  - apply existsb_find in Hsome as [key Hkey].
    unfold apnKey. rewrite Hkey. cbn [from_option].
    set (empty := List.filter (empty_apn (Str key)) (first :: rest)).
    assert (Hall : length empty = 0%nat <->
              Forall (fun row =>
                        truthy (cell row (Str key)) = true /\
                        trim (to_string (cell row (Str key))) <> "")
                (first :: rest)).
    { unfold empty. rewrite filter_none. apply Forall_iff. intros row.
      unfold empty_apn. destruct (truthy (cell row (Str key))); cbn [negb orb].
      - rewrite String.eqb_neq. naive_solver.
      - naive_solver. }
    destruct (0 <? length empty)%nat eqn:Hlen.
    + apply Nat.ltb_lt in Hlen. cbn [isValid app length Nat.eqb]. split; [done|].
      intros (f & r & k & [= <- <-] & Hk & HF). simplify_eq.
      apply Hall in HF. lia.
    + apply Nat.ltb_ge in Hlen. cbn [isValid length Nat.eqb]. split; [|done].
      intros _. exists first, rest, key. split; [done|]. split; [done|].
      apply Hall. lia.
  - cbn [isValid length Nat.eqb]. split; [done|].
    intros (f & r & k & [= <- <-] & Hk & _).
    assert (existsb (fun x => names_apn (toLowerCase x)) first.*1 = true) as H.
    { apply existsb_find. by exists k. }
    congruence.
Qed.

(** X27: every row becomes a property, whatever it holds.  Its parcel
    number is the value of the first column whose name in lower case contains
    "apn" or "parcel", as a string without the white space at its ends, which
    trimming again does not change; its address is "Property " followed by
    that value as it was.  A row without such a column, or without a value in
    it, becomes the property with the parcel number "undefined". *)
Theorem property_of_row (row : Row) :
  trim (apn (property_of row)) = apn (property_of row) /\
  address (property_of row) = "Property " +:+ to_string (cell row (apnKey row)) /\
  (forall key,
     List.find (fun key => includes (toLowerCase key) "apn"
                           || includes (toLowerCase key) "parcel") row.*1
     = Some key ->
     apn (property_of row) = trim (to_string (cell row (Str key)))) /\
  (cell row (apnKey row) = Undefined ->
   property_of row = {| apn := "undefined"; address := "Property undefined" |}).
Proof.
  split; [apply trim_idempotent|]. split; [done|]. split.
  - intros key Hkey. unfold property_of, apnKey. cbn [apn].
    rewrite (find_same _ (fun key => includes (toLowerCase key) "apn"
                                     || includes (toLowerCase key) "parcel")).
    + by rewrite Hkey.
    + intros k. apply names_apn_decided.
  - intros Hcell. unfold property_of. by rewrite Hcell.
Qed.

End Rows.

Section Upload.

Context {S : Type} {backend : Backend S} {unicode : Unicode}.

Lemma duplicateChecks_length index properties (s : S) :
  length (duplicateChecks index properties s).1 = length properties.
Proof.
  revert index s. induction properties as [|p rest IH]; intros index s; [done|].
  cbn [duplicateChecks]. destruct (check index p s) as [c s1].
  specialize (IH (Datatypes.S index) s1).
  destruct (duplicateChecks (Datatypes.S index) rest s1). cbn [fst length] in *.
  by rewrite IH.
Qed.

Lemma uniqueProperties_kept index properties (checks : list Check) :
  length (drop index checks) = length properties ->
  uniqueProperties index properties checks
  = Ok (omap (fun pc : Property * Check =>
                if isDuplicate pc.2 then None else Some pc.1)
          (zip properties (drop index checks))).
Proof.
  revert index. induction properties as [|p rest IH]; intros index Hlen; [done|].
  cbn [uniqueProperties].
  destruct (checks !! index) as [c|] eqn:Hc.
  2:{ apply lookup_ge_None in Hc. rewrite length_drop in Hlen.
      cbn [length] in Hlen. lia. }
  rewrite (drop_S _ _ _ Hc) in Hlen |- *. cbn [length] in Hlen.
  rewrite IH by lia. cbn [mbind result_bind mret result_ret zip zip_with omap list_omap fst snd].
  by destruct (isDuplicate c).
Qed.

Lemma kept_and_duplicates (properties : list Property) (checks : list Check) :
  length checks = length properties ->
  (length (omap (fun pc : Property * Check =>
                   if isDuplicate pc.2 then None else Some pc.1)
             (zip properties checks))
   + length (List.filter isDuplicate checks) = length properties)%nat.
Proof.
  revert checks. induction properties as [|p rest IH]; intros [|c checks]; try done.
  intros [= Hlen]. specialize (IH checks Hlen).
  cbn [zip zip_with omap list_omap List.filter fst snd].
  destruct (isDuplicate c); cbn [length]; lia.
Qed.

Lemma upload_loop_done fuel i unique results errors (s : S) :
  (length unique <= i)%nat ->
  upload_loop fuel i unique results errors s = Some ((results, errors), s).
Proof.
  intros H%Nat.ltb_ge. destruct fuel; cbn [upload_loop]; by rewrite H.
Qed.

Lemma upload_loop_batches fuel i unique results errors (s : S) :
  (length unique - i <= fuel)%nat ->
  exists batches,
    concat batches = drop i unique /\
    Forall (fun batch => (0 < length batch <= batchSize)%nat) batches /\
    (forall j batch,
       batches !! j = Some batch -> (Datatypes.S j < length batches)%nat ->
       length batch = batchSize) /\
    upload_loop fuel i unique results errors s
    = Some (upload_batches batches results errors s).
Proof.
  revert i results errors s.
  induction fuel as [|fuel IH]; intros i results errors s Hfuel.
  { exists []. rewrite upload_loop_done by lia.
    rewrite drop_ge by lia. by repeat split. }
  destruct (decide (length unique <= i)%nat) as [Hi|Hi].
  { exists []. rewrite upload_loop_done by lia.
    rewrite drop_ge by lia. by repeat split. }
  cbn [upload_loop]. rewrite (proj2 (Nat.ltb_lt _ _)) by lia.
  set (batch := take batchSize (drop i unique)).
  destruct (upload_batch batch results errors s) as [[results' errors'] s'] eqn:Hb.
  destruct (IH (i + batchSize)%nat results' errors' s') as (batches & Hcat & Hall & Hfull & Hloop).
  { unfold batchSize. lia. }
  assert (Hlen : length batch = Nat.min batchSize (length unique - i)).
  { unfold batch. by rewrite length_take, length_drop. }
  exists (batch :: batches). split; [|split; [|split]].
  - cbn [concat]. rewrite Hcat. unfold batch.
    rewrite <- (drop_drop unique batchSize i). apply take_drop.
  - constructor; [|done]. unfold batchSize in *. lia.
  - intros [|j] b; cbn.
    + intros [= Heq] Hmore. subst b. change (length batch = batchSize).
      rewrite Hlen.
      destruct batches as [|b' batches]; [cbn in Hmore; lia|].
      assert (length (drop (i + batchSize) unique) <> 0%nat) as Hrest.
      { rewrite <- Hcat. cbn [concat]. rewrite length_app.
        inversion Hall; subst. lia. }
      rewrite length_drop in Hrest. unfold batchSize in *. lia.
    + intros Hb' Hmore. apply (Hfull j b Hb'). lia.
  - cbn [upload_batches]. by rewrite Hb.
Qed.

Lemma batch_failed_length batch message :
  length (batch_failed batch message) = length batch.
Proof. unfold batch_failed. by rewrite length_fmap. Qed.

Lemma upload_batch_counts batch results errors (s : S) :
  accounts_for_batches ->
  (length (upload_batch batch results errors s).1.1
   + length (upload_batch batch results errors s).1.2
   = length results + length errors + length batch)%nat.
Proof.
  intros Hserver. unfold upload_batch.
  destruct (post_properties batch s) as [[[[] result]|m] s'] eqn:Hpost;
    cbn [fst snd].
  - destruct (Hserver _ _ _ _ Hpost) as (created & errs & Hn & Hc & He & Hlen).
    rewrite !NormalizeFacts.member_defined by done.
    cbn [mbind result_bind]. rewrite Hc, He. cbn [spread_arguments fst snd].
    rewrite !length_app, length_fmap. lia.
  - destruct (member result "error"); cbn [fst snd];
      rewrite length_app, batch_failed_length; lia.
  - rewrite length_app, batch_failed_length. lia.
Qed.

Lemma upload_batches_counts batches results errors (s : S) :
  accounts_for_batches ->
  (length (upload_batches batches results errors s).1.1
   + length (upload_batches batches results errors s).1.2
   = length results + length errors + length (concat batches))%nat.
Proof.
  intros Hserver. revert results errors s.
  induction batches as [|batch batches IH]; intros results errors s.
  { cbn. lia. }
  cbn [upload_batches concat].
  pose proof (upload_batch_counts batch results errors s Hserver) as Hb.
  destruct (upload_batch batch results errors s) as [[results' errors'] s'].
  cbn [fst snd] in Hb. rewrite IH, length_app. lia.
Qed.

(** The errors that the upload starts with: one for each duplicate. *)
Lemma upload_batches_keeps batches results errors (s : S) :
  exists more_results more_errors,
    (upload_batches batches results errors s).1
    = (results ++ more_results, errors ++ more_errors).
Proof.
  revert results errors s.
  induction batches as [|batch batches IH]; intros results errors s.
  { exists [], []. cbn. by rewrite !app_nil_r. }
  cbn [upload_batches].
  assert (exists r e, (upload_batch batch results errors s).1
                      = (results ++ r, errors ++ e)) as (r & e & Hb).
  { unfold upload_batch.
    destruct (post_properties batch s) as [[[[] result]|m] s']; cbn [fst].
    - destruct (_ ← member result "created"; _) as [created|m]; [|by eexists [], _; rewrite app_nil_r].
      destruct (_ ← member result "errors"; _); by eexists _, _.
    - destruct (member result "error"); by eexists [], _; rewrite app_nil_r.
    - by eexists [], _; rewrite app_nil_r. }
  destruct (upload_batch batch results errors s) as [[results' errors'] s'].
  cbn [fst] in Hb. injection Hb as -> ->.
  destruct (IH (results ++ r) (errors ++ e) s') as (r' & e' & H).
  exists (r ++ r'), (e ++ e'). by rewrite H, !app_assoc.
Qed.

(** What the callback does, in terms of the batches. *)
Lemma complete_runs (data : list Row) (s : S) :
  let properties := property_of <$> data in
  let checks := (duplicateChecks 0 properties s).1 in
  let unique :=
    omap (fun pc : Property * Check =>
            if isDuplicate pc.2 then None else Some pc.1)
      (zip properties checks) in
  let duplicates :=
    (fun dup =>
       duplicate (checked dup)
         ("APN " +:+ checked dup +:+ " already exists in your portfolio"))
      <$> List.filter isDuplicate checks in
  exists batches,
    concat batches = unique /\
    Forall (fun batch => (0 < length batch <= batchSize)%nat) batches /\
    (forall j batch,
       batches !! j = Some batch -> (Datatypes.S j < length batches)%nat ->
       length batch = batchSize) /\
    complete data s
    = let '((results, errors), s') :=
        upload_batches batches [] duplicates (duplicateChecks 0 properties s).2 in
      Some (Ok {| total := length data;
                  successful := length results;
                  failed := length errors;
                  results := results;
                  upload_errors := errors |}, s').
Proof.
  intros properties checks unique duplicates.
  assert (Hchecks : length checks = length properties)
    by apply duplicateChecks_length.
  assert (Hdata : length properties = length data).
  { unfold properties. by rewrite length_fmap. }
  unfold complete. fold properties.
  destruct (duplicateChecks 0 properties s) as [checks' s1] eqn:Hdup.
  cbn [fst snd] in *. subst checks.
  rewrite uniqueProperties_kept by (by rewrite drop_0).
  rewrite drop_0. fold unique. fold duplicates.
  destruct (upload_loop_batches (length unique) 0 unique [] duplicates s1)
    as (batches & Hcat & Hall & Hfull & Hloop); [lia|].
  rewrite drop_0 in Hcat. exists batches. repeat (split; [done|]).
  rewrite Hloop.
  destruct (upload_batches batches [] duplicates s1) as [[results errors] s2].
  by rewrite Hdata.
Qed.

(** X28: the upload callback always ends and never rejects.  Every row
    becomes one property and gets one duplicate check; the properties whose
    check reported no duplicate are posted, each exactly once and in their
    order, in batches of five, the last one possibly smaller; and the summary
    has the number of rows as its total and begins its errors with one entry
    for each duplicate. *)
Theorem upload_posts_each_property_once (data : list Row) (s : S) :
  let properties := property_of <$> data in
  let checks := (duplicateChecks 0 properties s).1 in
  let unique :=
    omap (fun pc : Property * Check =>
            if isDuplicate pc.2 then None else Some pc.1)
      (zip properties checks) in
  let duplicates :=
    (fun dup =>
       duplicate (checked dup)
         ("APN " +:+ checked dup +:+ " already exists in your portfolio"))
      <$> List.filter isDuplicate checks in
  length checks = length data /\
  (length unique + length duplicates = length data)%nat /\
  exists batches,
    concat batches = unique /\
    Forall (fun batch => (0 < length batch <= batchSize)%nat) batches /\
    (forall j batch,
       batches !! j = Some batch -> (Datatypes.S j < length batches)%nat ->
       length batch = batchSize) /\
    exists results reported_errors s',
      upload_batches batches [] duplicates (duplicateChecks 0 properties s).2
      = ((results, duplicates ++ reported_errors), s') /\
      complete data s
      = Some (Ok {| total := length data;
                    successful := length results;
                    failed := length (duplicates ++ reported_errors);
                    results := results;
                    upload_errors := duplicates ++ reported_errors |}, s').
Proof.
  intros properties checks unique duplicates.
  assert (Hchecks : length checks = length properties)
    by apply duplicateChecks_length.
  assert (Hdata : length properties = length data).
  { unfold properties. by rewrite length_fmap. }
  split; [congruence|]. split.
  { unfold duplicates. rewrite length_fmap, <- Hdata.
    by apply kept_and_duplicates. }
  destruct (complete_runs data s) as (batches & Hcat & Hall & Hfull & Hrun).
  fold properties checks unique duplicates in Hcat, Hrun.
  exists batches. repeat (split; [done|]).
  destruct (upload_batches_keeps batches [] duplicates
              (duplicateChecks 0 properties s).2) as (r & e & Hkeep).
  destruct (upload_batches batches [] duplicates _) as [[results errors] s2].
  cbn [fst] in Hkeep. injection Hkeep as -> ->.
  by exists r, e, s2.
Qed.

(** X29: with a server whose ok answers account for every property of
    the batch, as the bulk create does, the summary adds up: every row is
    counted once, as created, as reported by the server, as a duplicate or as
    a property of a batch that failed, so successful and failed sum to the
    total. *)
Theorem upload_summary_adds_up (data : list Row) (s : S) :
  accounts_for_batches ->
  exists r s',
    complete data s = Some (Ok r, s') /\
    total r = length data /\
    successful r = length (results r) /\
    failed r = length (upload_errors r) /\
    (successful r + failed r = total r)%nat.
Proof.
  intros Hserver.
  destruct (complete_runs data s) as (batches & Hcat & Hall & Hfull & Hrun).
  set (properties := property_of <$> data) in *.
  set (checks := (duplicateChecks 0 properties s).1) in *.
  set (duplicates := (fun dup => duplicate _ _) <$> List.filter isDuplicate checks) in *.
  pose proof (upload_batches_counts batches [] duplicates
                (duplicateChecks 0 properties s).2 Hserver) as Hcount.
  destruct (upload_batches batches [] duplicates _) as [[results errors] s2].
  cbn [fst snd] in Hcount. eexists _, s2. split; [exact Hrun|].
  cbn [total successful failed Upload.results upload_errors].
  repeat (split; [done|]).
  rewrite Hcount, Hcat. cbn [length]. unfold duplicates.
  rewrite length_fmap.
  assert (Hchecks : length checks = length properties)
    by apply duplicateChecks_length.
  pose proof (kept_and_duplicates properties checks Hchecks) as Hk.
  assert (Hd : length properties = length data).
  { unfold properties. by rewrite length_fmap. }
  lia.
Qed.

End Upload.

#[local] Existing Instance ascii_letters.

Lemma validate_accepts_witness :
  isValid (validate (take 5 seven_rows)) = true /\
  isValid (validate (drop 5 seven_rows)) = false /\
  isValid (validate [parcel_row (Str no_break_space)]) = false.
Proof.
  split; [|split].
  - apply (proj2 (validate_accepts (take 5 seven_rows))).
    eexists _, _, "Parcel Number". split; [reflexivity|]. split; [reflexivity|].
    repeat (constructor; [by vm_compute|]). constructor.
  - destruct (isValid (validate (drop 5 seven_rows))) eqn:H; [|done].
    apply (proj2 (validate_accepts (drop 5 seven_rows))) in H
      as (first & rest & key & [= <- <-] & [= <-] & Hall).
    inversion Hall as [|? ? _ Hrest]; subst.
    inversion Hrest as [|? ? [Ht _] _]; subst. by vm_compute in Ht.
  - destruct (isValid (validate [parcel_row (Str no_break_space)])) eqn:H;
      [|done].
    apply (proj2 (validate_accepts [parcel_row (Str no_break_space)])) in H
      as (first & rest & key & [= <- <-] & [= <-] & Hall).
    inversion Hall as [|? ? [_ Ht] _]; subst. by vm_compute in Ht.
Defined.

Lemma property_of_row_witness :
  property_of (parcel_row (Str (no_break_space +:+ " 1 " +:+ no_break_space)))
  = {| apn := "1";
       address := "Property " +:+ no_break_space +:+ " 1 " +:+ no_break_space |} /\
  property_of [("city", Str "Detroit")]
  = {| apn := "undefined"; address := "Property undefined" |}.
Proof.
  split; [reflexivity|].
  apply (proj2 (proj2 (proj2 (property_of_row [("city", Str "Detroit")])))).
  reflexivity.
Defined.

Lemma upload_posts_each_property_once_witness :
  length (duplicateChecks (backend := accepting) 0
            (property_of <$> seven_rows) 0%nat).1
  = length seven_rows.
Proof.
  exact (proj1 (upload_posts_each_property_once (backend := accepting)
                  seven_rows 0%nat)).
Defined.

Lemma accepting_accounts : accounts_for_batches (backend := accepting).
Proof.
  intros batch s result s' [= <- <-]. eexists _, [].
  split; [done|]. split; [reflexivity|]. split; [reflexivity|].
  rewrite length_fmap. cbn. lia.
Defined.

Lemma upload_summary_adds_up_witness :
  exists r,
    complete (backend := accepting) seven_rows 0%nat = Some (Ok r, 2%nat) /\
    total r = 7%nat /\ successful r = 6%nat /\ failed r = 1%nat /\
    results r = Str <$> ["1"; "2"; "4"; "5"; "6"; "undefined"] /\
    upload_errors r
    = [duplicate "dup" "APN dup already exists in your portfolio"].
Proof.
  destruct (upload_summary_adds_up (backend := accepting) seven_rows 0%nat
              accepting_accounts) as (r & s' & Hr & _).
  exists r. vm_compute in Hr. injection Hr as <- <-.
  vm_compute. repeat split; reflexivity.
Defined.

End UploadMore.

(** ** The CSV upload, earlier revision *)

Module UploadV1More.

Import UploadV1 MoreSpec.

Section Upload.

Context {S : Type} {backend : Backend S} {unicode : Unicode}.

Lemma earlier_loop_done fuel i properties results errors (s : S) :
  (length properties <= i)%nat ->
  upload_loop fuel i properties results errors s = Some ((results, errors), s).
Proof.
  intros H%Nat.ltb_ge. destruct fuel; cbn [upload_loop]; by rewrite H.
Qed.

(** One batch adds its created records to the results; it adds one error
    when it fails, and then no result unless the answer broke off after its
    created records. *)
Lemma earlier_batch_counts i batch results errors (s : S) :
  accounts_for_batches_v1 ->
  (0 < length batch)%nat ->
  let after := (upload_batch i batch results errors s).1 in
  (length results + length errors < length after.1 + length after.2
   <= length results + length errors + length batch)%nat.
Proof.
  intros Hserver Hbatch. unfold upload_batch.
  destruct (post_properties batch s) as [[[[] result]|m] s'] eqn:Hpost;
    cbn [fst snd].
  - destruct (Hserver _ _ _ _ Hpost) as (created & errs & Hn & Hc & He & Hlen).
    rewrite !NormalizeFacts.member_defined by done.
    cbn [mbind result_bind]. rewrite Hc, He. cbn [Upload.spread_arguments fst snd].
    rewrite !length_app, length_fmap. lia.
  - destruct (member result "error"); cbn [fst snd];
      rewrite length_app; cbn [length]; lia.
  - rewrite length_app. cbn [length]. lia.
Qed.

Lemma earlier_batch_down i batch results errors (s : S) :
  (forall batch s, exists m s', post_properties batch s = (Throw m, s')) ->
  exists m s',
    upload_batch i batch results errors s
    = ((results, errors ++ [batch_error (i / batchSize + 1) m]), s').
Proof.
  intros Hdown. destruct (Hdown batch s) as (m & s' & Hpost).
  exists m, s'. unfold upload_batch. by rewrite Hpost.
Qed.

Lemma earlier_loop_counts fuel i properties results errors (s : S) :
  accounts_for_batches_v1 ->
  (length properties - i <= fuel)%nat ->
  exists results' errors' s',
    upload_loop fuel i properties results errors s
    = Some ((results', errors'), s') /\
    (length results + length errors <= length results' + length errors'
     <= length results + length errors + (length properties - i))%nat.
Proof.
  intros Hserver. revert i results errors s.
  induction fuel as [|fuel IH]; intros i results errors s Hfuel.
  { rewrite earlier_loop_done by lia. eexists _, _, _. split; [done|]. lia. }
  destruct (decide (length properties <= i)%nat) as [Hi|Hi].
  { rewrite earlier_loop_done by lia. eexists _, _, _. split; [done|]. lia. }
  cbn [upload_loop]. rewrite (proj2 (Nat.ltb_lt _ _)) by lia.
  set (batch := take batchSize (drop i properties)).
  assert (Hlen : length batch = Nat.min batchSize (length properties - i)).
  { unfold batch. by rewrite length_take, length_drop. }
  pose proof (earlier_batch_counts i batch results errors s Hserver) as Hb.
  destruct (upload_batch i batch results errors s) as [[results1 errors1] s1].
  cbn [fst snd] in Hb.
  destruct (IH (i + batchSize)%nat results1 errors1 s1)
    as (results' & errors' & s' & Hloop & Hcount).
  { unfold batchSize. lia. }
  exists results', errors', s'. split; [done|].
  unfold batchSize in *. lia.
Qed.

Lemma earlier_loop_down fuel i properties results errors (s : S) :
  (forall batch s, exists m s', post_properties batch s = (Throw m, s')) ->
  (length properties - i <= fuel)%nat ->
  exists more s',
    upload_loop fuel i properties results errors s
    = Some ((results, errors ++ more), s') /\
    length more = ((length properties - i + 9) / 10)%nat.
Proof.
  intros Hdown. revert i errors s.
  induction fuel as [|fuel IH]; intros i errors s Hfuel.
  { rewrite earlier_loop_done by lia. exists [], s. rewrite app_nil_r. split; [done|].
    replace (length properties - i)%nat with 0%nat by lia. done. }
  destruct (decide (length properties <= i)%nat) as [Hi|Hi].
  { rewrite earlier_loop_done by lia. exists [], s. rewrite app_nil_r. split; [done|].
    replace (length properties - i)%nat with 0%nat by lia. done. }
  cbn [upload_loop]. rewrite (proj2 (Nat.ltb_lt _ _)) by lia.
  set (batch := take batchSize (drop i properties)).
  destruct (earlier_batch_down i batch results errors s Hdown) as (m & s1 & ->).
  destruct (IH (i + batchSize)%nat (errors ++ [batch_error (i / batchSize + 1) m]) s1)
    as (more & s' & Hloop & Hmore).
  { unfold batchSize. lia. }
  exists (batch_error (i / batchSize + 1) m :: more), s'. split.
  - by rewrite Hloop, <- app_assoc.
  - cbn [length]. rewrite Hmore. unfold batchSize.
    destruct (decide (length properties - i <= 10)%nat) as [Hlast|Hlast].
    + replace (length properties - (i + 10) + 9)%nat with 9%nat by lia.
      apply (Nat.div_unique _ 10 1 (length properties - i - 1)); lia.
    + replace (length properties - i + 9)%nat
        with (1 * 10 + (length properties - (i + 10) + 9))%nat by lia.
      by rewrite Nat.div_add_l.
Qed.

(** X30: in the earlier revision a batch that fails is one error,
    however many properties it holds.  With a server whose ok answers account
    for every property of the batch, the upload always ends with the number
    of rows as the total and with successful and failed summing to at most
    the total; and with a server that fails every request nothing is
    successful and failed is the number of batches of ten, not the number of
    rows. *)
Theorem earlier_upload_counts_batches (detectedFormat : Upload.Format)
  (data : list Upload.Row) (s : S) :
  (accounts_for_batches_v1 ->
   exists r s',
     complete detectedFormat data s = Some (r, s') /\
     total r = length data /\
     successful r = length (results r) /\
     failed r = length (upload_errors r) /\
     (successful r + failed r <= total r)%nat) /\
  ((forall batch s, exists m s', post_properties batch s = (Throw m, s')) ->
   exists r s',
     complete detectedFormat data s = Some (r, s') /\
     total r = length data /\
     successful r = 0%nat /\
     failed r = ((length data + 9) / 10)%nat).
Proof.
  split.
  - intros Hserver. unfold complete.
    set (properties := property_of detectedFormat <$> data).
    destruct (earlier_loop_counts (length properties) 0 properties [] [] s Hserver)
      as (results & errors & s' & -> & Hcount); [lia|].
    eexists _, s'. split; [done|].
    cbn [total successful failed UploadV1.results upload_errors].
    unfold properties in *. rewrite length_fmap in *. cbn [length] in Hcount.
    repeat split. lia.
  - intros Hdown. unfold complete.
    set (properties := property_of detectedFormat <$> data).
    destruct (earlier_loop_down (length properties) 0 properties [] [] s Hdown)
      as (more & s' & -> & Hmore); [lia|].
    eexists _, s'. split; [done|].
    cbn [total successful failed UploadV1.results upload_errors app length].
    unfold properties in *. rewrite length_fmap in *.
    rewrite Nat.sub_0_r in Hmore. by rewrite Hmore.
Qed.

End Upload.

#[local] Existing Instance ascii_letters.

Lemma earlier_upload_counts_batches_witness :
  exists r,
    complete (backend := down) Upload.apn_format seven_rows tt = Some (r, tt) /\
    total r = 7%nat /\ successful r = 0%nat /\ failed r = 1%nat.
Proof.
  destruct (proj2 (earlier_upload_counts_batches (backend := down)
                     Upload.apn_format seven_rows tt))
    as (r & s' & Hr & Ht & Hs & Hf).
  { intros batch s. by exists "Failed to fetch", s. }
  exists r. destruct s'. by repeat split.
Defined.

End UploadV1More.
